(** * Frame-request service: a shallow embedding and its verified properties

    The development follows the Python sources:
      - [src/utils/db_managment.py]  (class [SQLHandler]),
      - [src/models/models.py]       (the dataclasses),
      - [src/utils/utility.py]       (resolvers, rule engine, [main]),
      - [src/utils/export_to_fbw.py] ([convert_to_xml]),
      - [src/hspm_version_mapper.py] (the two tables),
      - [src/main.py]                ([request_frames]).

    Python code that raises, mutates list objects, talks to SQLite or
    sleeps is written in a small state-and-exception monad [M] over a
    [world] record: the database files, the answers of the SQLite
    engine to come, the heap of list objects, the module-level global
    [hspm_version] of [utility.py], and a trace of the calls made.

    Conventions of the embedding:
      - strings are sequences of ASCII characters; [lower], [upper] and
        the regular expressions act on that range;
      - a [float] is a rational number: finite floats are rationals, the
        code modelled here compares them, and its one product,
        0.5 x (attempt + 1), is exact;
      - request bodies are taken with their JSON-encoded fields decoded,
        and well typed: scalar fields are strings, a tool declaration
        carries its name and version as strings, a frameset its
        description and its lists of names, and an entry of the packing
        result its ROP and its three lists of names;
      - [sqlite3.connect] succeeds; a file without the tables makes its
        statements fail, as an empty file created by [connect] does;
      - logging and the dumps to [input.json] and [output.json] leave no
        mark on the world. *)

From Stdlib Require Import ZArith QArith Lqa Ascii String.
From stdpp Require Import base strings list gmap sorting pretty.

Local Open Scope string_scope.
Local Open Scope Z_scope.

(* ===================================================================== *)
(** ** Python strings *)
(* ===================================================================== *)

Module Py.

(** [c.lower()] on the ASCII range. *)
Definition lower_ascii (c : ascii) : ascii :=
  let n := N_of_ascii c in
  if ((65 <=? n) && (n <=? 90))%N then ascii_of_N (n + 32) else c.

(** [s.lower()] *)
Fixpoint lower (s : string) : string :=
  match s with
  | "" => ""
  | String c s' => String (lower_ascii c) (lower s')
  end.

(** [s.startswith(p)] *)
Definition startswith (s p : string) : bool := String.prefix p s.

(** [sub in s] *)
Fixpoint contains (sub s : string) : bool :=
  String.prefix sub s ||
  match s with
  | "" => false
  | String _ s' => contains sub s'
  end.

(** [s.split(sep)] for a non-empty separator.  [skip] counts the
    characters of a separator that was just recognised and that are
    still to be dropped; [cur] is the current piece, reversed. *)
Fixpoint split_aux (sep : string) (skip : nat) (cur s : string) : list string :=
  match s with
  | "" => [String.rev cur]
  | String c s' =>
      match skip with
      | S k => split_aux sep k cur s'
      | O =>
          if String.prefix sep s
          then String.rev cur :: split_aux sep (String.length sep - 1) "" s'
          else split_aux sep 0 (String c cur) s'
      end
  end.

Definition split (s sep : string) : list string := split_aux sep 0 "" s.

(** [x in l] for a list of strings. *)
Definition mem (x : string) (l : list string) : bool := bool_decide (x ∈ l).

(** [l.index(x)]: position of the first occurrence. *)
Fixpoint index (x : string) (l : list string) : option nat :=
  match l with
  | [] => None
  | y :: l' => if decide (x = y) then Some O else S <$> index x l'
  end.

(** [l.pop(i)] seen from the list: the list without position [i]. *)
Definition pop_at (i : nat) (l : list string) : list string := delete i l.

End Py.

(* ===================================================================== *)
(** ** Exceptions *)
(* ===================================================================== *)

(** The two kinds of [sqlite3.Error] the code tells apart:
    [sqlite3.OperationalError] and every other subclass. *)
Inductive sqlite_error :=
| OperationalError (msg : string)
| DatabaseError (msg : string).

Inductive exn :=
| StopIteration
| ValueError (msg : string)
| TypeError (msg : string)
| AttributeError (msg : string)
| IndexError (msg : string)
| HTTPException (status_code : Z) (detail : string)
| Sqlite (e : sqlite_error).

(** [str(e)] *)
Definition str_exn (e : exn) : string :=
  match e with
  | StopIteration => ""
  | ValueError m | TypeError m | AttributeError m | IndexError m => m
  | HTTPException c d => d
  | Sqlite (OperationalError m) | Sqlite (DatabaseError m) => m
  end.

(* ===================================================================== *)
(** ** Catalog and status store *)
(* ===================================================================== *)

(** A document held in [XmlStorage.xml_content]: the empty and the
    ["FAILED | ..."] markers are [str]; a serialized document is the
    [bytes] value returned by [ET.tostring]. *)
Inductive pydoc :=
| PStr (s : string)
| PBytes (b : string).

Module DPointRow.
Record t := mk {
  DPOINT_NAME : string;
  DPOINT_DATPID : Z;
  NO_OF_BITS : Z;
  TOOL_LTB_ADDR : Z;
  DPOINT_SHORT_DESCRIPTION : string }.
End DPointRow.

Module ToolRow.
Record t := mk {
  ToolID : string;
  DisplayToolName : string;
  LTBAddress : Z;
  IsMWDTool : bool;
  DPointNameSuffix : string }.
End ToolRow.

Module ToolVersionRow.
Record t := mk {
  ToolID : string;
  Version : string }.
End ToolVersionRow.

(** One SQLite file: the three catalog tables and the status table
    [XmlStorage], keyed by [uid]. *)
Record database := mk_database {
  DPoint : list DPointRow.t;
  Tool : list ToolRow.t;
  ToolVersion : list ToolVersionRow.t;
  XmlStorage : gmap string (pydoc * Z) }.

Definition set_XmlStorage (t : gmap string (pydoc * Z)) (db : database) : database :=
  mk_database (DPoint db) (Tool db) (ToolVersion db) t.

(* ===================================================================== *)
(** ** The world and the monad *)
(* ===================================================================== *)

Inductive event :=
| EvSleep (seconds : Q)          (* time.sleep *)
| EvCatalog (file : string)      (* a query on the catalog tables *)
| EvPacking.                     (* a call of build_frames_from_json *)

(** [files]: the database files next to the module, by file name.
    [engine]: what SQLite answers to the successive [execute]/[commit]
    calls, [None] for success; an exhausted list means no more faults.
    [heap]: the Python list objects that hold data-point names.
    [hspm_version]: the module-level global of [utility.py].
    [trace]: the calls observed so far, oldest first. *)
Record world := mk_world {
  files : gmap string database;
  engine : list (option sqlite_error);
  heap : gmap nat (list string);
  hspm_version : string;
  trace : list event }.

Definition set_files f (w : world) :=
  mk_world f (engine w) (heap w) (hspm_version w) (trace w).
Definition set_engine e (w : world) :=
  mk_world (files w) e (heap w) (hspm_version w) (trace w).
Definition set_heap h (w : world) :=
  mk_world (files w) (engine w) h (hspm_version w) (trace w).
Definition set_hspm_version v (w : world) :=
  mk_world (files w) (engine w) (heap w) v (trace w).
Definition set_trace t (w : world) :=
  mk_world (files w) (engine w) (heap w) (hspm_version w) t.

Definition M (A : Type) : Type := world → (exn + A) * world.

Definition ret {A} (a : A) : M A := λ w, (inr a, w).
Definition raise {A} (e : exn) : M A := λ w, (inl e, w).
Definition bind {A B} (c : M A) (k : A → M B) : M B :=
  λ w, match c w with
       | (inr a, w') => k a w'
       | (inl e, w') => (inl e, w')
       end.

(** [try: c  except Exception as e: h e] *)
Definition try_except {A} (c : M A) (h : exn → M A) : M A :=
  λ w, match c w with
       | (inr a, w') => (inr a, w')
       | (inl e, w') => h e w'
       end.

Notation "'let*' x ':=' c 'in' k" := (bind c (λ x, k))
  (at level 10, x pattern, c at level 100, k at level 200, only parsing).
Notation "'do*' c 'in' k" := (bind c (λ _, k))
  (at level 10, c at level 100, k at level 200, only parsing).

Definition get_world : M world := λ w, (inr w, w).
Definition emit (ev : event) : M unit :=
  λ w, (inr tt, set_trace (trace w ++ [ev]) w).

(** [time.sleep(seconds)] *)
Definition sleep (seconds : Q) : M unit := emit (EvSleep seconds).

(* ===================================================================== *)
(** ** SQLite primitives *)
(* ===================================================================== *)

(** One call into the engine: it answers with the head of [engine]. *)
Definition engine_step : M unit :=
  λ w, match engine w with
       | Some err :: rest => (inl (Sqlite err), set_engine rest w)
       | None :: rest => (inr tt, set_engine rest w)
       | [] => (inr tt, w)
       end.

(** [cursor.execute(...)] of a statement read as the function [q] of the
    database; a file without the tables makes the statement fail. *)
Definition execute {A} (file : string) (q : database → A) : M A :=
  do* engine_step in
  let* w := get_world in
  match files w !! file with
  | Some db => ret (q db)
  | None => raise (Sqlite (OperationalError "no such table"))
  end.

(** [conn.commit()] of the pending status table [t]. *)
Definition commit (file : string) (t : gmap string (pydoc * Z)) : M unit :=
  do* engine_step in
  λ w, (inr tt, set_files (alter (set_XmlStorage t) file (files w)) w).

(** [except sqlite3.Error as e: logging.error(...)], the handler every
    method of [SQLHandler] ends with: the method then returns [None]. *)
Definition except_sqlite_Error {A} (none : A) (e : exn) : M A :=
  match e with
  | Sqlite _ => ret none
  | _ => raise e
  end.

(* ===================================================================== *)
(** ** SQLHandler *)
(* ===================================================================== *)

Definition retries : Z := 5.

(** The loop of [retry_on_lock.wrapper] over the remaining values of
    [attempt]; falling out of the loop returns [None]. *)
Fixpoint retry_loop {A} (attempts : list Z) (func : M A) : M (option A) :=
  match attempts with
  | [] => ret None
  | attempt :: rest =>
      try_except (let* a := func in ret (Some a))
        (λ e, match e with
              | Sqlite (OperationalError _) =>
                  if Py.contains "locked" (Py.lower (str_exn e))
                     && (attempt <? retries - 1)
                  then do* sleep ((1 # 2) * inject_Z (attempt + 1)) in
                       retry_loop rest func
                  else raise e
              | _ => raise e
              end)
  end.

Definition retry_on_lock {A} (func : M A) : M (option A) :=
  retry_loop (seqZ 0 retries) func.

(** A decorated method whose body returns nothing. *)
Definition retry_on_lock_ {A} (func : M A) : M unit :=
  do* retry_on_lock func in ret tt.

Definition load_xml_from_sqlite (file uid : string) : M (option (pydoc * Z)) :=
  let* r := retry_on_lock
         (try_except
            (execute file (λ db, XmlStorage db !! uid))
            (except_sqlite_Error None)) in
  ret (mjoin r).

(** [INSERT OR IGNORE INTO XmlStorage VALUES (uid, "", 200)] *)
Definition insert_or_ignore (uid : string) (t : gmap string (pydoc * Z)) :=
  match t !! uid with
  | Some _ => t
  | None => <[uid := (PStr "", 200)]> t
  end.

Definition insert_uid_with_none (file uid : string) : M unit :=
  retry_on_lock_
    (try_except
       (let* t := execute file (λ db, insert_or_ignore uid (XmlStorage db)) in
        commit file t)
       (except_sqlite_Error tt)).

(** [UPDATE XmlStorage SET xml_content = ?, status = ? WHERE uid = ?] *)
Definition update_row (uid : string) (xml_content : pydoc) (status : Z)
    (t : gmap string (pydoc * Z)) :=
  match t !! uid with
  | Some _ => <[uid := (xml_content, status)]> t
  | None => t
  end.

Definition update_xml_in_sqlite (file uid : string) (xml_content : pydoc)
    (status : Z) : M unit :=
  retry_on_lock_
    (try_except
       (let* t := execute file (λ db, update_row uid xml_content status (XmlStorage db)) in
        commit file t)
       (except_sqlite_Error tt)).

(** [REPLACE INTO XmlStorage VALUES (uid, xml_content, status)] *)
Definition save_xml_to_sqlite (file uid : string) (xml_content : pydoc)
    (status : Z) : M unit :=
  retry_on_lock_
    (try_except
       (let* t := execute file (λ db, <[uid := (xml_content, status)]> (XmlStorage db)) in
        commit file t)
       (except_sqlite_Error tt)).

(** [DELETE FROM XmlStorage WHERE uid = ?] *)
Definition remove_uid_from_db (file uid : string) : M unit :=
  retry_on_lock_
    (try_except
       (let* t := execute file (λ db, delete uid (XmlStorage db)) in
        commit file t)
       (except_sqlite_Error tt)).

(* ===================================================================== *)
(** ** models.py *)
(* ===================================================================== *)

(** A Python number: [int] or (finite) [float]. *)
Inductive pynum :=
| PInt (z : Z)
| PFloat (q : Q).

Definition num_value (n : pynum) : Q :=
  match n with
  | PInt z => inject_Z z
  | PFloat q => q
  end.

(** [a != b] on values that are a number or [None]. *)
Definition py_ne (a b : option pynum) : bool :=
  match a, b with
  | None, None => false
  | Some x, Some y => negb (Qeq_bool (num_value x) (num_value y))
  | _, _ => true
  end.

Module DPOINT.
Record t := mk {
  name : string;
  datpid : Z;
  length : Z;
  is_mwd : bool;
  ltb_addr : Z;
  description : string;
  time : option Q;
  depth : option Q }.

Definition set_time (v : Q) (d : t) : t :=
  mk (name d) (datpid d) (length d) (is_mwd d) (ltb_addr d) (description d)
     (Some v) (depth d).
Definition set_depth (v : Q) (d : t) : t :=
  mk (name d) (datpid d) (length d) (is_mwd d) (ltb_addr d) (description d)
     (time d) (Some v).
End DPOINT.

Module TOOL.
Record t := mk {
  tool_id : string;
  display_name : string;
  ltb_addr : Z;
  is_mwd : bool;
  dpoint_suffix : string;
  version : option string;
  size : option string;
  tr_spacing : option pynum;
  rt_blocksize : option pynum }.

Definition set_version (v : option string) (x : t) : t :=
  mk (tool_id x) (display_name x) (ltb_addr x) (is_mwd x) (dpoint_suffix x)
     v (size x) (tr_spacing x) (rt_blocksize x).
Definition set_size (v : option string) (x : t) : t :=
  mk (tool_id x) (display_name x) (ltb_addr x) (is_mwd x) (dpoint_suffix x)
     (version x) v (tr_spacing x) (rt_blocksize x).
Definition set_ddr (sp bl : option pynum) (x : t) : t :=
  mk (tool_id x) (display_name x) (ltb_addr x) (is_mwd x) (dpoint_suffix x)
     (version x) (size x) sp bl.
End TOOL.

Module FSL.
Record t := mk {
  description : string;
  bitrate : option pynum;
  rop : option pynum;
  nonorion_update : option pynum;
  orion_update : option pynum;
  R1_block : option pynum;
  R1_space : option pynum;
  R2_block : option pynum;
  R2_space : option pynum;
  R3_block : option pynum;
  R3_space : option pynum;
  min_bounds_pct : Z;
  max_bounds_pct : Z;
  max_dpoints : Z;
  mtf : list DPOINT.t;
  gtf : list DPOINT.t;
  rotary : list DPOINT.t }.

(** [models.FSL()] *)
Definition default : t :=
  mk "" (Some (PInt 6)) (Some (PInt 100)) (Some (PInt 1)) (Some (PInt 6))
     None None None None None None 10 50 165 [] [] [].

(** The four assignments of [update_fsl]. *)
Definition update (r : option pynum) (m g ro : list DPOINT.t) (f : t) : t :=
  mk (description f) (bitrate f) r (nonorion_update f) (orion_update f)
     (R1_block f) (R1_space f) (R2_block f) (R2_space f) (R3_block f)
     (R3_space f) (min_bounds_pct f) (max_bounds_pct f) (max_dpoints f)
     m g ro.
End FSL.

Module UTILITY.
Record t := mk {
  description : string;
  bitrate : option pynum;
  rop : option pynum;
  utility : list DPOINT.t }.

Definition set_utility (u : list DPOINT.t) (x : t) : t :=
  mk (description x) (bitrate x) (rop x) u.
End UTILITY.

Module FRAME_REQUEST.
Record t := mk {
  uid : string;
  job_number : string;
  well_name : string;
  section_size : string;
  fsl1 : FSL.t;
  fsl2 : FSL.t;
  fsl3 : FSL.t;
  fsl4 : FSL.t;
  fsl5 : FSL.t;
  fsl6 : FSL.t;
  utility : UTILITY.t;
  num_of_fsl : Z;
  odf_required : bool;
  modf_required : bool;
  provision_bha : bool;
  ddr_bha : bool;
  hspm_version : option string;
  tools : list TOOL.t;
  odf_frame : list DPOINT.t;
  modf_frame : list (list DPOINT.t);
  dds_frame : list DPOINT.t }.

Definition set_frames (f1 f2 f3 f4 f5 f6 : FSL.t) (u : UTILITY.t) (r : t) : t :=
  mk (uid r) (job_number r) (well_name r) (section_size r)
     f1 f2 f3 f4 f5 f6 u
     (num_of_fsl r) (odf_required r) (modf_required r) (provision_bha r)
     (ddr_bha r) (hspm_version r) (tools r) (odf_frame r) (modf_frame r)
     (dds_frame r).
End FRAME_REQUEST.

(* ===================================================================== *)
(** ** Catalog queries of SQLHandler *)
(* ===================================================================== *)

(** A result row of [select_dpoints_from_db_with_tools], already passed
    to the constructor [models.DPOINT]. *)
Definition dpoint_of_row (d : DPointRow.t) (t : ToolRow.t) : DPOINT.t :=
  DPOINT.mk (DPointRow.DPOINT_NAME d) (DPointRow.DPOINT_DATPID d)
    (DPointRow.NO_OF_BITS d) (ToolRow.IsMWDTool t)
    (DPointRow.TOOL_LTB_ADDR d) (DPointRow.DPOINT_SHORT_DESCRIPTION d)
    None None.

Definition name_le (a b : DPOINT.t) : Prop :=
  String.le (DPOINT.name a) (DPOINT.name b).

Global Instance name_le_dec : RelDecision name_le.
Proof. intros a b. unfold name_le. apply _. Defined.

(** [DPoint INNER JOIN Tool ON LTBAddress = TOOL_LTB_ADDR
     WHERE TOOL_LTB_ADDR IN tools AND DPOINT_NAME IN dpoint_names] *)
Definition join_dpoints (dpoint_names : list string) (tools : list Z)
    (db : database) : list DPOINT.t :=
  d ← filter (λ d, DPointRow.TOOL_LTB_ADDR d ∈ tools
                   ∧ DPointRow.DPOINT_NAME d ∈ dpoint_names) (DPoint db);
  t ← filter (λ t, ToolRow.LTBAddress t = DPointRow.TOOL_LTB_ADDR d) (Tool db);
  [dpoint_of_row d t].

(** ... [ORDER BY DPOINT_NAME ASC] *)
Definition query_dpoints (dpoint_names : list string) (tools : list Z)
    (db : database) : list DPOINT.t :=
  merge_sort name_le (join_dpoints dpoint_names tools db).

Definition select_dpoints_from_db_with_tools (file : string)
    (dpoint_names : list string) (tools : list Z) : M (option (list DPOINT.t)) :=
  let* r := retry_on_lock
         (do* emit (EvCatalog file) in
          try_except
            (let* rows := execute file (query_dpoints dpoint_names tools) in
             ret (Some rows))
            (except_sqlite_Error None)) in
  ret (mjoin r).

(** The greatest string of a list, [None] for the empty list:
    [MAX(Version)], and the first row of [ORDER BY Version DESC]. *)
Definition max_string (l : list string) : option string :=
  foldr (λ s acc, match acc with
                  | Some m => Some (if String.leb s m then m else s)
                  | None => Some s
                  end) None l.

Definition versions_of (tool_id : string) (db : database) : list string :=
  ToolVersionRow.Version <$>
    filter (λ v, ToolVersionRow.ToolID v = tool_id) (ToolVersion db).

Definition tool_id_le (a b : TOOL.t) : Prop :=
  String.le (TOOL.tool_id a) (TOOL.tool_id b).

Global Instance tool_id_le_dec : RelDecision tool_id_le.
Proof. intros a b. unfold tool_id_le. apply _. Defined.

(** [select_tools_from_db], each row passed to the constructor [models.TOOL].
    [ToolID] is the primary key of [Tool], so each selected row is a
    group of its own; the groups come out in key order. *)
Definition query_tools (tool_names : list string) (db : database) : list TOOL.t :=
  merge_sort tool_id_le
    ((λ t, TOOL.mk (ToolRow.ToolID t) (ToolRow.DisplayToolName t)
             (ToolRow.LTBAddress t) (ToolRow.IsMWDTool t)
             (ToolRow.DPointNameSuffix t)
             (max_string (versions_of (ToolRow.ToolID t) db))
             None None None) <$>
     filter (λ t, ToolRow.DisplayToolName t ∈ tool_names) (Tool db)).

Definition select_tools_from_db (file : string) (tool_names : list string)
    : M (option (list TOOL.t)) :=
  let* r := retry_on_lock
         (do* emit (EvCatalog file) in
          try_except
            (let* rows := execute file (query_tools tool_names) in
             ret (Some rows))
            (except_sqlite_Error None)) in
  ret (mjoin r).

Definition select_tool_latest_version_from_db (file tool_id : string)
    : M (option string) :=
  let* r := retry_on_lock
         (do* emit (EvCatalog file) in
          try_except
            (execute file (λ db, max_string (versions_of tool_id db)))
            (except_sqlite_Error None)) in
  ret (mjoin r).

(* ===================================================================== *)
(** ** The request and what comes from outside the repository *)
(* ===================================================================== *)

(** A value of a JSON field that is a number, a string or null. *)
Inductive pyval :=
| VNone
| VNum (n : pynum)
| VStr (s : string).

(** [bool(v)] *)
Definition truthy (v : pyval) : bool :=
  match v with
  | VNone => false
  | VNum n => negb (Qeq_bool (num_value n) 0)
  | VStr s => negb (String.eqb s "")
  end.

Module ToolDecl.
(** An entry of the ["TOOLS"] list of a frameset. *)
Record t := mk { NAME : string; VERSION : string }.
End ToolDecl.

Module FslData.
(** The keys of [data["fsl<i>"]] read here, JSON strings decoded. *)
Record t := mk {
  description : string;
  bitrate : option pynum;
  ROP : option pynum;
  TOOLS : list ToolDecl.t;
  UTIL : list string;
  MTF : list string;
  GTF : list string;
  ROT : list string }.
End FslData.

Module Request.
(** The request body [data].  A missing string key is [""]. *)
Record t := mk {
  uid : string;
  hspm_version : string;
  job_number : string;
  well_name : string;
  section_size : option string;
  num_of_fsl : string;
  modf_required : string;
  provision_bha : string;
  ddr_bha : string;
  fsl1 : option FslData.t;
  fsl2 : option FslData.t;
  fsl3 : option FslData.t;
  fsl4 : option FslData.t;
  fsl5 : option FslData.t;
  fsl6 : option FslData.t }.
End Request.

Module OutFsl.
(** An entry [fsl<i>] of the packing service's first result: the
    corrected ["Parameters"]["ROP"] and the corrected name lists. *)
Record t := mk {
  ROP : option pynum;
  mtf : list string;
  gtf : list string;
  rotary : list string }.
End OutFsl.

Module Output.
(** The first result of [build_frames_from_json]; an entry that is
    absent or empty is [None], as is an absent or empty utility list. *)
Record t := mk {
  fsl1 : option OutFsl.t;
  fsl2 : option OutFsl.t;
  fsl3 : option OutFsl.t;
  fsl4 : option OutFsl.t;
  fsl5 : option OutFsl.t;
  fsl6 : option OutFsl.t;
  utility : option (list string) }.
End Output.

(** An [xml.etree.ElementTree.Element]: tag, attributes in insertion
    order, text, children. *)
#[warnings="-register-all"]
Inductive element :=
| Element (tag : string) (attrib : list (string * string))
    (text : option string) (children : list element).

(** The second result of [build_frames_from_json]:
    frameset name ↦ field name ↦ message or [None]. *)
Definition packing_errors := list (string * list (string * option string)).

(** Library functions, the clock, the host, and the packages of this
    service that are not part of the repository's sources
    ([signature], [frame_builder], [frame_library]). *)
Record Outside := mk_Outside {
  (** [float(s)] on a [str]; [None] when it raises [ValueError] *)
  float_of_str : string → option Q;
  (** [str(x)] on a [float] *)
  repr_float : Q → string;
  (** [datetime.today().date().isoformat()] *)
  today : string;
  (** the two [datetime.now().isoformat()] of [convert_to_xml] *)
  now_run : string;
  now_qc : string;
  (** [socket.gethostname()] *)
  hostname : string;
  (** [ET.tostring(root, encoding="utf-8", method="xml",
      xml_declaration=True)], a [bytes] value *)
  tostring : element → string;
  (** [DigitalSignature().sign_doc] *)
  sign_doc : pydoc → string;
  (** [frame_builder.build_frames_from_json] *)
  build_frames_from_json : FRAME_REQUEST.t → Output.t * packing_errors;
  (** Lines 667–668 and 677–739 of [utility.main]: DDR update, the
      [FRAME_REQUEST] built by [get_fsl_data], and the frames taken from
      [FRAME_LIBRATY]. *)
  assemble : Request.t → list TOOL.t → M FRAME_REQUEST.t }.

(* ===================================================================== *)
(** ** utility.py: resolvers *)
(* ===================================================================== *)

Fixpoint mapM {A B} (f : A → M B) (l : list A) : M (list B) :=
  match l with
  | [] => ret []
  | x :: l' =>
      let* y := f x in
      let* ys := mapM f l' in
      ret (y :: ys)
  end.

(** [next(f(x) for x in l if p(x))] *)
Definition next_of {A B} (f : A → B) (p : A → bool) (l : list A) : M B :=
  match List.find p l with
  | Some x => ret (f x)
  | None => raise StopIteration
  end.

Definition read_list (l : nat) : M (list string) :=
  λ w, (inr (default [] (heap w !! l)), w).

Definition write_list (l : nat) (xs : list string) : M unit :=
  λ w, (inr tt, set_heap (<[l := xs]> (heap w)) w).

(** [dpoint_list.pop(dpoint_list.index(x))] *)
Definition pop_index (l : nat) (x : string) : M unit :=
  let* xs := read_list l in
  match Py.index x xs with
  | Some i => write_list l (Py.pop_at i xs)
  | None => raise (ValueError "x is not in list")
  end.

(** [dpoint_list.append(x)] *)
Definition append (l : nat) (x : string) : M unit :=
  let* xs := read_list l in
  write_list l (xs ++ [x]).

(** [if cond(dpoint_list): act] *)
Definition rule (l : nat) (cond : list string → bool) (act : M unit) : M unit :=
  let* xs := read_list l in
  if cond xs then act else ret tt.

(** [v in allowed] for an attribute that may be [None]. *)
Definition opt_mem (v : option string) (allowed : list string) : bool :=
  match v with
  | Some s => Py.mem s allowed
  | None => false
  end.

Definition is_MP3 (tool : TOOL.t) : bool :=
  String.eqb (TOOL.display_name tool) "MP3".

(** Lines 48–111 of [get_dpoint_list]: the corrections made on the list
    object [dpoint_list] before the catalog is asked. *)
Definition apply_rules (dpoint_list : nat) (tools : list TOOL.t) : M unit :=
  let tool_name_list := TOOL.display_name <$> tools in
  let has := Py.mem in
  do* rule dpoint_list
        (λ xs, (has "RTA" tool_name_list || has "CLNK" tool_name_list)
               && has "TF_b" xs)
        (do* pop_index dpoint_list "TF_b" in append dpoint_list "TFHI_b") in
  do* rule dpoint_list
        (λ xs, (has "DDR_RT_2_r1" xs || has "DDR_RT_3_r1" xs || has "DDR_RT_4_r1" xs)
               && has "DDR_RT_1_r1" xs)
        (pop_index dpoint_list "DDR_RT_1_r1") in
  do* rule dpoint_list
        (λ xs, (has "DDR_RT_2_r2" xs || has "DDR_RT_3_r2" xs || has "DDR_RT_4_r2" xs)
               && has "DDR_RT_1_r2" xs)
        (pop_index dpoint_list "DDR_RT_1_r2") in
  do* rule dpoint_list
        (λ xs, (has "DDR_RT_2_r3" xs || has "DDR_RT_3_r3" xs || has "DDR_RT_4_r3" xs)
               && has "DDR_RT_1_r3" xs)
        (pop_index dpoint_list "DDR_RT_1_r3") in
  do* rule dpoint_list
        (λ xs, has "C_PKPO4_s" xs && has "C_PKPO3_s" xs)
        (pop_index dpoint_list "C_PKPO4_s") in
  do* rule dpoint_list
        (λ xs, (has "GRCNTX_c" xs || has "GRCNT_c" xs) && has "O_grcnt_c" xs)
        (pop_index dpoint_list "O_grcnt_c") in
  do* rule dpoint_list
        (λ xs, (has "O_RHOB_v" xs && has "RHOB_v" xs)
               || (has "O_RHOB_v" xs && has "ROBB_v" xs))
        (pop_index dpoint_list "O_RHOB_v") in
  do* rule dpoint_list
        (λ xs, (has "O_DRHO_v" xs && has "DRHO_v" xs)
               || (has "O_DRHO_v" xs && has "DRHB_v" xs))
        (pop_index dpoint_list "O_DRHO_v") in
  do* rule dpoint_list (has "CS3PK_H_mp")
        (let* version := next_of TOOL.version is_MP3 tools in
         if opt_mem version ["7.7"; "8.4"; "8.5"; "8.7"]
         then rule dpoint_list (λ xs, negb (has "SCLP_mp" xs))
                (append dpoint_list "SCLP_mp")
         else ret tt) in
  do* rule dpoint_list (has "CSSTAT_mp")
        (let* version := next_of TOOL.version is_MP3 tools in
         if opt_mem version ["8.5"; "8.7"]
         then let* size := next_of TOOL.size is_MP3 tools in
              if opt_mem size ["8.25"; "6.75"; "9.0"]
              then rule dpoint_list (λ xs, negb (has "AET_mp" xs))
                     (append dpoint_list "AET_mp")
              else ret tt
         else ret tt) in
  rule dpoint_list (has "O_RBIT_gvr")
    (do* pop_index dpoint_list "O_RBIT_gvr" in append dpoint_list "RESBIT_gvr").

Definition get_hspm_version : M string := λ w, (inr (hspm_version w), w).

(** [float(v)]; [None] when it raises [ValueError] or [TypeError]. *)
Definition py_float (ext : Outside) (v : pyval) : option Q :=
  match v with
  | VNone => None
  | VNum n => Some (num_value n)
  | VStr s => float_of_str ext s
  end.

(** The body of the loop over [dpoints] at the end of [get_dpoint_list],
    with its [except (ValueError, TypeError): continue]: a failure keeps
    what was assigned before it. *)
Definition custom_update (ext : Outside)
    (time_update depth_update : option (gmap string pyval))
    (dpoint : DPOINT.t) : DPOINT.t :=
  match time_update with
  | None => dpoint
  | Some tu =>
      let after_time :=
        match tu !! DPOINT.name dpoint with
        | None => Some dpoint
        | Some v => (λ q, DPOINT.set_time q dpoint) <$> py_float ext v
        end in
      match after_time, depth_update with
      | None, _ => dpoint
      | Some d1, None => d1
      | Some d1, Some du =>
          match du !! DPOINT.name dpoint with
          | Some v =>
              if truthy v
              then match py_float ext v with
                   | Some q => DPOINT.set_depth q d1
                   | None => d1
                   end
              else d1
          | None => d1
          end
      end
  end.

(** [bool(d)] for a dictionary argument that may be [None]. *)
Definition truthy_dict (d : option (gmap string pyval)) : bool :=
  match d with
  | Some m => negb (bool_decide (m = ∅))
  | None => false
  end.

Definition get_dpoint_list (ext : Outside) (dpoint_list : nat)
    (tools : list TOOL.t) (time_update depth_update : option (gmap string pyval))
    : M (list DPOINT.t) :=
  do* apply_rules dpoint_list tools in
  let* names := read_list dpoint_list in
  let* file := get_hspm_version in
  let* dpoints_query :=
    select_dpoints_from_db_with_tools file names (TOOL.ltb_addr <$> tools) in
  let dpoints := default [] dpoints_query in
  if truthy_dict time_update || truthy_dict depth_update
  then ret (custom_update ext time_update depth_update <$> dpoints)
  else ret dpoints.

(** [temp = next(x for x in unique_dpoints if dpoint_string == x.name)];
    a [DPOINT] object is always true, so [temp] is always appended. *)
Definition get_ordered_dpoint_list (dpoint_list : list string)
    (tools : list TOOL.t) : M (list DPOINT.t) :=
  let* file := get_hspm_version in
  let* dpoints_query :=
    select_dpoints_from_db_with_tools file dpoint_list (TOOL.ltb_addr <$> tools) in
  let unique_dpoints := default [] dpoints_query in
  mapM (λ dpoint_string,
          next_of id (λ x, String.eqb dpoint_string (DPOINT.name x)) unique_dpoints)
       dpoint_list.

(* --------------------------------------------------------------------- *)
(** *** Versions and sizes *)

Definition is_digit (c : ascii) : bool :=
  match Ascii.is_nat c with Some _ => true | None => false end.

(** The longest prefix of digits, and what follows it. *)
Fixpoint take_digits (s : string) : string * string :=
  match s with
  | String c s' =>
      if is_digit c
      then let '(d, r) := take_digits s' in (String c d, r)
      else ("", s)
  | "" => ("", "")
  end.

(** The characters [\s] matches in the ASCII range: tab to carriage
    return, the four separators 28 to 31, and the space. *)
Definition is_space (c : ascii) : bool :=
  let n := N_of_ascii c in
  ((9 <=? n) && (n <=? 13) || (28 <=? n) && (n <=? 31) || (n =? 32))%N.

Fixpoint drop_spaces (s : string) : string :=
  match s with
  | String c s' => if is_space c then drop_spaces s' else s
  | "" => ""
  end.

(** [re.search]: the match at the leftmost position that has one. *)
Fixpoint re_search {A} (match_here : string → option A) (s : string) : option A :=
  match match_here s with
  | Some m => Some m
  | None =>
      match s with
      | String _ s' => re_search match_here s'
      | "" => None
      end
  end.

(** The pattern [v\d+\.\d+] at the start of [s]; the result is
    [match.group(0).lstrip("v")]. *)
Definition match_lwd (s : string) : option string :=
  match s with
  | String "v" r =>
      let '(major, r1) := take_digits r in
      match major, r1 with
      | String _ _, String "." r2 =>
          let '(minor, _) := take_digits r2 in
          match minor with
          | String _ _ => Some (major +:+ "." +:+ minor)
          | "" => None
          end
      | _, _ => None
      end
  | _ => None
  end.

(** The pattern [v\s*(\d+)(?:\.(\d+))?] with [re.IGNORECASE] at the start
    of [s]; the result is [match.group(1)]. *)
Definition match_mwd (s : string) : option string :=
  match s with
  | String c r =>
      if Ascii.eqb c "v" || Ascii.eqb c "V"
      then match take_digits (drop_spaces r) with
           | (String a d, _) => Some (String a d)
           | ("", _) => None
           end
      else None
  | "" => None
  end.

Fixpoint get_lwd_version (tool_name : string) (tools_data : list ToolDecl.t)
    : option string :=
  match tools_data with
  | [] => None
  | tool :: rest =>
      if String.eqb (ToolDecl.NAME tool) tool_name
      then match re_search match_lwd (ToolDecl.VERSION tool) with
           | Some v => Some v
           | None => get_lwd_version tool_name rest
           end
      else get_lwd_version tool_name rest
  end.

Fixpoint get_mwd_version (tool_name : string) (tools_data : list ToolDecl.t)
    : option string :=
  match tools_data with
  | [] => None
  | tool :: rest =>
      if String.eqb (ToolDecl.NAME tool) tool_name
      then match re_search match_mwd (ToolDecl.VERSION tool) with
           | Some major => Some (major +:+ "0")
           | None => get_mwd_version tool_name rest
           end
      else get_mwd_version tool_name rest
  end.

(** [a < b] on numbers. *)
Definition Qlt_bool (a b : Q) : bool := negb (Qle_bool b a).

Definition get_size (section_size : Q) : string :=
  if Qle_bool section_size 7.5 then "4.75"
  else if Qlt_bool 7.5 section_size && Qle_bool section_size 10 then "6.75"
  else if Qlt_bool 10 section_size && Qle_bool section_size 15 then "8.25"
  else "9.0".

(** [str(x)] for a value that is a string or [None]. *)
Definition str_opt (x : option string) : string := default "None" x.

Definition get_tools_list (tools_data : list ToolDecl.t) (section_size : Q)
    : M (list TOOL.t) :=
  let* file := get_hspm_version in
  let* tools_query := select_tools_from_db file (ToolDecl.NAME <$> tools_data) in
  let tools := default [] tools_query in
  mapM (λ tool,
          if TOOL.is_mwd tool
          then match get_mwd_version (TOOL.display_name tool) tools_data with
               | Some rtof_version =>
                   if String.eqb (TOOL.tool_id tool) "DVDXTTOOL"
                      && String.eqb rtof_version "80"
                   then ret (TOOL.set_version (Some "100") tool)
                   else ret (TOOL.set_version (Some rtof_version) tool)
               | None =>
                   let* file := get_hspm_version in
                   let* latest :=
                     select_tool_latest_version_from_db file (TOOL.tool_id tool) in
                   ret (TOOL.set_version (Some (str_opt latest)) tool)
               end
          else ret (TOOL.set_size (Some (get_size section_size))
                      (TOOL.set_version
                         (get_lwd_version (TOOL.display_name tool) tools_data)
                         tool)))
       tools.

(* ===================================================================== *)
(** ** hspm_version_mapper.py *)
(* ===================================================================== *)

Definition HSPM_VERSION_MAP : list (string * string) :=
  [ ("HSPM 2022.1", "RTDPointCatalog_2022_1.db");
    ("HSPM 2023.0", "RTDPointCatalog_2023_0.db");
    ("HSPM 2023.1", "RTDPointCatalog_2023_1.db");
    ("HSPM 2025.0", "RTDPointCatalog_2025_0.db");
    ("HSPM 2026.0", "RTDPointCatalog_2026_0.db") ].

Definition QC_ELEMENT_MAPPER : list (string * string) :=
  [ ("RTDPointCatalog_2022_1.db", "TnAShared2022_1_001");
    ("RTDPointCatalog_2023_0.db", "TnAShared2023_0_001");
    ("RTDPointCatalog_2023_1.db", "TnAShared2023_1_001");
    ("RTDPointCatalog_2025_0.db", "TnAShared2025_1_004");
    ("RTDPointCatalog_2026_0.db", "TnAShared2026_0_010") ].

(** [d.get(k)] on a dictionary literal. *)
Fixpoint dict_get (d : list (string * string)) (k : string) : option string :=
  match d with
  | [] => None
  | (k', v) :: d' => if String.eqb k' k then Some v else dict_get d' k
  end.

(* ===================================================================== *)
(** ** export_to_fbw.py *)
(* ===================================================================== *)

(** [str(n)] for a number or [None]. *)
Definition str_num (ext : Outside) (n : option pynum) : string :=
  match n with
  | None => "None"
  | Some (PInt z) => pretty z
  | Some (PFloat q) => repr_float ext q
  end.

(** [bool(n)] for a number or [None]. *)
Definition truthy_num (n : option pynum) : bool :=
  match n with
  | None => false
  | Some x => negb (Qeq_bool (num_value x) 0)
  end.

(** [bool(s)] for a string or [None]. *)
Definition truthy_str (s : option string) : bool :=
  match s with
  | None => false
  | Some x => negb (String.eqb x "")
  end.

Definition nonempty {A} (l : list A) : bool :=
  match l with [] => false | _ :: _ => true end.

Definition DataPoint (dpoint : DPOINT.t) : element :=
  Element "DataPoint" [("ID", pretty (DPOINT.datpid dpoint))] None [].

(** An element that lists [dpoints], or holds the text [" "] when there
    are none. *)
Definition frame_element (tag : string) (attrib : list (string * string))
    (dpoints : list DPOINT.t) : element :=
  match dpoints with
  | [] => Element tag attrib (Some " ") []
  | _ => Element tag attrib None (DataPoint <$> dpoints)
  end.

Definition tool_element (ext : Outside) (tool : TOOL.t) : element :=
  Element "Tool"
    ([("Name", TOOL.tool_id tool)]
     ++ (if truthy_str (TOOL.version tool)
         then [("Version", str_opt (TOOL.version tool))] else [])
     ++ (if truthy_str (TOOL.size tool)
         then [("Size", str_opt (TOOL.size tool))] else [])
     ++ (if truthy_num (TOOL.tr_spacing tool)
         then [("TRSpacing", str_num ext (TOOL.tr_spacing tool))] else [])
     ++ (if truthy_num (TOOL.rt_blocksize tool)
         then let b := str_num ext (TOOL.rt_blocksize tool) in
              [("RTBlockSize", b); ("RTBlockSize_A", b); ("RTBlockSize_B", b);
               ("RTBlockSize_C", b);
               ("DataComp", "false"); ("DataComp_A", "false");
               ("DataComp_B", "false"); ("DataComp_C", "false");
               ("CompDis", "0"); ("CompDis_A", "0"); ("CompDis_B", "0");
               ("CompDis_C", "0")]
         else []))
    None [].

(** The [FrameSetList] element of the frameset at position [i] of
    [fsl_list]. *)
Definition fsl_element (ext : Outside) (i : nat) (fsl : FSL.t) : element :=
  Element "FrameSetList"
    [("Description", "FSL-" +:+ pretty (i + 1)%nat);
     ("BitRate", str_num ext (FSL.bitrate fsl));
     ("ROP", str_num ext (FSL.rop fsl));
     ("Notes", FSL.description fsl);
     ("CheckStatus",
      if nonempty (FSL.mtf fsl) && nonempty (FSL.gtf fsl) && nonempty (FSL.rotary fsl)
      then "Checked" else "Empty")]
    None
    [frame_element "MagneticToolFaceFrame" [] (FSL.mtf fsl);
     frame_element "GravityToolFaceFrame" [] (FSL.gtf fsl);
     frame_element "RotatingFrame" [] (FSL.rotary fsl)].

Definition is_ARC6_or_ECO (tool : TOOL.t) : bool :=
  Py.mem (TOOL.display_name tool) ["ARC6"; "ECO"].

Definition convert_to_xml (ext : Outside) (frame_request : FRAME_REQUEST.t)
    : M string :=
  let date := today ext in
  let fr := frame_request in
  let* mwd_tool := next_of id TOOL.is_mwd (FRAME_REQUEST.tools fr) in
  let notes :=
    FRAME_REQUEST.job_number fr +:+ "_" +:+ FRAME_REQUEST.well_name fr
    +:+ "_" +:+ FRAME_REQUEST.section_size fr +:+ "_" +:+ date in
  let run_attrib :=
    [("Name", notes);
     ("TelemetryTool", TOOL.tool_id mwd_tool);
     ("Version", str_opt (TOOL.version mwd_tool));
     ("UnitSystem", "ENGLISH");
     ("UserMode", "FIELD");
     ("FileDate", now_run ext);
     ("LastEditComputer", hostname ext);
     ("NumberOfFSLToBeDisplayed", "6");
     ("FileFormatVersion", "3.0")] in
  let bha_element :=
    Element "BottomHoleAssembly" [] None
      (tool_element ext <$> FRAME_REQUEST.tools fr) in
  let fsl_list :=
    if String.eqb (TOOL.tool_id mwd_tool) "SPTOOL"
    then [FRAME_REQUEST.fsl1 fr]
    else if String.eqb (TOOL.tool_id mwd_tool) "DVDXTTOOL"
    then [FRAME_REQUEST.fsl1 fr; FRAME_REQUEST.fsl2 fr; FRAME_REQUEST.fsl3 fr]
    else [FRAME_REQUEST.fsl1 fr; FRAME_REQUEST.fsl2 fr; FRAME_REQUEST.fsl3 fr;
          FRAME_REQUEST.fsl4 fr; FRAME_REQUEST.fsl5 fr; FRAME_REQUEST.fsl6 fr] in
  let fsl_elements := imap (fsl_element ext) fsl_list in
  let frame_attrib (key description check : string) :=
    [(key, description);
     ("BitRate", str_num ext (FSL.bitrate (FRAME_REQUEST.fsl1 fr)));
     ("ROP", str_num ext (FSL.rop (FRAME_REQUEST.fsl1 fr)));
     ("Notes", notes);
     ("CheckStatus", check)] in
  let dds_elements :=
    if nonempty (FRAME_REQUEST.dds_frame fr)
    then [Element "DDSFrame" (frame_attrib "Description" "DDS Frame" "Checked") None
            (DataPoint <$> FRAME_REQUEST.dds_frame fr)]
    else [] in
  let utility_element :=
    frame_element "UtilityFrame" (frame_attrib "Description" "Utility Frame" "Checked")
      (UTILITY.utility (FRAME_REQUEST.utility fr)) in
  let* on_demand :=
    if negb (String.eqb (TOOL.tool_id mwd_tool) "SPTOOL")
    then
      let odf_element :=
        frame_element "OnDemandFrame"
          (frame_attrib "Description" "ODF"
             (if nonempty (FRAME_REQUEST.odf_frame fr) then "Checked" else "Empty"))
          (FRAME_REQUEST.odf_frame fr) in
      if nonempty (FRAME_REQUEST.modf_frame fr)
      then
        let* lwd_ltb_id :=
          next_of TOOL.ltb_addr is_ARC6_or_ECO (FRAME_REQUEST.tools fr) in
        let modf_name (i : nat) :=
          if Py.mem "ECO" (TOOL.display_name <$> FRAME_REQUEST.tools fr)
          then "ECO APPO2 MODF" +:+ pretty (i + 1)%nat
          else "ARC6 APPO MODF" +:+ pretty (i + 1)%nat in
        ret [odf_element;
             Element "MODFSet"
               [("SubName", "MODFSet 1");
                ("LWDLTBID", pretty lwd_ltb_id);
                ("LockLevel", "Unlocked")]
               None
               (imap (λ i modf_set,
                        frame_element "MODF"
                          (frame_attrib "Name" (modf_name i) "Checked")
                          modf_set)
                     (FRAME_REQUEST.modf_frame fr))]
      else ret [odf_element]
    else ret [] in
  let qc_element :=
    Element "QCElement"
      [("HSPMVersion",
        default "TnAShared2023_1_001"
          (h ← FRAME_REQUEST.hspm_version fr; dict_get QC_ELEMENT_MAPPER h));
       ("FileDateTime", now_qc ext);
       ("LocationSpecificRules", "");
       ("QCCheck", "NoErrorOrWarning")]
      None [] in
  let run_element :=
    Element "Run" run_attrib None
      ([bha_element] ++ fsl_elements ++ dds_elements ++ [utility_element]
       ++ on_demand
       ++ [Element "CustomRuleFile" [("Name", "CustomRuleFile")] None [];
           qc_element]) in
  ret (tostring ext run_element).

(* ===================================================================== *)
(** ** utility.py: main *)
(* ===================================================================== *)

(** [s.rstrip(chars)] *)
Definition rstrip (s chars : string) : string :=
  let fix go (r : string) : string :=
    match r with
    | String c r' =>
        if bool_decide (c ∈ list_ascii_of_string chars) then go r' else r
    | "" => ""
    end in
  String.rev (go (String.rev s)).

(** [c.upper()] on the ASCII range, and [s.upper()]. *)
Definition upper_ascii (c : ascii) : ascii :=
  let n := N_of_ascii c in
  if ((97 <=? n) && (n <=? 122))%N then ascii_of_N (n - 32) else c.

Fixpoint upper (s : string) : string :=
  match s with
  | "" => ""
  | String c s' => String (upper_ascii c) (upper s')
  end.

Definition newline : string := String "010" "".

(** [sep.join(l)] *)
Fixpoint join (sep : string) (l : list string) : string :=
  match l with
  | [] => ""
  | [x] => x
  | x :: l' => x +:+ sep +:+ join sep l'
  end.

Definition request_fsls (data : Request.t) : list (option FslData.t) :=
  [Request.fsl1 data; Request.fsl2 data; Request.fsl3 data;
   Request.fsl4 data; Request.fsl5 data; Request.fsl6 data].

Definition get_frameset_tools (data : Request.t) : list ToolDecl.t :=
  temp_fsl ← request_fsls data;
  match temp_fsl with
  | Some fsl => FslData.TOOLS fsl
  | None => []
  end.

Definition update_fsl (frame_set : FSL.t) (fsl_data : OutFsl.t)
    (tools : list TOOL.t) : M FSL.t :=
  let* m := get_ordered_dpoint_list (OutFsl.mtf fsl_data) tools in
  let* g := get_ordered_dpoint_list (OutFsl.gtf fsl_data) tools in
  let* r := get_ordered_dpoint_list (OutFsl.rotary fsl_data) tools in
  ret (FSL.update (OutFsl.ROP fsl_data) m g r frame_set).

Definition update_utility (utility_frame : UTILITY.t) (dpoint_list : list string)
    (tools : list TOOL.t) : M UTILITY.t :=
  let* u := get_ordered_dpoint_list dpoint_list tools in
  ret (UTILITY.set_utility u utility_frame).

(** One of the six blocks [fsl<i> = frame_generator_output.get("fsl<i>")
    ...] of [main]: the status so far and the frameset go in, the new
    status and the updated frameset come out. *)
Definition check_fsl (out : option OutFsl.t) (frame_set : FSL.t) (status : Z)
    (tools : list TOOL.t) : M (FSL.t * Z) :=
  match out with
  | Some fsl =>
      let status := if py_ne (OutFsl.ROP fsl) (FSL.rop frame_set)
                    then 209 else status in
      let* frame_set := update_fsl frame_set fsl tools in
      ret (frame_set, status)
  | None => ret (frame_set, status)
  end.

(** The branch [if not errors:] of [main]. *)
Definition reconcile (frame_request : FRAME_REQUEST.t)
    (frame_generator_output : Output.t) (tools : list TOOL.t)
    : M (FRAME_REQUEST.t * Z) :=
  let fr := frame_request in
  let out := frame_generator_output in
  let status := 200 in
  let* (f1, status) := check_fsl (Output.fsl1 out) (FRAME_REQUEST.fsl1 fr) status tools in
  let* (f2, status) := check_fsl (Output.fsl2 out) (FRAME_REQUEST.fsl2 fr) status tools in
  let* (f3, status) := check_fsl (Output.fsl3 out) (FRAME_REQUEST.fsl3 fr) status tools in
  let* (f4, status) := check_fsl (Output.fsl4 out) (FRAME_REQUEST.fsl4 fr) status tools in
  let* (f5, status) := check_fsl (Output.fsl5 out) (FRAME_REQUEST.fsl5 fr) status tools in
  let* (f6, status) := check_fsl (Output.fsl6 out) (FRAME_REQUEST.fsl6 fr) status tools in
  let* u :=
    match Output.utility out with
    | Some utility => update_utility (FRAME_REQUEST.utility fr) utility tools
    | None => ret (FRAME_REQUEST.utility fr)
    end in
  ret (FRAME_REQUEST.set_frames f1 f2 f3 f4 f5 f6 u fr, status).

(** [errors = {fsl: msg for fsl, sub_dict in errors.items()
               for msg in sub_dict.values() if msg}]:
    per frameset, the last message that is neither [None] nor empty. *)
Definition flatten_errors (errors : packing_errors) : list (string * string) :=
  omap (λ '(fsl, sub_dict),
          (λ msg, (fsl, msg)) <$>
            last (omap (λ '(_, m), match m with
                                   | Some msg => if String.eqb msg "" then None else Some msg
                                   | None => None
                                   end) sub_dict))
       errors.

Definition main (ext : Outside) (data : Request.t) : M (string * Z) :=
  let tools_data := get_frameset_tools data in
  let* section_size :=
    match Request.section_size data with
    | None => raise (AttributeError "'NoneType' object has no attribute 'rstrip'")
    | Some s =>
        match float_of_str ext (rstrip s "in") with
        | Some x => ret x
        | None => raise (ValueError "could not convert string to float")
        end
    end in
  let* tools := get_tools_list tools_data section_size in
  match List.find TOOL.is_mwd tools with
  | None => raise (ValueError "MWD tool is missing in frame request!")
  | Some mwd_tool =>
      do* (match dict_get HSPM_VERSION_MAP (Request.hspm_version data) with
           | Some hspm_version_from_user =>
               if String.eqb hspm_version_from_user "" then ret tt
               else λ w, (inr tt, set_hspm_version hspm_version_from_user w)
           | None => ret tt
           end) in
      let* frame_request := assemble ext data tools in
      do* emit EvPacking in
      let '(frame_generator_output, errors) :=
        build_frames_from_json ext frame_request in
      let errors := flatten_errors errors in
      let* (frame_request, status) :=
        match errors with
        | [] => reconcile frame_request frame_generator_output tools
        | _ =>
            let failed_to_build :=
              (λ '(fsl, msg), upper fsl +:+ ": " +:+ msg) <$> errors in
            raise (ValueError (join newline failed_to_build))
        end in
      let* xml_string := convert_to_xml ext frame_request in
      let* file := get_hspm_version in
      do* update_xml_in_sqlite file (Request.uid data) (PBytes xml_string) status in
      ret (xml_string, status)
  end.

(* ===================================================================== *)
(** ** main.py: request_frames *)
(* ===================================================================== *)

(** The [JSONResponse] of [request_frames]. *)
Record response := mk_response {
  statusCode : Z;
  xml : string;
  message : string }.

Definition clear_db_on_failure (db_name uid : string) : M unit :=
  remove_uid_from_db db_name uid.

(** The handler [except Exception as e:] of [request_frames]. *)
Definition on_exception (hspm_version uid : string) (e : exn) : M response :=
  let error_message := str_exn e in
  let error_message :=
    if Py.contains "the JSON object must be str, bytes or bytearray, not NoneType"
         error_message
    then "RTOF.json file didn't load correctly. Please check your input."
    else error_message in
  do* update_xml_in_sqlite hspm_version uid
        (PStr ("FAILED | " +:+ error_message)) 406 in
  ret (mk_response 406 "" error_message).

(** [hspm_version_from_user if hspm_version_from_user else "default_db"] *)
Definition selected_db (data : Request.t) : string :=
  match dict_get HSPM_VERSION_MAP (Request.hspm_version data) with
  | Some v => if String.eqb v "" then "default_db" else v
  | None => "default_db"
  end.

(** Lines 60–80: the path of a [uid] that has no row yet. *)
Definition build (ext : Outside) (hspm_version : string) (data : Request.t)
    : M response :=
  let uid := Request.uid data in
  do* insert_uid_with_none hspm_version uid in
  let* (xml_string, status) := main ext data in
  if negb (String.eqb xml_string "")
  then
    do* update_xml_in_sqlite hspm_version uid (PBytes xml_string) status in
    ret (mk_response status (sign_doc ext (PBytes xml_string))
           "Frame generated successfully!")
  else
    let error_message :=
      "Unable to build frames for your request. Please check compatibility!" in
    do* update_xml_in_sqlite hspm_version uid
          (PStr ("FAILED | " +:+ error_message)) 406 in
    ret (mk_response 406 "" error_message).

(** Lines 37–58: the answer taken from the row [(past_result, status)]. *)
Definition answer_from_row (ext : Outside) (hspm_version uid : string)
    (past_result : pydoc) (status : Z) : M response :=
  match past_result with
  | PStr "" =>
      ret (mk_response 503 ""
             "Frame Generator was not able to build frame. Increase bit rate or reduce required update rates.")
  | PStr past =>
      if Py.startswith past "FAILED | "
      then
        match Py.split past " | " with
        | _ :: error_message :: _ =>
            do* clear_db_on_failure hspm_version uid in
            ret (mk_response 406 "" error_message)
        | _ => raise (IndexError "list index out of range")
        end
      else ret (mk_response status (sign_doc ext (PStr past))
                  "Frames generated successfully!")
  | PBytes past =>
      (* b"..." == "" is false, and str(b"...") starts with "b'" *)
      ret (mk_response status (sign_doc ext (PBytes past))
             "Frames generated successfully!")
  end.

Definition request_frames (ext : Outside) (data : Request.t) : M response :=
  let uid := Request.uid data in
  if String.eqb uid ""
  then raise (HTTPException 400 "UID is missing in the request.")
  else
    let hspm_version := selected_db data in
    try_except
      (let* past_result := load_xml_from_sqlite hspm_version uid in
       match past_result with
       | Some (past_result, status) =>
           answer_from_row ext hspm_version uid past_result status
       | None => build ext hspm_version data
       end)
      (on_exception hspm_version uid).

(* ===================================================================== *)
(** * Properties *)
(* ===================================================================== *)

(** ** The engine and the retry wrapper *)

(** The engine answers the next call with success. *)
Definition no_fault (w : world) : Prop :=
  match engine w with
  | Some _ :: _ => False
  | _ => True
  end.

(** The world once the engine has answered one call. *)
Definition after_step (w : world) : world := set_engine (tail (engine w)) w.

(** The condition [retry_on_lock] tests on the message of an error. *)
Definition locked (msg : string) : Prop :=
  Py.contains "locked" (Py.lower msg) = true.


(** The sleeps of the first [k] failed attempts: 0.5 s × attempt number. *)
Definition backoff (k : nat) : list event :=
  (λ attempt, EvSleep ((1 # 2) * inject_Z attempt)) <$> seqZ 1 (Z.of_nat k).

(** A mutating method of [SQLHandler], as the decorated function. *)
Inductive mutation :=
| Insert (uid : string)
| Update (uid : string) (xml_content : pydoc) (status : Z)
| Save (uid : string) (xml_content : pydoc) (status : Z)
| Remove (uid : string).

Definition run_mutation (file : string) (m : mutation) : M unit :=
  match m with
  | Insert uid => insert_uid_with_none file uid
  | Update uid x s => update_xml_in_sqlite file uid x s
  | Save uid x s => save_xml_to_sqlite file uid x s
  | Remove uid => remove_uid_from_db file uid
  end.

(** The text of a stored document. *)
Definition doc_text (d : pydoc) : string :=
  match d with
  | PStr s => s
  | PBytes b => b
  end.

(** The states of a stored [RequestRecord], read off its document. *)
Definition SUCCESS (d : pydoc) : Prop :=
  doc_text d ≠ "" ∧ Py.startswith (doc_text d) "FAILED | " = false.

Definition PENDING : pydoc * Z := (PStr "", 200).

Definition FAILED (message : string) : pydoc * Z :=
  (PStr ("FAILED | " +:+ message), 406).

(** *** A small catalog and request used in the examples *)

Definition sample_db : database :=
  mk_database
    [ DPointRow.mk "rgx" 4504 12 137 "Rotating accelerometer X";
      DPointRow.mk "sticknslip" 4650 8 137 "Stick and slip";
      DPointRow.mk "SHKLV_mx" 4922 4 19 "Shock level";
      DPointRow.mk "O_rp28h_mx" 4857 10 19 "Resistivity" ]
    [ ToolRow.mk "IMPTOOL" "IMP" 137 true "";
      ToolRow.mk "MXWPTOOL" "MXWP" 19 false "_mx" ]
    [ ToolVersionRow.mk "IMPTOOL" "160";
      ToolVersionRow.mk "MXWPTOOL" "10.0" ]
    ∅.

Definition sample_fsl (tools : list ToolDecl.t) : FslData.t :=
  FslData.mk "Test FSL" (Some (PInt 6)) (Some (PInt 80)) tools
    ["rgx"] ["rgx"; "sticknslip"] ["rgx"] ["SHKLV_mx"].

(** A request that declares the tools [tools] in its first frameset and
    selects no catalog version. *)
Definition sample_request (uid : string) (tools : list ToolDecl.t) : Request.t :=
  Request.mk uid "" "O.1001098.10" "SF-90" (Some "12.25in") "1" "" "" ""
    (Some (sample_fsl tools)) None None None None None.

Definition sample_frame_request (data : Request.t) (tools : list TOOL.t)
    : FRAME_REQUEST.t :=
  FRAME_REQUEST.mk (Request.uid data) (Request.job_number data)
    (Request.well_name data) "12.25in"
    FSL.default FSL.default FSL.default FSL.default FSL.default FSL.default
    (UTILITY.mk "" (Some (PInt 6)) (Some (PInt 80)) [])
    1 false false false false None tools [] [] [].

(** Stand-ins for the outside: a packing service that corrects nothing
    and reports no error, and a signer that returns the text it gets. *)
Definition sample_ext : Outside :=
  mk_Outside
    (λ s, if String.eqb s "12.25" then Some 12.25%Q else None)
    (λ _, "0.0")
    "2025-01-01" "2025-01-01T00:00:00" "2025-01-01T00:00:01" "host"
    (λ _, "<Run/>")
    doc_text
    (λ _, (Output.mk None None None None None None None, []))
    (λ data tools, ret (sample_frame_request data tools)).

(** A world whose only file is the default database, holding the sample
    catalog and the status rows [rows]. *)
Definition sample_world (rows : gmap string (pydoc * Z))
    (engine : list (option sqlite_error)) : world :=
  mk_world {[ "default_db" := set_XmlStorage rows sample_db ]} engine ∅
    "default_db" [].

(** The tool records that the catalog in use resolves for the tools a
    request declares: the rows [get_tools_list] starts from. *)
Definition resolved_tools (w : world) (data : Request.t) : list TOOL.t :=
  match files w !! hspm_version w with
  | Some db => query_tools (ToolDecl.NAME <$> get_frameset_tools data) db
  | None => []
  end.

(** The row of [uid] in the status table of the file [file]. *)
Definition stored_row (w : world) (file uid : string) : option (pydoc * Z) :=
  db ← files w !! file; XmlStorage db !! uid.

(** A catalog record that matches [token] for the bus addresses
    [addrs]: a [DPoint] row of that name whose address is one of
    [addrs] and is the address of a [Tool] row (the join of the query). *)
Definition catalog_match (db : database) (addrs : list Z) (token : string) : Prop :=
  ∃ d t, d ∈ DPoint db ∧ t ∈ Tool db
         ∧ DPointRow.DPOINT_NAME d = token
         ∧ DPointRow.TOOL_LTB_ADDR d ∈ addrs
         ∧ ToolRow.LTBAddress t = DPointRow.TOOL_LTB_ADDR d.

(** The corrected ROP returned for a frameset differs from the ROP the
    frameset was requested with. *)
Definition rop_differs (out : option OutFsl.t) (frame_set : FSL.t) : bool :=
  match out with
  | Some fsl => py_ne (OutFsl.ROP fsl) (FSL.rop frame_set)
  | None => false
  end.

Definition any_rop_differs (fr : FRAME_REQUEST.t) (out : Output.t) : bool :=
  rop_differs (Output.fsl1 out) (FRAME_REQUEST.fsl1 fr)
  || rop_differs (Output.fsl2 out) (FRAME_REQUEST.fsl2 fr)
  || rop_differs (Output.fsl3 out) (FRAME_REQUEST.fsl3 fr)
  || rop_differs (Output.fsl4 out) (FRAME_REQUEST.fsl4 fr)
  || rop_differs (Output.fsl5 out) (FRAME_REQUEST.fsl5 fr)
  || rop_differs (Output.fsl6 out) (FRAME_REQUEST.fsl6 fr).

(** The names the packing service returned for a frameset, and for the
    whole request. *)
Definition out_names (out : option OutFsl.t) : list string :=
  match out with
  | Some fsl => OutFsl.mtf fsl ++ OutFsl.gtf fsl ++ OutFsl.rotary fsl
  | None => []
  end.

Definition corrected_names (out : Output.t) : list string :=
  out_names (Output.fsl1 out) ++ out_names (Output.fsl2 out)
  ++ out_names (Output.fsl3 out) ++ out_names (Output.fsl4 out)
  ++ out_names (Output.fsl5 out) ++ out_names (Output.fsl6 out)
  ++ default [] (Output.utility out).

(** The packing service reported no error. *)
Definition no_errors (errors : packing_errors) : Prop := flatten_errors errors = [].

(** The second world can be queried like the first: same files, same
    catalog version in use, and an engine without faults. *)
Definition still_answering (w w' : world) : Prop :=
  engine w' = [] ∧ files w' = files w ∧ hspm_version w' = hspm_version w.

(** As [sample_ext], with a packing service that returns the first
    frameset with the ROP [rop] and one name in its rotary list. *)
Definition correcting_ext (rop : Z) : Outside :=
  mk_Outside
    (float_of_str sample_ext) (repr_float sample_ext)
    (today sample_ext) (now_run sample_ext) (now_qc sample_ext)
    (hostname sample_ext) (tostring sample_ext) (sign_doc sample_ext)
    (λ _, (Output.mk (Some (OutFsl.mk (Some (PInt rop)) [] [] ["rgx"]))
             None None None None None None,
           [("fsl1", [("rotary", None); ("mtf", None); ("gtf", None)]);
            ("utility", [("utility", None)])]))
    (assemble sample_ext).

(** The tool size, in inches, that a label of [get_size] names. *)
Definition size_inches (label : string) : Q :=
  if String.eqb label "4.75" then 4.75
  else if String.eqb label "6.75" then 6.75
  else if String.eqb label "8.25" then 8.25
  else if String.eqb label "9.0" then 9.0
  else 0.

(** The corrections run on a list object that holds [tokens], in a
    world that has nothing else: the outcome, and the names the object
    holds afterwards. *)
Definition corrected_tokens (tokens : list string) (tools : list TOOL.t)
    : (exn + unit) * list string :=
  let '(r, w') :=
    apply_rules 0 tools (mk_world ∅ [] {[ 0%nat := tokens ]} "" []) in
  (r, default [] (heap w' !! 0%nat)).

(** The computation [c], started with the list object [l] holding
    [xs], ends with outcome [r], leaves [ys] in the object and changes
    nothing else in the world. *)
Definition edits {A} (l : nat) (xs : list string) (c : M A)
    (r : exn + A) (ys : list string) : Prop :=
  ∀ w, heap w !! l = Some xs → c w = (r, set_heap (<[l := ys]> (heap w)) w).

(** Two computations that do the same to their list objects. *)
Definition alike {A} (l1 l2 : nat) (c1 c2 : M A) : Prop :=
  ∀ xs, ∃ r ys, edits l1 xs c1 r ys ∧ edits l2 xs c2 r ys.

(* ===================================================================== *)
(** ** Further vocabulary: the status table *)
(* ===================================================================== *)

(** What the statement of a mutating method makes of the status table. *)
Definition mutate (m : mutation) (t : gmap string (pydoc * Z))
    : gmap string (pydoc * Z) :=
  match m with
  | Insert uid => insert_or_ignore uid t
  | Update uid x s => update_row uid x s t
  | Save uid x s => <[uid := (x, s)]> t
  | Remove uid => delete uid t
  end.

(** The life of one request record, as [request_frames] drives it: the
    UID is inserted, read, finalized, read, cleared and read again. *)
Definition record_life (file uid : string) (xml_content : pydoc) (status : Z)
    : M (option (pydoc * Z) * option (pydoc * Z) * option (pydoc * Z)) :=
  do* insert_uid_with_none file uid in
  let* pending := load_xml_from_sqlite file uid in
  do* update_xml_in_sqlite file uid xml_content status in
  let* final := load_xml_from_sqlite file uid in
  do* remove_uid_from_db file uid in
  let* cleared := load_xml_from_sqlite file uid in
  ret (pending, final, cleared).

(* ===================================================================== *)
(** ** Further vocabulary: what a computation leaves alone *)
(* ===================================================================== *)

(** Started without engine faults, [c] ends without them and changes
    neither a file nor the catalog version in use. *)
Definition quiet {A} (c : M A) : Prop :=
  ∀ w r w', engine w = [] → c w = (r, w') → still_answering w w'.

(** The second world has a status row exactly where the first has one,
    and an engine without faults. *)
Definition keeps_rows (w w' : world) : Prop :=
  engine w' = []
  ∧ ∀ file uid, is_Some (stored_row w' file uid) ↔ is_Some (stored_row w file uid).

(** Started without engine faults, [c] neither adds nor removes a
    status row. *)
Definition steady {A} (c : M A) : Prop :=
  ∀ w r w', engine w = [] → c w = (r, w') → keeps_rows w w'.

(** The frame assembly that [main] takes from outside neither adds nor
    removes a status row (in the sources it only queries the catalog). *)
Definition assembly_keeps_rows (ext : Outside) : Prop :=
  ∀ data tools, steady (assemble ext data tools).

(** [TOOL.__eq__] and [DPOINT.__eq__] of models.py: the fields that
    identify a record. *)
Definition TOOL_eq (a b : TOOL.t) : bool :=
  bool_decide
    ((TOOL.tool_id a, TOOL.display_name a, TOOL.ltb_addr a, TOOL.is_mwd a,
      TOOL.dpoint_suffix a)
     = (TOOL.tool_id b, TOOL.display_name b, TOOL.ltb_addr b, TOOL.is_mwd b,
        TOOL.dpoint_suffix b)).

Definition DPOINT_eq (a b : DPOINT.t) : bool :=
  bool_decide
    ((DPOINT.name a, DPOINT.datpid a, DPOINT.ltb_addr a, DPOINT.is_mwd a,
      DPOINT.length a)
     = (DPOINT.name b, DPOINT.datpid b, DPOINT.ltb_addr b, DPOINT.is_mwd b,
        DPOINT.length b)).

(** The computation [c] returns whatever the engine answers, and keeps
    the files and the catalog version in use. *)
Definition returns {A} (c : M A) : Prop :=
  ∀ w, ∃ a w', c w = (inr a, w')
               ∧ files w' = files w ∧ hspm_version w' = hspm_version w.

(** What [get_tools_list] makes of the catalog row [row] of a tool. *)
Definition completes (tools_data : list ToolDecl.t) (section_size : Q)
    (row tool : TOOL.t) : Prop :=
  TOOL_eq tool row = true
  ∧ TOOL.tr_spacing tool = TOOL.tr_spacing row
  ∧ TOOL.rt_blocksize tool = TOOL.rt_blocksize row
  ∧ if TOOL.is_mwd row
    then TOOL.size tool = TOOL.size row
         ∧ is_Some (TOOL.version tool)
         ∧ ∀ v, get_mwd_version (TOOL.display_name row) tools_data = Some v →
                TOOL.version tool
                = Some (if String.eqb (TOOL.tool_id row) "DVDXTTOOL"
                           && String.eqb v "80"
                        then "100" else v)
    else TOOL.size tool = Some (get_size section_size)
         ∧ TOOL.version tool
           = get_lwd_version (TOOL.display_name row) tools_data.

(** A string of decimal digits. *)
Fixpoint all_digits (s : string) : bool :=
  match s with
  | "" => true
  | String c s' => is_digit c && all_digits s'
  end.

(** [piece] occurs in [s]. *)
Definition occurs_in (piece s : string) : Prop :=
  ∃ before after, s = before +:+ piece +:+ after.

(** The names that the corrections of [get_dpoint_list] remove or add. *)
Definition rule_names : list string :=
  ["TF_b"; "TFHI_b"; "DDR_RT_1_r1"; "DDR_RT_1_r2"; "DDR_RT_1_r3";
   "C_PKPO4_s"; "O_grcnt_c"; "O_RHOB_v"; "O_DRHO_v"; "SCLP_mp"; "AET_mp";
   "O_RBIT_gvr"; "RESBIT_gvr"].

(** The other names of a list, in their order and with their repetitions. *)
Definition others (xs : list string) : list string :=
  filter (λ x, x ∉ rule_names) xs.

(** The computation [c] edits the list object [l] only in the names of
    [rule_names], and fails only with the [StopIteration] of a search
    for the tool "MP3". *)
Definition gentle (tools : list TOOL.t) (l : nat) (c : M unit) : Prop :=
  ∀ xs, ∃ r ys,
    edits l xs c r ys ∧ others ys = others xs
    ∧ (r = inr tt
       ∨ (r = inl StopIteration ∧ List.find is_MP3 tools = None
          ∧ ("CS3PK_H_mp" ∈ xs ∨ "CSSTAT_mp" ∈ xs))).


(** [e.tag], [list(e)] and [e.get(key)] of an element. *)
Definition tag (e : element) : string :=
  match e with Element t _ _ _ => t end.

Definition children (e : element) : list element :=
  match e with Element _ _ _ c => c end.

Definition attribute (key : string) (e : element) : option string :=
  match e with Element _ a _ _ => dict_get a key end.

(** The number of framesets written for a telemetry tool. *)
Definition framesets_written (tool_id : string) : nat :=
  if String.eqb tool_id "SPTOOL" then 1
  else if String.eqb tool_id "DVDXTTOOL" then 3 else 6.


(** The lines of the [ValueError] that [main] raises for the packing
    errors [errors]. *)
Definition failed_to_build (errors : list (string * string)) : string :=
  join newline ((λ '(fsl, msg), upper fsl +:+ ": " +:+ msg) <$> errors).

(* ===================================================================== *)
(** ** utility.py: update_ddr_tools *)
(* ===================================================================== *)

Module DdrData.
(** The keys of [data.get("fsl1", {})] that [update_ddr_tools] reads;
    an absent key reads as [None]. *)
Record t := mk {
  R1_space : option pynum;
  R1_block : option pynum;
  R2_space : option pynum;
  R2_block : option pynum;
  R3_space : option pynum;
  R3_block : option pynum }.
End DdrData.

(** The loop of [update_ddr_tools] over the remaining tools, with the
    value of [ddr_version] so far; the result lists the tool objects as
    the loop leaves them. *)
Fixpoint update_ddr_tools_from (ddr_version : option string)
    (tools : list TOOL.t) (data : DdrData.t) : list TOOL.t :=
  match tools with
  | [] => []
  | tool :: rest =>
      if Py.contains "DDR1" (TOOL.tool_id tool)
      then TOOL.set_ddr (DdrData.R1_space data) (DdrData.R1_block data) tool
           :: update_ddr_tools_from (TOOL.version tool) rest data
      else if Py.contains "DDR2" (TOOL.tool_id tool)
      then TOOL.set_ddr (DdrData.R2_space data) (DdrData.R2_block data) tool
           :: update_ddr_tools_from ddr_version rest data
      else if Py.contains "DDR3" (TOOL.tool_id tool)
      then TOOL.set_ddr (DdrData.R3_space data) (DdrData.R3_block data) tool
           :: update_ddr_tools_from ddr_version rest data
      else if Py.contains "DDRT" (TOOL.tool_id tool)
      then TOOL.set_version ddr_version tool
           :: update_ddr_tools_from ddr_version rest data
      else tool :: update_ddr_tools_from ddr_version rest data
  end.

Definition update_ddr_tools (tools : list TOOL.t) (data : DdrData.t)
    : list TOOL.t :=
  update_ddr_tools_from (Some "") tools data.

(** A tool that [update_ddr_tools] treats as the DDR transmitter: its
    identifier holds "DDRT" and none of "DDR1", "DDR2", "DDR3". *)
Definition is_DDRT (tool : TOOL.t) : bool :=
  negb (Py.contains "DDR1" (TOOL.tool_id tool))
  && negb (Py.contains "DDR2" (TOOL.tool_id tool))
  && negb (Py.contains "DDR3" (TOOL.tool_id tool))
  && Py.contains "DDRT" (TOOL.tool_id tool).

(** A tool that [update_ddr_tools] passes by. *)
Definition no_DDR (tool : TOOL.t) : bool :=
  negb (Py.contains "DDR1" (TOOL.tool_id tool))
  && negb (Py.contains "DDR2" (TOOL.tool_id tool))
  && negb (Py.contains "DDR3" (TOOL.tool_id tool))
  && negb (Py.contains "DDRT" (TOOL.tool_id tool)).

(* ===================================================================== *)
(** ** Further vocabulary: the catalog in use *)
(* ===================================================================== *)



Example split_failed :
  Py.split "FAILED | a | b" " | " = ["FAILED"; "a"; "b"].
Proof. reflexivity. Qed.

Example split_trailing : Py.split "a | " " | " = ["a"; ""].
Proof. reflexivity. Qed.

Example locked_message :
  Py.contains "locked" (Py.lower "Database is LOCKED") = true.
Proof. reflexivity. Qed.

Example lwd_version :
  get_lwd_version "ECO" [ToolDecl.mk "ECO" "v7.1"] = Some "7.1"
  ∧ get_lwd_version "LWD2" [ToolDecl.mk "ECO" "v7.1"] = None.
Proof. split; reflexivity. Qed.

Example mwd_version :
  get_mwd_version "IMP" [ToolDecl.mk "IMP" "v 16.0"] = Some "160"
  ∧ get_mwd_version "IMP" [ToolDecl.mk "IMP" "v16"] = Some "160"
  ∧ get_mwd_version "MWD2" [ToolDecl.mk "IMP" "v 16.0"] = None.
Proof. repeat split; reflexivity. Qed.

Example rstrip_inches :
  rstrip "12.25in" "in" = "12.25" ∧ rstrip "9.5" "in" = "9.5" ∧ rstrip "nin" "in" = "".
Proof. repeat split; reflexivity. Qed.

Example test_get_size :
  get_size 7 = "4.75" ∧ get_size 8 = "6.75"
  ∧ get_size 12 = "8.25" ∧ get_size 16 = "9.0".
Proof. repeat split; reflexivity. Qed.

Lemma engine_step_ok w : no_fault w → engine_step w = (inr tt, after_step w).
Proof.
  unfold no_fault, engine_step, after_step.
  destruct w as [f e h v t]; simpl.
  destruct e as [|[err|] rest]; simpl; intros H; [done|done|done].
Qed.

Lemma engine_step_fault w err rest :
  engine w = Some err :: rest →
  engine_step w = (inl (Sqlite err), set_engine rest w).
Proof. unfold engine_step. by intros ->. Qed.

Lemma retry_on_lock_returns {A} (func : M A) w a w' :
  func w = (inr a, w') → retry_on_lock func w = (inr (Some a), w').
Proof.
  intros H. unfold retry_on_lock, retries. simpl.
  unfold try_except, bind. by rewrite H.
Qed.

Lemma retry_on_lock_other {A} (func : M A) w e w' :
  func w = (inl e, w') →
  (∀ msg, e = Sqlite (OperationalError msg) → ¬ locked msg) →
  retry_on_lock func w = (inl e, w').
Proof.
  intros H Hne. unfold retry_on_lock, retries. simpl.
  unfold try_except at 1, bind at 1. rewrite H.
  destruct e as [| | | | | |[msg|msg]]; try done.
  specialize (Hne msg eq_refl). unfold locked in Hne. simpl in *.
  destruct (Py.contains "locked" (Py.lower msg)); [done|]. done.
Qed.

Lemma execute_ok {A} file (q : database → A) w db :
  no_fault w → files w !! file = Some db →
  execute file q w = (inr (q db), after_step w).
Proof.
  intros Hn Hf. unfold execute, bind. rewrite (engine_step_ok _ Hn).
  unfold get_world. simpl. by rewrite Hf.
Qed.

Lemma execute_fault {A} file (q : database → A) w err rest :
  engine w = Some err :: rest →
  execute file q w = (inl (Sqlite err), set_engine rest w).
Proof.
  intros He. unfold execute, bind. by rewrite (engine_step_fault _ _ _ He).
Qed.

Lemma world_eta w :
  mk_world (files w) (engine w) (heap w) (hspm_version w) (trace w) = w.
Proof. by destruct w. Qed.

(** A statement guarded by [except sqlite3.Error] inside the decorated
    method: whatever the engine raises is swallowed there, and the
    wrapper sees a normal return. *)
Lemma guarded_statement_fault file (f : database → gmap string (pydoc * Z))
    w err rest :
  engine w = Some err :: rest →
  retry_on_lock_
    (try_except (let* t := execute file f in commit file t)
       (except_sqlite_Error tt)) w
  = (inr tt, set_engine rest w).
Proof.
  intros He. unfold retry_on_lock_, bind at 1.
  erewrite retry_on_lock_returns; [done|].
  unfold try_except, bind. by rewrite (execute_fault _ _ _ _ _ He).
Qed.

Lemma guarded_commit_fault file (f : database → gmap string (pydoc * Z))
    w db err rest :
  engine w = None :: Some err :: rest →
  files w !! file = Some db →
  retry_on_lock_
    (try_except (let* t := execute file f in commit file t)
       (except_sqlite_Error tt)) w
  = (inr tt, set_engine rest w).
Proof.
  intros He Hf. unfold retry_on_lock_, bind at 1.
  erewrite retry_on_lock_returns; [done|].
  unfold try_except, bind at 1.
  rewrite (execute_ok _ _ _ db); [|by unfold no_fault; rewrite He|done].
  unfold commit, bind, after_step. rewrite He. simpl. done.
Qed.

Lemma guarded_statement_ok file (f : database → gmap string (pydoc * Z))
    w db :
  engine w = [] →
  files w !! file = Some db →
  retry_on_lock_
    (try_except (let* t := execute file f in commit file t)
       (except_sqlite_Error tt)) w
  = (inr tt, set_files (<[file := set_XmlStorage (f db) db]> (files w)) w).
Proof.
  intros He Hf. unfold retry_on_lock_, bind at 1.
  erewrite retry_on_lock_returns; [done|].
  unfold try_except, bind at 1.
  rewrite (execute_ok _ _ _ db); [|by unfold no_fault; rewrite He|done].
  unfold commit, bind, after_step. rewrite He. simpl. unfold engine_step.
  simpl.
  destruct w as [fs e h v t]; simpl in *; subst. unfold set_files, set_engine; simpl.
  do 2 f_equal. apply map_eq. intros k.
  rewrite lookup_alter, lookup_insert. destruct (decide (file = k)) as [->|]; [|done].
  by rewrite Hf.
Qed.

Lemma retry_loop_locked {A} attempt attempts (func : M A) w msg w' :
  func w = (inl (Sqlite (OperationalError msg)), w') →
  locked msg → attempt < retries - 1 →
  retry_loop (attempt :: attempts) func w
  = retry_loop attempts func
      (set_trace (trace w' ++ [EvSleep ((1 # 2) * inject_Z (attempt + 1))]) w').
Proof.
  intros Hf Hl Ha. simpl. unfold try_except at 1, bind at 1. rewrite Hf.
  unfold locked in Hl. simpl. rewrite Hl. simpl.
  destruct (attempt <? retries - 1) eqn:E; [|lia]. done.
Qed.

Lemma retry_loop_last {A} attempt attempts (func : M A) w msg w' :
  func w = (inl (Sqlite (OperationalError msg)), w') →
  retries - 1 ≤ attempt →
  retry_loop (attempt :: attempts) func w = (inl (Sqlite (OperationalError msg)), w').
Proof.
  intros Hf Ha. simpl. unfold try_except at 1, bind at 1. rewrite Hf.
  destruct (attempt <? retries - 1) eqn:E; [lia|].
  by rewrite andb_false_r.
Qed.

Lemma retry_loop_returns {A} attempt attempts (func : M A) w a w' :
  func w = (inr a, w') →
  retry_loop (attempt :: attempts) func w = (inr (Some a), w').
Proof. intros Hf. simpl. unfold try_except, bind. by rewrite Hf. Qed.

(** Five locked answers in a row: four sleeps, then the error leaves the
    wrapper. *)
Lemma retry_on_lock_exhausted {A} file (q : database → A) w msg rest :
  locked msg →
  engine w = (replicate 5 (Some (OperationalError msg)) ++ rest)%list →
  retry_on_lock (execute file q) w
  = (inl (Sqlite (OperationalError msg)),
     set_trace (trace w ++ backoff 4) (set_engine rest w)).
Proof.
  intros Hl He. unfold retry_on_lock. change (seqZ 0 retries) with [0; 1; 2; 3; 4].
  simpl in He.
  do 4 (erewrite retry_loop_locked;
        [|apply execute_fault; simpl; try eassumption; reflexivity|done|done]).
  erewrite retry_loop_last; [|apply execute_fault; simpl; reflexivity|done].
  destruct w as [fs e h v t]; simpl in *.
  unfold set_trace, set_engine; simpl. rewrite <- !app_assoc. reflexivity.
Qed.

(** [k ≤ 4] locked answers, then success: [k] sleeps, then the value. *)
Lemma retry_on_lock_recovers {A} file (q : database → A) w db msg (k : nat) rest :
  locked msg → (k ≤ 4)%nat →
  engine w = (replicate k (Some (OperationalError msg)) ++ None :: rest)%list →
  files w !! file = Some db →
  retry_on_lock (execute file q) w
  = (inr (Some (q db)), set_trace (trace w ++ backoff k) (set_engine rest w)).
Proof.
  intros Hl Hk He Hf. unfold retry_on_lock.
  change (seqZ 0 retries) with [0; 1; 2; 3; 4].
  do 5 (try destruct k as [|k]); [..|lia]; simpl in He;
    repeat (erewrite retry_loop_locked;
            [|apply execute_fault; simpl; try eassumption; reflexivity|done|done]);
    (erewrite retry_loop_returns;
     [|apply execute_ok;
       [unfold no_fault; simpl; try rewrite He; done|simpl; eassumption]]);
    destruct w as [fs e h v t]; simpl in *; subst e;
    unfold after_step, set_trace, set_engine; simpl;
    rewrite <- ?app_assoc, ?app_nil_r; reflexivity.
Qed.

Lemma run_mutation_fault file m w err rest :
  engine w = Some err :: rest →
  run_mutation file m w = (inr tt, set_engine rest w).
Proof.
  intros He. destruct m; simpl; exact (guarded_statement_fault _ _ _ _ _ He).
Qed.

(** Whatever the engine answers, a mutating method returns normally and
    never sleeps: no storage error leaves it, and none reaches the
    retry wrapper. *)
Lemma run_mutation_never_raises file m w :
  ∃ w', run_mutation file m w = (inr tt, w') ∧ trace w' = trace w.
Proof.
  assert (H : ∀ f : database → gmap string (pydoc * Z),
    ∃ w', retry_on_lock_
            (try_except (let* t := execute file f in commit file t)
               (except_sqlite_Error tt)) w = (inr tt, w')
          ∧ trace w' = trace w).
  { intros f.
    assert (Hb : ∃ w', try_except (let* t := execute file f in commit file t)
                         (except_sqlite_Error tt) w = (inr tt, w')
                       ∧ trace w' = trace w).
    { unfold try_except, bind, execute, commit, bind, engine_step, get_world.
      destruct w as [fs e h v t]; simpl.
      destruct e as [|[err|] e]; simpl; try (by eexists);
        destruct (fs !! file) as [db|]; simpl; try (by eexists);
        destruct e as [|[err|] e]; simpl; by eexists. }
    destruct Hb as (w' & Hb & Ht). exists w'. split; [|done].
    unfold retry_on_lock_, bind at 1.
    by rewrite (retry_on_lock_returns _ _ _ _ Hb). }
  destruct m; simpl; apply H.
Qed.

(** C4, as the code has it.  The wrapper [retry_on_lock] re-runs a call
    that raises an [OperationalError] whose message mentions "locked":
    after [k ≤ 4] such answers the value is returned, [k] sleeps of
    0.5 s × attempt number having been made; after five, the fifth error
    leaves the wrapper; any other exception leaves it at once.  The
    mutating methods catch [sqlite3.Error] inside the decorated body: a
    storage error that is not a "locked" condition does not reach the
    caller, the method returns and the table is as before. *)
Theorem retry_on_lock_and_suppression :
  (∀ A file (q : database → A) w db msg (k : nat) rest,
     locked msg → (k ≤ 4)%nat →
     engine w = (replicate k (Some (OperationalError msg)) ++ None :: rest)%list →
     files w !! file = Some db →
     retry_on_lock (execute file q) w
     = (inr (Some (q db)), set_trace (trace w ++ backoff k) (set_engine rest w)))
  ∧ (∀ A file (q : database → A) w msg rest,
     locked msg →
     engine w = (replicate 5 (Some (OperationalError msg)) ++ rest)%list →
     retry_on_lock (execute file q) w
     = (inl (Sqlite (OperationalError msg)),
        set_trace (trace w ++ backoff 4) (set_engine rest w)))
  ∧ (∀ A (func : M A) w e w',
     func w = (inl e, w') →
     (∀ msg, e = Sqlite (OperationalError msg) → ¬ locked msg) →
     retry_on_lock func w = (inl e, w'))
  ∧ (∀ file m w err rest,
     engine w = Some err :: rest →
     (∀ msg, err = OperationalError msg → ¬ locked msg) →
     run_mutation file m w = (inr tt, set_engine rest w)).
Proof.
  split; [|split; [|split]].
  - intros. eapply retry_on_lock_recovers; eassumption.
  - intros. eapply retry_on_lock_exhausted; eassumption.
  - intros. by apply retry_on_lock_other.
  - intros file m w err rest He _. exact (run_mutation_fault _ _ _ _ _ He).
Qed.

Lemma retry_on_lock_and_suppression_witness :
  let locked_err := OperationalError "database is locked" in
  let io_err := DatabaseError "disk I/O error" in
  let w2 := sample_world ∅ [Some locked_err; Some locked_err; None] in
  let w5 := sample_world ∅ (replicate 5 (Some locked_err)) in
  let w1 := sample_world {[ "u1" := PENDING ]} [Some io_err] in
  retry_on_lock (execute "default_db" (λ db, XmlStorage db !! "u1")) w2
  = (inr (Some None), set_trace (backoff 2) (set_engine [] w2))
  ∧ retry_on_lock (execute "default_db" (λ db, XmlStorage db !! "u1")) w5
    = (inl (Sqlite locked_err), set_trace (backoff 4) (set_engine [] w5))
  ∧ retry_on_lock (execute "default_db" (λ db, XmlStorage db !! "u1")) w1
    = (inl (Sqlite io_err), set_engine [] w1)
  ∧ run_mutation "default_db" (Update "u1" (PBytes "<Run/>") 200) w1
    = (inr tt, set_engine [] w1).
Proof.
  intros locked_err io_err w2 w5 w1.
  destruct retry_on_lock_and_suppression as (H1 & H2 & H3 & H4).
  split; [|split; [|split]].
  - exact (H1 _ "default_db" (λ db, XmlStorage db !! "u1") w2
             (set_XmlStorage ∅ sample_db) "database is locked" 2%nat []
             eq_refl ltac:(lia) eq_refl eq_refl).
  - exact (H2 _ "default_db" (λ db, XmlStorage db !! "u1") w5
             "database is locked" [] eq_refl eq_refl).
  - apply (H3 _ _ w1 (Sqlite io_err) (set_engine [] w1));
      [reflexivity|intros msg Hm; discriminate Hm].
  - apply (H4 "default_db" _ w1 io_err []);
      [reflexivity|intros msg Hm; discriminate Hm].
Defined.

(** C4 as stated fails on the code: a storage error that is not a
    "locked" condition, raised by the [UPDATE] of
    [update_xml_in_sqlite], does not propagate; the method returns and
    the row stays as it was. *)
Lemma storage_error_is_suppressed :
  let io_err := DatabaseError "disk I/O error" in
  let w := sample_world {[ "u1" := PENDING ]} [Some io_err] in
  ∃ w', update_xml_in_sqlite "default_db" "u1" (PBytes "<Run/>") 200 w = (inr tt, w')
        ∧ files w' = files w
        ∧ fst (update_xml_in_sqlite "default_db" "u1" (PBytes "<Run/>") 200 w)
          ≠ inl (Sqlite io_err).
Proof.
  intros io_err w. exists (set_engine [] w).
  assert (H : update_xml_in_sqlite "default_db" "u1" (PBytes "<Run/>") 200 w
              = (inr tt, set_engine [] w)).
  { apply (run_mutation_fault "default_db" (Update "u1" (PBytes "<Run/>") 200)
             w io_err []). reflexivity. }
  rewrite H. split; [done|split; [done|discriminate]].
Qed.

(** The slip behind C4: a "locked" answer inside a mutating method is
    swallowed in the same way, so the wrapper never retries it. *)
Example locked_update_is_not_retried :
  let w := sample_world {[ "u1" := PENDING ]}
             [Some (OperationalError "database is locked")] in
  update_xml_in_sqlite "default_db" "u1" (PBytes "<Run/>") 200 w
  = (inr tt, set_engine [] w).
Proof.
  intros w.
  apply (run_mutation_fault "default_db" (Update "u1" (PBytes "<Run/>") 200)
           w (OperationalError "database is locked") []). reflexivity.
Qed.

(** ** The request lifecycle *)

Lemma load_xml_from_sqlite_ok file uid w db :
  no_fault w → files w !! file = Some db →
  load_xml_from_sqlite file uid w = (inr (XmlStorage db !! uid), after_step w).
Proof.
  intros Hn Hf. unfold load_xml_from_sqlite, bind at 1.
  erewrite retry_on_lock_returns; [done|].
  unfold try_except. by rewrite (execute_ok _ _ _ db).
Qed.

Lemma request_frames_row ext data w db past status :
  Request.uid data ≠ "" → no_fault w →
  files w !! selected_db data = Some db →
  XmlStorage db !! Request.uid data = Some (past, status) →
  request_frames ext data w
  = try_except
      (answer_from_row ext (selected_db data) (Request.uid data) past status)
      (on_exception (selected_db data) (Request.uid data)) (after_step w).
Proof.
  intros Hu Hn Hf Hrow. unfold request_frames.
  destruct (String.eqb_spec (Request.uid data) ""); [done|].
  unfold try_except at 1, bind at 1.
  rewrite (load_xml_from_sqlite_ok _ _ _ db Hn Hf), Hrow. done.
Qed.

(** C1, as the code has it.  When the row of the request's UID holds a
    SUCCESS document (not empty, not prefixed ["FAILED | "]) and the
    engine answers the read of that row, [request_frames] answers with
    the stored document, handed to the signer as it is, and the stored
    status code; [main] is not entered, so the trace gains no catalog
    query and no packing call, and no file changes. *)
Theorem success_is_replayed ext data w db past status :
  Request.uid data ≠ "" → no_fault w →
  files w !! selected_db data = Some db →
  XmlStorage db !! Request.uid data = Some (past, status) →
  SUCCESS past →
  ∃ w', request_frames ext data w
        = (inr (mk_response status (sign_doc ext past)
                  "Frames generated successfully!"), w')
        ∧ trace w' = trace w ∧ files w' = files w.
Proof.
  intros Hu Hn Hf Hrow [Hne Hpre]. exists (after_step w).
  rewrite (request_frames_row _ _ _ db past status) by done.
  split; [|done].
  unfold try_except, answer_from_row.
  destruct past as [s|b]; simpl in *; [|done].
  destruct s as [|c s]; [done|].
  unfold Py.startswith in *. by rewrite Hpre.
Qed.

Lemma success_is_replayed_witness :
  let data := sample_request "u1" [] in
  let w := sample_world {[ "u1" := (PBytes "<Run/>", 209) ]} [] in
  ∃ w', request_frames sample_ext data w
        = (inr (mk_response 209 "<Run/>" "Frames generated successfully!"), w')
        ∧ trace w' = trace w ∧ files w' = files w.
Proof.
  intros data w.
  apply (success_is_replayed sample_ext data w
           (set_XmlStorage {[ "u1" := (PBytes "<Run/>", 209) ]} sample_db)
           (PBytes "<Run/>") 209).
  - discriminate.
  - exact I.
  - reflexivity.
  - reflexivity.
  - split; [discriminate|reflexivity].
Defined.

(** C1 as stated fails on the code: when the read of the stored row
    fails, [load_xml_from_sqlite] swallows the error and returns [None],
    the SUCCESS row of "u1" is taken for absent, and the request is
    built again: the catalog is queried, the packing service is called,
    and the stored document and status are replaced. *)
Lemma failed_read_rebuilds_a_success_row :
  let data := sample_request "u1" [ToolDecl.mk "IMP" "v16.0"] in
  let w := sample_world {[ "u1" := (PBytes "<Old/>", 209) ]}
             [Some (OperationalError "database is locked")] in
  let r := request_frames sample_ext data w in
  SUCCESS (PBytes "<Old/>")
  ∧ stored_row w "default_db" "u1" = Some (PBytes "<Old/>", 209)
  ∧ fst r = inr (mk_response 200 "<Run/>" "Frame generated successfully!")
  ∧ fst r ≠ inr (mk_response 209 (sign_doc sample_ext (PBytes "<Old/>"))
                   "Frames generated successfully!")
  ∧ trace (snd r) = [EvCatalog "default_db"; EvPacking]
  ∧ stored_row (snd r) "default_db" "u1" = Some (PBytes "<Run/>", 200).
Proof.
  intros data w r.
  assert (H1 : fst r = inr (mk_response 200 "<Run/>" "Frame generated successfully!"))
    by (vm_compute; reflexivity).
  split; [split; [discriminate|reflexivity]|].
  split; [reflexivity|]. split; [exact H1|].
  split; [rewrite H1; discriminate|].
  split; vm_compute; reflexivity.
Qed.

(** A FAILED row is answered 406 with its first message and cleared, so
    that the UID can be submitted again. *)
Example failed_row_is_answered_and_cleared :
  let data := sample_request "u1" [] in
  let w := sample_world {[ "u1" := FAILED "FSL1: no room | retry" ]} [] in
  fst (request_frames sample_ext data w)
  = inr (mk_response 406 "" "FSL1: no room")
  ∧ stored_row (snd (request_frames sample_ext data w)) "default_db" "u1" = None.
Proof. split; vm_compute; reflexivity. Qed.

(** A request without a UID is refused before the store is read. *)
Example missing_uid_is_refused :
  let w := sample_world ∅ [] in
  request_frames sample_ext (sample_request "" []) w
  = (inl (HTTPException 400 "UID is missing in the request."), w).
Proof. reflexivity. Qed.

(** C7, as the code has it.  While the row of the request's UID is
    PENDING (empty document, code 200) and the engine answers the read
    of that row, [request_frames] answers 503 with an empty document
    from that row; it does not enter [main], and the row stays
    PENDING. *)
Theorem pending_row_answers_503 ext data w db :
  Request.uid data ≠ "" → no_fault w →
  files w !! selected_db data = Some db →
  XmlStorage db !! Request.uid data = Some PENDING →
  ∃ w', request_frames ext data w
        = (inr (mk_response 503 ""
                  "Frame Generator was not able to build frame. Increase bit rate or reduce required update rates."),
           w')
        ∧ trace w' = trace w ∧ files w' = files w.
Proof.
  intros Hu Hn Hf Hrow. exists (after_step w).
  rewrite (request_frames_row _ _ _ db (PStr "") 200) by done.
  done.
Qed.

Lemma pending_row_answers_503_witness :
  let data := sample_request "u1" [ToolDecl.mk "IMP" "v16.0"] in
  let w := sample_world {[ "u1" := PENDING ]} [] in
  ∃ w', request_frames sample_ext data w
        = (inr (mk_response 503 ""
                  "Frame Generator was not able to build frame. Increase bit rate or reduce required update rates."),
           w')
        ∧ trace w' = trace w ∧ files w' = files w.
Proof.
  intros data w.
  apply (pending_row_answers_503 sample_ext data w
           (set_XmlStorage {[ "u1" := PENDING ]} sample_db)).
  - discriminate.
  - exact I.
  - reflexivity.
  - reflexivity.
Defined.

(** C7 as stated fails on the code: with a PENDING row for "u1", the
    request is answered 503 from the row and nothing is built, whereas
    the build path on the same input would resolve the tools, call the
    packing service and answer 200. *)
Lemma pending_row_does_not_rebuild :
  let data := sample_request "u1" [ToolDecl.mk "IMP" "v16.0"] in
  let w := sample_world {[ "u1" := PENDING ]} [] in
  let rebuilt :=
    try_except (build sample_ext (selected_db data) data)
      (on_exception (selected_db data) "u1") w in
  stored_row w (selected_db data) "u1" = Some PENDING
  ∧ fst (request_frames sample_ext data w)
    = inr (mk_response 503 ""
             "Frame Generator was not able to build frame. Increase bit rate or reduce required update rates.")
  ∧ trace (snd (request_frames sample_ext data w)) = []
  ∧ stored_row (snd (request_frames sample_ext data w)) (selected_db data) "u1"
    = Some PENDING
  ∧ fst rebuilt = inr (mk_response 200 "<Run/>" "Frame generated successfully!")
  ∧ trace (snd rebuilt) = [EvCatalog "default_db"; EvPacking]
  ∧ request_frames sample_ext data w ≠ rebuilt.
Proof.
  intros data w rebuilt.
  assert (H1 : fst (request_frames sample_ext data w)
               = inr (mk_response 503 ""
                        "Frame Generator was not able to build frame. Increase bit rate or reduce required update rates."))
    by (vm_compute; reflexivity).
  assert (H2 : fst rebuilt
               = inr (mk_response 200 "<Run/>" "Frame generated successfully!"))
    by (vm_compute; reflexivity).
  repeat split; try (vm_compute; reflexivity); try assumption.
  intros Heq. rewrite Heq in H1. rewrite H1 in H2. discriminate H2.
Qed.

Lemma after_step_nil w : engine w = [] → after_step w = w.
Proof. unfold after_step. destruct w; simpl. by intros ->. Qed.

Lemma no_fault_nil w : engine w = [] → no_fault w.
Proof. unfold no_fault. by intros ->. Qed.

(** Without engine faults a catalog query returns its rows, or [None]
    when the file has no tables; the trace records the query. *)
Lemma select_tools_from_db_nil file names w :
  engine w = [] →
  select_tools_from_db file names w
  = (inr (query_tools names <$> files w !! file),
     set_trace (trace w ++ [EvCatalog file]) w).
Proof.
  intros He. unfold select_tools_from_db, bind at 1.
  erewrite retry_on_lock_returns; [done|].
  unfold bind at 1, emit. unfold try_except, bind at 1.
  unfold execute, bind at 1. rewrite engine_step_ok by (by apply no_fault_nil).
  rewrite after_step_nil by done.
  unfold bind, get_world; simpl. by destruct (files w !! file).
Qed.

Lemma select_dpoints_nil file names addrs w :
  engine w = [] →
  select_dpoints_from_db_with_tools file names addrs w
  = (inr (query_dpoints names addrs <$> files w !! file),
     set_trace (trace w ++ [EvCatalog file]) w).
Proof.
  intros He. unfold select_dpoints_from_db_with_tools, bind at 1.
  erewrite retry_on_lock_returns; [done|].
  unfold bind at 1, emit. unfold try_except, bind at 1.
  unfold execute, bind at 1. rewrite engine_step_ok by (by apply no_fault_nil).
  rewrite after_step_nil by done.
  unfold bind, get_world; simpl. by destruct (files w !! file).
Qed.

Lemma mapM_pure {A B} (f : A → M B) (g : A → B) l w :
  (∀ x, x ∈ l → f x w = (inr (g x), w)) →
  mapM f l w = (inr (g <$> l), w).
Proof.
  induction l as [|x l IH]; intros H; [done|].
  simpl. unfold bind at 1. rewrite H by set_solver.
  unfold bind at 1. rewrite IH; [done|]. intros y Hy. apply H. set_solver.
Qed.

Lemma find_is_mwd_none (tools : list TOOL.t) :
  (∀ t, t ∈ tools → TOOL.is_mwd t = false) → List.find TOOL.is_mwd tools = None.
Proof.
  induction tools as [|t l IH]; intros H; [done|].
  simpl. rewrite H by set_solver. apply IH. intros; apply H; set_solver.
Qed.

(** When no resolved tool is an MWD tool, [get_tools_list] asks the
    catalog once and returns a list without an MWD tool. *)
Lemma get_tools_list_no_mwd data size w :
  engine w = [] →
  (∀ t, t ∈ resolved_tools w data → TOOL.is_mwd t = false) →
  ∃ tools,
    get_tools_list (get_frameset_tools data) size w
    = (inr tools, set_trace (trace w ++ [EvCatalog (hspm_version w)]) w)
    ∧ List.find TOOL.is_mwd tools = None.
Proof.
  intros He Hno. unfold get_tools_list, resolved_tools in *.
  set (td := get_frameset_tools data) in *.
  set (g := λ tool,
         TOOL.set_size (Some (get_size size))
           (TOOL.set_version (get_lwd_version (TOOL.display_name tool) td) tool)).
  exists (g <$> default [] (query_tools (ToolDecl.NAME <$> td) <$> files w !! hspm_version w)).
  assert (Hno' : ∀ t, t ∈ default [] (query_tools (ToolDecl.NAME <$> td)
                                       <$> files w !! hspm_version w)
                      → TOOL.is_mwd t = false).
  { destruct (files w !! hspm_version w); simpl; [done|]. set_solver. }
  split.
  - unfold bind at 1, get_hspm_version. unfold bind at 1.
    rewrite select_tools_from_db_nil by done.
    apply mapM_pure. intros t Ht. by rewrite (Hno' t Ht).
  - apply find_is_mwd_none. intros t (t0 & -> & Ht0)%list_elem_of_fmap.
    simpl. by apply Hno'.
Qed.

Lemma main_missing_mwd ext data s size w :
  engine w = [] →
  Request.section_size data = Some s →
  float_of_str ext (rstrip s "in") = Some size →
  (∀ t, t ∈ resolved_tools w data → TOOL.is_mwd t = false) →
  main ext data w
  = (inl (ValueError "MWD tool is missing in frame request!"),
     set_trace (trace w ++ [EvCatalog (hspm_version w)]) w).
Proof.
  intros He Hs Hsize Hno. unfold main. rewrite Hs, Hsize.
  unfold bind at 1, ret at 1. unfold bind at 1.
  destruct (get_tools_list_no_mwd data size w He Hno) as (tools & -> & ->).
  done.
Qed.

Lemma resolved_tools_frame w data fs tr :
  (∀ db', fs !! hspm_version w = Some db' →
          ∃ db, files w !! hspm_version w = Some db
                ∧ Tool db' = Tool db ∧ ToolVersion db' = ToolVersion db) →
  (fs !! hspm_version w = None → files w !! hspm_version w = None) →
  resolved_tools (mk_world fs (engine w) (heap w) (hspm_version w) tr) data
  = resolved_tools w data.
Proof.
  intros Hsome Hnone. unfold resolved_tools; simpl.
  destruct (fs !! hspm_version w) as [db'|] eqn:E.
  - destruct (Hsome db' eq_refl) as (db & -> & HT & HV).
    unfold query_tools, versions_of. by rewrite HT, HV.
  - by rewrite Hnone.
Qed.

(** C2, as the code has it.  For a UID that has no row yet, in a status
    file that exists and with the storage engine answering every call,
    a request with a numeric section size
    whose resolved tools include no MWD tool is answered 406 with the
    message of the [ValueError] that [main] raises right after the tools
    are resolved: the trace holds that one catalog query and no packing
    call.  By then the UID has been inserted as PENDING, and the handler
    of [request_frames] finalizes the row as FAILED with code 406. *)
Theorem missing_mwd_is_recorded_as_failed ext data w db s size :
  Request.uid data ≠ "" → engine w = [] →
  files w !! selected_db data = Some db →
  XmlStorage db !! Request.uid data = None →
  Request.section_size data = Some s →
  float_of_str ext (rstrip s "in") = Some size →
  (∀ t, t ∈ resolved_tools w data → TOOL.is_mwd t = false) →
  ∃ w', request_frames ext data w
        = (inr (mk_response 406 "" "MWD tool is missing in frame request!"), w')
        ∧ stored_row w' (selected_db data) (Request.uid data)
          = Some (FAILED "MWD tool is missing in frame request!")
        ∧ trace w' = (trace w ++ [EvCatalog (hspm_version w)])%list.
Proof.
  intros Hu He Hf Hrow Hs Hsize Hno.
  set (uid := Request.uid data) in *. set (sel := selected_db data) in *.
  set (db1 := set_XmlStorage (<[uid := PENDING]> (XmlStorage db)) db).
  set (w1 := set_files (<[sel := db1]> (files w)) w).
  set (w2 := set_trace (trace w ++ [EvCatalog (hspm_version w)]) w1).
  set (db3 := set_XmlStorage (<[uid := FAILED "MWD tool is missing in frame request!"]>
                                (XmlStorage db1)) db1).
  exists (set_files (<[sel := db3]> (files w2)) w2).
  split; [|split].
  - unfold request_frames. fold uid. fold sel.
    destruct (String.eqb_spec uid ""); [done|].
    unfold try_except at 1, bind at 1.
    rewrite (load_xml_from_sqlite_ok _ _ _ db (no_fault_nil _ He) Hf), Hrow.
    rewrite after_step_nil by done.
    unfold build. fold uid. unfold bind at 1.
    unfold insert_uid_with_none.
    rewrite (guarded_statement_ok _ _ _ db He Hf).
    unfold insert_or_ignore. rewrite Hrow. fold PENDING. fold db1. fold w1.
    unfold bind at 1.
    rewrite (main_missing_mwd ext data s size w1); [|done|done|done|].
    + fold w2. unfold on_exception.
      change (Py.contains _ (str_exn _)) with false. cbv iota.
      unfold bind at 1, update_xml_in_sqlite.
      rewrite (guarded_statement_ok _ _ _ db1); [|done|].
      * unfold update_row. simpl XmlStorage at 1.
        rewrite lookup_insert_eq. reflexivity.
      * simpl. by rewrite lookup_insert_eq.
    + intros t Ht. apply Hno. revert Ht. unfold w1, set_files.
      rewrite resolved_tools_frame; [done| |].
      * intros db'. rewrite lookup_insert. case_decide as Hd.
        -- intros [= <-]. exists db. rewrite <- Hd. done.
        -- intros H. by exists db'.
      * rewrite lookup_insert. by case_decide.
  - unfold stored_row; simpl. rewrite lookup_insert_eq. simpl.
    by rewrite lookup_insert_eq.
  - reflexivity.
Qed.

Lemma missing_mwd_is_recorded_as_failed_witness :
  let data := sample_request "u2" [ToolDecl.mk "MXWP" "v10.0"] in
  let w := sample_world ∅ [] in
  ∃ w', request_frames sample_ext data w
        = (inr (mk_response 406 "" "MWD tool is missing in frame request!"), w')
        ∧ stored_row w' "default_db" "u2"
          = Some (FAILED "MWD tool is missing in frame request!")
        ∧ trace w' = [EvCatalog "default_db"].
Proof.
  intros data w.
  apply (missing_mwd_is_recorded_as_failed sample_ext data w
           (set_XmlStorage ∅ sample_db) "12.25in" 12.25%Q).
  - discriminate.
  - reflexivity.
  - reflexivity.
  - reflexivity.
  - reflexivity.
  - reflexivity.
  - intros t Ht. vm_compute in Ht.
    apply list_elem_of_In in Ht. destruct Ht as [<-|[]]. reflexivity.
Defined.

(** C2 as stated fails on the code: the request declares only the LWD
    tool "MXWP", so no MWD tool is resolved; it is answered 406, but by
    then the row of "u2", absent before, has been inserted and
    finalized as FAILED. *)
Lemma missing_mwd_changes_the_store :
  let data := sample_request "u2" [ToolDecl.mk "MXWP" "v10.0"] in
  let w := sample_world ∅ [] in
  let r := request_frames sample_ext data w in
  (∀ t, t ∈ resolved_tools w data → TOOL.is_mwd t = false)
  ∧ stored_row w "default_db" "u2" = None
  ∧ fst r = inr (mk_response 406 "" "MWD tool is missing in frame request!")
  ∧ stored_row (snd r) "default_db" "u2"
    = Some (FAILED "MWD tool is missing in frame request!")
  ∧ files (snd r) ≠ files w.
Proof.
  intros data w r.
  assert (Hrow : stored_row (snd r) "default_db" "u2"
                 = Some (FAILED "MWD tool is missing in frame request!"))
    by (vm_compute; reflexivity).
  split; [|split; [|split; [|split]]].
  - intros t Ht. vm_compute in Ht.
    apply list_elem_of_In in Ht. destruct Ht as [<-|[]]. reflexivity.
  - reflexivity.
  - vm_compute; reflexivity.
  - exact Hrow.
  - intros Heq. unfold stored_row in Hrow. rewrite Heq in Hrow.
    vm_compute in Hrow. discriminate Hrow.
Qed.

(** ** Ordered resolution *)

Lemma elem_of_query_dpoints x names addrs db :
  x ∈ query_dpoints names addrs db ↔
  ∃ d t, d ∈ DPoint db ∧ t ∈ Tool db
         ∧ DPointRow.TOOL_LTB_ADDR d ∈ addrs
         ∧ DPointRow.DPOINT_NAME d ∈ names
         ∧ ToolRow.LTBAddress t = DPointRow.TOOL_LTB_ADDR d
         ∧ x = dpoint_of_row d t.
Proof.
  unfold query_dpoints. rewrite merge_sort_Permutation.
  unfold join_dpoints. rewrite list_elem_of_bind. split.
  - intros (d & Hx & Hd). apply list_elem_of_filter in Hd as [[Ha Hn] Hd].
    apply list_elem_of_bind in Hx as (t & Hx & Ht).
    apply list_elem_of_filter in Ht as [Hl Ht].
    apply list_elem_of_singleton in Hx. by exists d, t.
  - intros (d & t & Hd & Ht & Ha & Hn & Hl & ->). exists d. split.
    + apply list_elem_of_bind. exists t. split; [by apply list_elem_of_singleton|].
      by apply list_elem_of_filter.
    + by apply list_elem_of_filter.
Qed.

Lemma next_of_name_found rows token w :
  (∃ x, x ∈ rows ∧ DPOINT.name x = token) →
  ∃ x, next_of id (λ x, String.eqb token (DPOINT.name x)) rows w = (inr x, w)
       ∧ x ∈ rows ∧ DPOINT.name x = token.
Proof.
  intros (x & Hx & Hn). unfold next_of.
  destruct (List.find _ rows) as [y|] eqn:E.
  - apply List.find_some in E as [Hy He]. exists y. split; [done|].
    split; [by apply list_elem_of_In|]. symmetry. by apply String.eqb_eq.
  - exfalso. eapply List.find_none in E; [|by apply list_elem_of_In].
    simpl in E. rewrite Hn, String.eqb_refl in E. done.
Qed.

Lemma next_of_name_missing rows token w :
  (∀ x, x ∈ rows → DPOINT.name x ≠ token) →
  next_of id (λ x, String.eqb token (DPOINT.name x)) rows w = (inl StopIteration, w).
Proof.
  intros Hno. unfold next_of.
  destruct (List.find _ rows) as [y|] eqn:E; [|done].
  apply List.find_some in E as [Hy He]. apply String.eqb_eq in He.
  exfalso. eapply Hno; [by apply list_elem_of_In|done].
Qed.

Lemma next_of_pure {A B} (f : A → B) p l w r w' :
  next_of f p l w = (r, w') → w' = w.
Proof. unfold next_of. destruct (List.find p l); by intros [= _ <-]. Qed.

(** The loop of [get_ordered_dpoint_list] over the rows [rows]. *)
Lemma ordered_loop_names rows dl w dps w' :
  mapM (λ s, next_of id (λ x, String.eqb s (DPOINT.name x)) rows) dl w = (inr dps, w') →
  DPOINT.name <$> dps = dl ∧ (∀ x, x ∈ dps → x ∈ rows) ∧ w' = w.
Proof.
  revert dps w'. induction dl as [|s dl IH]; intros dps w'; simpl.
  - intros [= <- <-]. set_solver.
  - unfold bind at 1.
    destruct (next_of _ _ rows w) as [[e|x] w1] eqn:E1; [done|].
    pose proof (next_of_pure _ _ _ _ _ _ E1) as ->.
    unfold bind at 1.
    destruct (mapM _ dl w) as [[e|ys] w2] eqn:E2; [done|].
    intros [= <- <-]. destruct (IH _ _ eq_refl) as (Hn & Hin & ->).
    unfold next_of in E1. destruct (List.find _ rows) as [y|] eqn:Ef; [|done].
    injection E1 as <-. apply List.find_some in Ef as [Hy He].
    apply String.eqb_eq in He. split; [rewrite fmap_cons; simpl in *; congruence|].
    split; [|done]. intros z [->|Hz]%elem_of_cons; [|by apply Hin].
    by apply list_elem_of_In.
Qed.

Lemma ordered_loop_found rows dl w :
  (∀ token, token ∈ dl → ∃ x, x ∈ rows ∧ DPOINT.name x = token) →
  ∃ dps, mapM (λ s, next_of id (λ x, String.eqb s (DPOINT.name x)) rows) dl w
         = (inr dps, w).
Proof.
  induction dl as [|s dl IH]; intros H; simpl; [by eexists|].
  destruct (next_of_name_found rows s w) as (x & Hx & _); [apply H; set_solver|].
  destruct IH as (dps & Hd); [intros; apply H; set_solver|].
  unfold bind at 1. rewrite Hx. unfold bind at 1. rewrite Hd. by eexists.
Qed.

Lemma ordered_loop_missing rows dl token w :
  token ∈ dl → (∀ x, x ∈ rows → DPOINT.name x ≠ token) →
  mapM (λ s, next_of id (λ x, String.eqb s (DPOINT.name x)) rows) dl w
  = (inl StopIteration, w).
Proof.
  intros Hin Hno. induction dl as [|s dl IH]; [set_solver|].
  simpl. unfold bind at 1.
  destruct (next_of _ _ rows w) as [[e|x] w1] eqn:E1.
  - pose proof (next_of_pure _ _ _ _ _ _ E1) as ->.
    unfold next_of in E1. destruct (List.find _ rows); [done|]. by injection E1 as <-.
  - pose proof (next_of_pure _ _ _ _ _ _ E1) as ->.
    apply elem_of_cons in Hin as [->|Hin].
    + rewrite next_of_name_missing in E1 by done. done.
    + unfold bind. by rewrite IH.
Qed.

Lemma select_dpoints_ok file names addrs w db :
  no_fault w → files w !! file = Some db →
  select_dpoints_from_db_with_tools file names addrs w
  = (inr (Some (query_dpoints names addrs db)),
     after_step (set_trace (trace w ++ [EvCatalog file]) w)).
Proof.
  intros Hn Hf. unfold select_dpoints_from_db_with_tools, bind at 1.
  erewrite retry_on_lock_returns; [done|].
  unfold bind at 1, emit. unfold try_except, bind at 1.
  by rewrite (execute_ok _ _ _ db).
Qed.

(** Whatever the engine answers, the query method returns: its rows,
    or [None] after an error that it has swallowed. *)
Lemma select_dpoints_total file names addrs w :
  ∃ r w', select_dpoints_from_db_with_tools file names addrs w = (inr r, w')
          ∧ hspm_version w' = hspm_version w ∧ files w' = files w
          ∧ (∀ rows, r = Some rows →
               ∃ db, files w !! file = Some db
                     ∧ rows = query_dpoints names addrs db).
Proof.
  unfold select_dpoints_from_db_with_tools, bind at 1.
  set (w1 := set_trace (trace w ++ [EvCatalog file]) w).
  assert (Hbody : ∃ r w',
    (let* _ := emit (EvCatalog file) in
     try_except
       (let* rows := execute file (query_dpoints names addrs) in ret (Some rows))
       (except_sqlite_Error None)) w = (inr r, w')
    ∧ hspm_version w' = hspm_version w ∧ files w' = files w
    ∧ (∀ rows, r = Some rows →
         ∃ db, files w !! file = Some db ∧ rows = query_dpoints names addrs db)).
  { unfold bind at 1, emit. fold w1. unfold try_except, bind at 1.
    destruct (engine w1) as [|[err|] rest] eqn:He.
    - destruct (files w !! file) as [db|] eqn:Hf.
      + rewrite (execute_ok _ _ _ db) by (by apply no_fault_nil || done).
        eexists _, _. split; [done|]. split; [done|]. split; [done|].
        intros rows [= <-]. by exists db.
      + unfold execute, bind at 1.
        rewrite engine_step_ok by (by apply no_fault_nil).
        unfold bind, get_world; simpl. rewrite Hf.
        eexists _, _. split; [done|]. by repeat split.
    - rewrite (execute_fault _ _ _ _ _ He).
      eexists _, _. split; [done|]. by repeat split.
    - assert (Hn : no_fault w1) by (unfold no_fault; by rewrite He).
      destruct (files w !! file) as [db|] eqn:Hf.
      + rewrite (execute_ok _ _ _ db) by done.
        eexists _, _. split; [done|]. split; [done|]. split; [done|].
        intros rows [= <-]. by exists db.
      + unfold execute, bind at 1. rewrite engine_step_ok by done.
        unfold bind, get_world; simpl. rewrite Hf.
        eexists _, _. split; [done|]. by repeat split. }
  destruct Hbody as (r & w' & Hb & Hv & Hfs & Hrows).
  rewrite (retry_on_lock_returns _ _ _ _ Hb).
  exists r, w'. by repeat split.
Qed.

(** C6.  [get_ordered_dpoint_list] resolves the names in the order the
    caller gives them: a result has exactly the caller's names,
    position by position; it raises [StopIteration] when a requested
    name has no matching catalog record for the tools' addresses; and
    when every requested name has one and the engine answers, it
    returns, each record being a row of the catalog query. *)
Theorem ordered_resolution dpoint_list tools :
  let addrs := TOOL.ltb_addr <$> tools in
  (∀ w dpoints w',
     get_ordered_dpoint_list dpoint_list tools w = (inr dpoints, w') →
     DPOINT.name <$> dpoints = dpoint_list)
  ∧ (∀ w token,
       token ∈ dpoint_list →
       (∀ db, files w !! hspm_version w = Some db → ¬ catalog_match db addrs token) →
       ∃ w', get_ordered_dpoint_list dpoint_list tools w = (inl StopIteration, w'))
  ∧ (∀ w db,
       no_fault w → files w !! hspm_version w = Some db →
       (∀ token, token ∈ dpoint_list → catalog_match db addrs token) →
       ∃ dpoints w',
         get_ordered_dpoint_list dpoint_list tools w = (inr dpoints, w')
         ∧ DPOINT.name <$> dpoints = dpoint_list
         ∧ ∀ x, x ∈ dpoints → x ∈ query_dpoints dpoint_list addrs db).
Proof.
  intros addrs. subst addrs.
  split; [|split].
  - intros w dpoints w'. unfold get_ordered_dpoint_list, bind at 1, get_hspm_version.
    unfold bind at 1.
    destruct (select_dpoints_total (hspm_version w) dpoint_list (TOOL.ltb_addr <$> tools) w)
      as (r & w1 & -> & _).
    intros H. by apply ordered_loop_names in H as [? _].
  - intros w token Hin Hno.
    unfold get_ordered_dpoint_list, bind at 1, get_hspm_version. unfold bind at 1.
    destruct (select_dpoints_total (hspm_version w) dpoint_list (TOOL.ltb_addr <$> tools) w)
      as (r & w1 & -> & _ & _ & Hrows).
    exists w1. apply (ordered_loop_missing _ _ token); [done|].
    intros x Hx Hname. destruct r as [rows|]; simpl in Hx; [|set_solver].
    destruct (Hrows rows eq_refl) as (db & Hf & ->).
    apply elem_of_query_dpoints in Hx as (d & t & Hd & Ht & Ha & Hn & Hl & ->).
    apply (Hno db Hf). by exists d, t.
  - intros w db Hn Hf Hall.
    unfold get_ordered_dpoint_list, bind at 1, get_hspm_version. unfold bind at 1.
    rewrite (select_dpoints_ok _ _ _ _ db Hn Hf). simpl default.
    destruct (ordered_loop_found (query_dpoints dpoint_list (TOOL.ltb_addr <$> tools) db) dpoint_list
                (after_step (set_trace (trace w ++ [EvCatalog (hspm_version w)]) w)))
      as (dps & Hd).
    + intros token Hin. destruct (Hall token Hin) as (d & t & Hd & Ht & Hname & Ha & Hl).
      exists (dpoint_of_row d t). split; [|done].
      apply elem_of_query_dpoints. exists d, t. rewrite Hname. by repeat split.
    + eexists dps, _. split; [exact Hd|].
      apply ordered_loop_names in Hd as (? & ? & _). done.
Qed.

Lemma ordered_resolution_witness :
  let tools := [TOOL.mk "IMPTOOL" "IMP" 137 true "" (Some "160") None None None;
                TOOL.mk "MXWPTOOL" "MXWP" 19 false "_mx" (Some "10.0") None None None] in
  let w := sample_world ∅ [] in
  (∃ dpoints w',
     get_ordered_dpoint_list ["rgx"; "sticknslip"; "SHKLV_mx"; "O_rp28h_mx"] tools w
     = (inr dpoints, w')
     ∧ DPOINT.name <$> dpoints = ["rgx"; "sticknslip"; "SHKLV_mx"; "O_rp28h_mx"])
  ∧ (∃ w', get_ordered_dpoint_list ["rgx"; "gtf"] tools w = (inl StopIteration, w')).
Proof.
  intros tools w. split.
  - destruct (ordered_resolution ["rgx"; "sticknslip"; "SHKLV_mx"; "O_rp28h_mx"] tools)
      as (_ & _ & H).
    destruct (H w (set_XmlStorage ∅ sample_db)) as (dps & w' & Hr & Hn & _).
    + exact I.
    + reflexivity.
    + intros token Hin. apply list_elem_of_In in Hin.
      destruct Hin as [<-|[<-|[<-|[<-|[]]]]].
      * exists (DPointRow.mk "rgx" 4504 12 137 "Rotating accelerometer X"),
               (ToolRow.mk "IMPTOOL" "IMP" 137 true "").
        repeat split; apply list_elem_of_In; simpl; tauto.
      * exists (DPointRow.mk "sticknslip" 4650 8 137 "Stick and slip"),
               (ToolRow.mk "IMPTOOL" "IMP" 137 true "").
        repeat split; apply list_elem_of_In; simpl; tauto.
      * exists (DPointRow.mk "SHKLV_mx" 4922 4 19 "Shock level"),
               (ToolRow.mk "MXWPTOOL" "MXWP" 19 false "_mx").
        repeat split; apply list_elem_of_In; simpl; tauto.
      * exists (DPointRow.mk "O_rp28h_mx" 4857 10 19 "Resistivity"),
               (ToolRow.mk "MXWPTOOL" "MXWP" 19 false "_mx").
        repeat split; apply list_elem_of_In; simpl; tauto.
    + by exists dps, w'.
  - destruct (ordered_resolution ["rgx"; "gtf"] tools) as (_ & H & _).
    apply (H w "gtf").
    + apply list_elem_of_In; simpl; tauto.
    + intros db [= <-] (d & t & Hd & _ & Hname & _).
      apply list_elem_of_In in Hd. simpl in Hd.
      destruct Hd as [<-|[<-|[<-|[<-|[]]]]]; discriminate Hname.
Defined.

Example test_get_ordered_dpoint_list :
  let tools := [TOOL.mk "IMPTOOL" "IMP" 137 true "" (Some "160") None None None;
                TOOL.mk "MXWPTOOL" "MXWP" 19 false "_mx" (Some "10.0") None None None] in
  match fst (get_ordered_dpoint_list
               ["rgx"; "sticknslip"; "SHKLV_mx"; "O_rp28h_mx"]
               tools (sample_world ∅ [])) with
  | inr dpoints => DPOINT.datpid <$> dpoints = [4504; 4650; 4922; 4857]
  | inl _ => False
  end.
Proof. vm_compute. reflexivity. Qed.

(** ** Reconciliation and the result status *)

Lemma check_fsl_status out frame_set status tools w frame_set' status' w' :
  check_fsl out frame_set status tools w = (inr (frame_set', status'), w') →
  status' = if rop_differs out frame_set then 209 else status.
Proof.
  unfold check_fsl, rop_differs. destruct out as [fsl|]; [|by intros [= _ <- _]].
  unfold bind at 1.
  destruct (update_fsl _ _ _ w) as [[e|fs] w1]; [done|]. by intros [= _ <- _].
Qed.

Lemma reconcile_status fr out tools w fr' status w' :
  reconcile fr out tools w = (inr (fr', status), w') →
  status = if any_rop_differs fr out then 209 else 200.
Proof.
  unfold reconcile, any_rop_differs.
  unfold bind at 1.
  destruct (check_fsl (Output.fsl1 out) _ _ _ w) as [[e|[f1 s1]] w1] eqn:E1; [done|].
  unfold bind at 1.
  destruct (check_fsl (Output.fsl2 out) _ _ _ w1) as [[e|[f2 s2]] w2] eqn:E2; [done|].
  unfold bind at 1.
  destruct (check_fsl (Output.fsl3 out) _ _ _ w2) as [[e|[f3 s3]] w3] eqn:E3; [done|].
  unfold bind at 1.
  destruct (check_fsl (Output.fsl4 out) _ _ _ w3) as [[e|[f4 s4]] w4] eqn:E4; [done|].
  unfold bind at 1.
  destruct (check_fsl (Output.fsl5 out) _ _ _ w4) as [[e|[f5 s5]] w5] eqn:E5; [done|].
  unfold bind at 1.
  destruct (check_fsl (Output.fsl6 out) _ _ _ w5) as [[e|[f6 s6]] w6] eqn:E6; [done|].
  apply check_fsl_status in E1, E2, E3, E4, E5, E6.
  assert (Hs : s6 = if any_rop_differs fr out then 209 else 200).
  { subst. unfold any_rop_differs.
    repeat match goal with |- context [rop_differs ?o ?f] =>
      destruct (rop_differs o f) end; reflexivity. }
  unfold bind at 1.
  destruct (Output.utility out) as [ul|].
  - destruct (update_utility _ ul tools w6) as [[e|u] w7]; [done|].
    intros [= _ <- _]. exact Hs.
  - intros [= _ <- _]. exact Hs.
Qed.

Lemma get_ordered_dpoint_list_answers dl tools w db :
  engine w = [] → files w !! hspm_version w = Some db →
  (∀ token, token ∈ dl → catalog_match db (TOOL.ltb_addr <$> tools) token) →
  ∃ dps w', get_ordered_dpoint_list dl tools w = (inr dps, w')
            ∧ still_answering w w'.
Proof.
  intros He Hf Hall.
  unfold get_ordered_dpoint_list, bind at 1, get_hspm_version. unfold bind at 1.
  rewrite (select_dpoints_ok _ _ _ _ db (no_fault_nil _ He) Hf). simpl default.
  edestruct ordered_loop_found as (dps & ->).
  - intros token Hin. destruct (Hall token Hin) as (d & t & Hd & Ht & Hname & Ha & Hl).
    exists (dpoint_of_row d t). split; [|done].
    apply elem_of_query_dpoints. exists d, t. rewrite Hname. by repeat split.
  - eexists _, _. split; [done|]. unfold still_answering, after_step; simpl.
    by rewrite He.
Qed.

Lemma still_answering_trans w1 w2 w3 :
  still_answering w1 w2 → still_answering w2 w3 → still_answering w1 w3.
Proof. unfold still_answering. intros (?&?&?) (?&?&?). repeat split; congruence. Qed.

Lemma check_fsl_answers out frame_set status tools w db :
  engine w = [] → files w !! hspm_version w = Some db →
  (∀ token, token ∈ out_names out → catalog_match db (TOOL.ltb_addr <$> tools) token) →
  ∃ fs w', check_fsl out frame_set status tools w
           = (inr (fs, if rop_differs out frame_set then 209 else status), w')
           ∧ still_answering w w'.
Proof.
  intros He Hf Hall. unfold check_fsl, rop_differs.
  destruct out as [fsl|]; simpl in Hall.
  - unfold update_fsl, bind at 1. unfold bind at 1.
    destruct (get_ordered_dpoint_list_answers (OutFsl.mtf fsl) tools w db)
      as (m & w1 & -> & (He1 & Hf1 & Hv1)); [done|done|set_solver|].
    unfold bind at 1.
    destruct (get_ordered_dpoint_list_answers (OutFsl.gtf fsl) tools w1 db)
      as (g & w2 & -> & (He2 & Hf2 & Hv2)); [done|by rewrite Hf1, Hv1|set_solver|].
    unfold bind at 1.
    destruct (get_ordered_dpoint_list_answers (OutFsl.rotary fsl) tools w2 db)
      as (r & w3 & -> & (He3 & Hf3 & Hv3));
      [done|by rewrite Hf2, Hv2, Hf1, Hv1|set_solver|].
    eexists _, _. split; [done|]. unfold still_answering. repeat split; congruence.
  - eexists _, _. split; [done|]. by repeat split.
Qed.

Lemma reconcile_answers fr out tools w db :
  engine w = [] → files w !! hspm_version w = Some db →
  (∀ token, token ∈ corrected_names out →
            catalog_match db (TOOL.ltb_addr <$> tools) token) →
  ∃ fr' w', reconcile fr out tools w
            = (inr (fr', if any_rop_differs fr out then 209 else 200), w').
Proof.
  intros He Hf Hall. unfold corrected_names in Hall.
  assert (Hstep : ∀ o fs st w1,
    still_answering w w1 →
    (∀ token, token ∈ out_names o →
              catalog_match db (TOOL.ltb_addr <$> tools) token) →
    ∃ fs' w2, check_fsl o fs st tools w1
              = (inr (fs', if rop_differs o fs then 209 else st), w2)
              ∧ still_answering w w2).
  { intros o fs st w1 (He1 & Hf1 & Hv1) Ho.
    destruct (check_fsl_answers o fs st tools w1 db) as (fs' & w2 & Hc & Hs);
      [done|by rewrite Hf1, Hv1|done|].
    exists fs', w2. split; [done|].
    by apply (still_answering_trans w w1 w2). }
  unfold reconcile.
  destruct (Hstep (Output.fsl1 out) (FRAME_REQUEST.fsl1 fr) 200 w)
    as (f1 & w1 & E1 & S1); [by repeat split|intros; apply Hall; rewrite !elem_of_app; tauto|].
  unfold bind at 1. rewrite E1.
  edestruct (Hstep (Output.fsl2 out) (FRAME_REQUEST.fsl2 fr)) as (f2 & w2 & E2 & S2);
    [exact S1|intros; apply Hall; rewrite !elem_of_app; tauto|].
  unfold bind at 1. rewrite E2.
  edestruct (Hstep (Output.fsl3 out) (FRAME_REQUEST.fsl3 fr)) as (f3 & w3 & E3 & S3);
    [exact S2|intros; apply Hall; rewrite !elem_of_app; tauto|].
  unfold bind at 1. rewrite E3.
  edestruct (Hstep (Output.fsl4 out) (FRAME_REQUEST.fsl4 fr)) as (f4 & w4 & E4 & S4);
    [exact S3|intros; apply Hall; rewrite !elem_of_app; tauto|].
  unfold bind at 1. rewrite E4.
  edestruct (Hstep (Output.fsl5 out) (FRAME_REQUEST.fsl5 fr)) as (f5 & w5 & E5 & S5);
    [exact S4|intros; apply Hall; rewrite !elem_of_app; tauto|].
  unfold bind at 1. rewrite E5.
  edestruct (Hstep (Output.fsl6 out) (FRAME_REQUEST.fsl6 fr)) as (f6 & w6 & E6 & S6);
    [exact S5|intros; apply Hall; rewrite !elem_of_app; tauto|].
  unfold bind at 1. rewrite E6.
  assert (Hst : (if rop_differs (Output.fsl6 out) (FRAME_REQUEST.fsl6 fr) then 209
                 else if rop_differs (Output.fsl5 out) (FRAME_REQUEST.fsl5 fr) then 209
                 else if rop_differs (Output.fsl4 out) (FRAME_REQUEST.fsl4 fr) then 209
                 else if rop_differs (Output.fsl3 out) (FRAME_REQUEST.fsl3 fr) then 209
                 else if rop_differs (Output.fsl2 out) (FRAME_REQUEST.fsl2 fr) then 209
                 else if rop_differs (Output.fsl1 out) (FRAME_REQUEST.fsl1 fr) then 209
                 else 200)
                = if any_rop_differs fr out then 209 else 200).
  { unfold any_rop_differs.
    repeat match goal with |- context [rop_differs ?o ?f] =>
      destruct (rop_differs o f) end; reflexivity. }
  rewrite Hst. unfold bind at 1.
  destruct (Output.utility out) as [ul|] eqn:Eu.
  - unfold update_utility, bind at 1. destruct S6 as (He6 & Hf6 & Hv6).
    destruct (get_ordered_dpoint_list_answers ul tools w6 db) as (u & w7 & -> & _);
      [done|by rewrite Hf6, Hv6|intros; apply Hall; rewrite !elem_of_app; simpl; tauto|].
    by eexists _, _.
  - by eexists _, _.
Qed.

Lemma main_status ext data w xml status w' :
  main ext data w = (inr (xml, status), w') →
  ∃ tools frame_request w1 w2,
    assemble ext data tools w1 = (inr frame_request, w2)
    ∧ no_errors (snd (build_frames_from_json ext frame_request))
    ∧ status = if any_rop_differs frame_request
                    (fst (build_frames_from_json ext frame_request))
               then 209 else 200.
Proof.
  unfold main.
  destruct (Request.section_size data) as [s|]; [|done].
  destruct (float_of_str ext (rstrip s "in")) as [size|]; [|done].
  unfold bind at 1, ret at 1. unfold bind at 1.
  destruct (get_tools_list _ size w) as [[e|tools] w0]; [done|].
  destruct (List.find TOOL.is_mwd tools) as [mwd_tool|]; [|done].
  unfold bind at 1.
  match goal with |- context [match ?c w0 with _ => _ end] =>
    destruct (c w0) as [[e|[]] w1] eqn:Eg end; [done|].
  unfold bind at 1.
  destruct (assemble ext data tools w1) as [[e|frame_request] w2] eqn:Ea; [done|].
  unfold bind at 1, emit.
  destruct (build_frames_from_json ext frame_request) as [out errors] eqn:Eb.
  destruct (flatten_errors errors) as [|err errs] eqn:Ee; [|done].
  unfold bind at 1.
  match goal with |- context [reconcile frame_request out tools ?w3] =>
    destruct (reconcile frame_request out tools w3) as [[e|[fr' st]] w4] eqn:Er end;
    [done|].
  unfold bind at 1.
  destruct (convert_to_xml ext fr' w4) as [[e|x] w5]; [done|].
  unfold bind at 1, get_hspm_version. unfold bind at 1.
  destruct (update_xml_in_sqlite _ _ _ _ w5) as [[e|[]] w6]; [done|].
  intros [= <- <- <-].
  exists tools, frame_request, w1, w2. split; [done|]. rewrite Eb.
  split; [exact Ee|]. simpl. by apply reconcile_status in Er.
Qed.

(** C3.  Whenever [main] returns a status, the packing service reported
    no error and the status is 209 if the corrected ROP of one of the
    six framesets differs from the ROP the frameset was requested with,
    and 200 otherwise.  The same holds of the block of [main] that
    compares them ([reconcile]), which does return when the engine
    answers and every returned name has a catalog record. *)
Theorem status_is_209_iff_a_rop_was_corrected :
  (∀ ext data w xml status w',
     main ext data w = (inr (xml, status), w') →
     ∃ tools frame_request w1 w2,
       assemble ext data tools w1 = (inr frame_request, w2)
       ∧ no_errors (snd (build_frames_from_json ext frame_request))
       ∧ status = if any_rop_differs frame_request
                       (fst (build_frames_from_json ext frame_request))
                  then 209 else 200)
  ∧ (∀ fr out tools w fr' status w',
       reconcile fr out tools w = (inr (fr', status), w') →
       status = if any_rop_differs fr out then 209 else 200)
  ∧ (∀ fr out tools w db,
       engine w = [] → files w !! hspm_version w = Some db →
       (∀ token, token ∈ corrected_names out →
                 catalog_match db (TOOL.ltb_addr <$> tools) token) →
       ∃ fr' w', reconcile fr out tools w
                 = (inr (fr', if any_rop_differs fr out then 209 else 200), w')).
Proof.
  split; [|split].
  - apply main_status.
  - apply reconcile_status.
  - apply reconcile_answers.
Qed.

Lemma status_is_209_iff_a_rop_was_corrected_witness :
  let data := sample_request "u3" [ToolDecl.mk "IMP" "v16.0"] in
  let w := sample_world {[ "u3" := PENDING ]} [] in
  let tools := [TOOL.mk "IMPTOOL" "IMP" 137 true "" (Some "160") None None None] in
  let fr := sample_frame_request data tools in
  fst (main (correcting_ext 70) data w) = inr ("<Run/>", 209)
  ∧ fst (main (correcting_ext 100) data w) = inr ("<Run/>", 200)
  ∧ (∃ tools frame_request w1 w2,
       assemble (correcting_ext 70) data tools w1 = (inr frame_request, w2)
       ∧ no_errors (snd (build_frames_from_json (correcting_ext 70) frame_request))
       ∧ 209 = if any_rop_differs frame_request
                    (fst (build_frames_from_json (correcting_ext 70) frame_request))
               then 209 else 200)
  ∧ (∃ fr' w',
       reconcile fr (fst (build_frames_from_json (correcting_ext 70) fr)) tools w
       = (inr (fr', 209), w'))
  ∧ (∃ fr' w',
       reconcile fr (fst (build_frames_from_json (correcting_ext 100) fr)) tools w
       = (inr (fr', 200), w')).
Proof.
  intros data w tools fr.
  destruct status_is_209_iff_a_rop_was_corrected as (Hmain & Hstatus & Hanswers).
  assert (Hrgx : ∀ token, token ∈ ["rgx"] →
                   catalog_match (set_XmlStorage {[ "u3" := PENDING ]} sample_db)
                     (TOOL.ltb_addr <$> tools) token).
  { intros token Hin. apply list_elem_of_In in Hin. destruct Hin as [<-|[]].
    exists (DPointRow.mk "rgx" 4504 12 137 "Rotating accelerometer X"),
           (ToolRow.mk "IMPTOOL" "IMP" 137 true "").
    repeat split; apply list_elem_of_In; simpl; tauto. }
  split; [vm_compute; reflexivity|]. split; [vm_compute; reflexivity|].
  split; [|split].
  - apply (Hmain (correcting_ext 70) data w "<Run/>" 209
             (snd (main (correcting_ext 70) data w))).
    vm_compute. reflexivity.
  - apply (Hanswers fr (fst (build_frames_from_json (correcting_ext 70) fr)) tools w
             (set_XmlStorage {[ "u3" := PENDING ]} sample_db));
      [reflexivity|reflexivity|exact Hrgx].
  - destruct (Hanswers fr (fst (build_frames_from_json (correcting_ext 100) fr))
                tools w (set_XmlStorage {[ "u3" := PENDING ]} sample_db))
      as (fr' & w' & Hr); [reflexivity|reflexivity|exact Hrgx|].
    exists fr', w'. rewrite Hr.
    rewrite (Hstatus _ _ _ _ _ _ _ Hr). reflexivity.
Defined.

(** ** Size classes *)

Lemma Qlt_bool_iff (a b : Q) : Qlt_bool a b = true ↔ (a < b)%Q.
Proof.
  unfold Qlt_bool. rewrite negb_true_iff. split.
  - intros H. apply Qnot_le_lt. intros Hle. apply Qle_bool_iff in Hle. congruence.
  - intros H. destruct (Qle_bool b a) eqn:E; [|done].
    apply Qle_bool_iff in E. by apply Qlt_not_le in H.
Qed.

Lemma get_size_cases (s : Q) :
  ((s <= 7.5)%Q ∧ get_size s = "4.75")
  ∨ ((7.5 < s)%Q ∧ (s <= 10)%Q ∧ get_size s = "6.75")
  ∨ ((10 < s)%Q ∧ (s <= 15)%Q ∧ get_size s = "8.25")
  ∨ ((15 < s)%Q ∧ get_size s = "9.0").
Proof.
  unfold get_size.
  destruct (Qle_bool s 7.5) eqn:E1.
  { left. split; [by apply Qle_bool_iff|done]. }
  assert (H1 : (7.5 < s)%Q).
  { apply Qnot_le_lt. intros H. apply Qle_bool_iff in H. congruence. }
  right. rewrite (proj2 (Qlt_bool_iff 7.5 s) H1). simpl.
  destruct (Qle_bool s 10) eqn:E2.
  { left. split; [done|]. split; [by apply Qle_bool_iff|done]. }
  assert (H2 : (10 < s)%Q).
  { apply Qnot_le_lt. intros H. apply Qle_bool_iff in H. congruence. }
  right. rewrite (proj2 (Qlt_bool_iff 10 s) H2). simpl.
  destruct (Qle_bool s 15) eqn:E3.
  { left. split; [done|]. split; [by apply Qle_bool_iff|done]. }
  right. split; [|done].
  apply Qnot_le_lt. intros H. apply Qle_bool_iff in H. congruence.
Qed.

(** C8.  [get_size] follows the four-bucket table, boundaries included,
    and is monotonic: a larger section never gets a smaller tool size. *)
Theorem get_size_table_and_monotonic :
  (∀ s : Q,
     ((s <= 7.5)%Q → get_size s = "4.75")
     ∧ ((7.5 < s)%Q ∧ (s <= 10)%Q → get_size s = "6.75")
     ∧ ((10 < s)%Q ∧ (s <= 15)%Q → get_size s = "8.25")
     ∧ ((15 < s)%Q → get_size s = "9.0"))
  ∧ (∀ s t : Q,
       (s <= t)%Q → (size_inches (get_size s) <= size_inches (get_size t))%Q)
  ∧ get_size 7.5 = "4.75" ∧ get_size 7.50001 = "6.75"
  ∧ get_size 10 = "6.75" ∧ get_size 10.00001 = "8.25"
  ∧ get_size 15 = "8.25" ∧ get_size 15.00001 = "9.0".
Proof.
  split; [|split; [|repeat split; reflexivity]].
  - intros s.
    destruct (get_size_cases s) as [[H ->]|[(H1 & H2 & ->)|[(H1 & H2 & ->)|[H ->]]]];
      repeat split; try done; intros; exfalso; lra.
  - intros s t Hst.
    destruct (get_size_cases s) as [[H ->]|[(H1 & H2 & ->)|[(H1 & H2 & ->)|[H ->]]]];
      destruct (get_size_cases t) as [[H' ->]|[(H1' & H2' & ->)|[(H1' & H2' & ->)|[H' ->]]]];
      try (exfalso; lra); vm_compute; discriminate.
Qed.

Lemma get_size_table_and_monotonic_witness :
  get_size 6 = "4.75" ∧ get_size 8.5 = "6.75" ∧ get_size 12.25 = "8.25"
  ∧ get_size 17.5 = "9.0"
  ∧ (size_inches (get_size 8.5) <= size_inches (get_size 12.25))%Q.
Proof.
  destruct get_size_table_and_monotonic as (Htable & Hmono & _).
  split; [|split; [|split; [|split]]].
  - apply (proj1 (Htable 6%Q)). vm_compute. discriminate.
  - apply (proj1 (proj2 (Htable 8.5%Q))). split; vm_compute; [reflexivity|discriminate].
  - apply (proj1 (proj2 (proj2 (Htable 12.25%Q)))).
    split; vm_compute; [reflexivity|discriminate].
  - apply (proj2 (proj2 (proj2 (Htable 17.5%Q)))). vm_compute. reflexivity.
  - apply (Hmono 8.5%Q 12.25%Q). vm_compute. discriminate.
Defined.

(** ** The document serializer *)

Lemma find_ARC6_or_ECO_none (tools : list TOOL.t) :
  (∀ t, t ∈ tools → TOOL.display_name t ≠ "ARC6" ∧ TOOL.display_name t ≠ "ECO") →
  List.find is_ARC6_or_ECO tools = None.
Proof.
  induction tools as [|t l IH]; intros H; [done|].
  simpl. destruct (is_ARC6_or_ECO t) eqn:E.
  - exfalso. unfold is_ARC6_or_ECO, Py.mem in E. apply bool_decide_eq_true in E.
    destruct (H t) as [H1 H2]; [apply elem_of_cons; by left|].
    apply list_elem_of_In in E. simpl in E. destruct E as [E|[E|[]]]; congruence.
  - apply IH. intros t' Ht'. apply H, elem_of_cons. by right.
Qed.

(** C10.  For a frame request with a non-empty multi-on-demand frame
    list, whose primary MWD tool (the first MWD tool of the request) is
    not "SPTOOL", and with no tool displayed as "ARC6" or "ECO",
    [convert_to_xml] raises [StopIteration] from the [next(...)] that
    looks for the bus address of such a tool; no document is produced. *)
Theorem convert_to_xml_modf_without_ARC6_or_ECO ext frame_request mwd_tool w :
  FRAME_REQUEST.modf_frame frame_request ≠ [] →
  List.find TOOL.is_mwd (FRAME_REQUEST.tools frame_request) = Some mwd_tool →
  TOOL.tool_id mwd_tool ≠ "SPTOOL" →
  (∀ t, t ∈ FRAME_REQUEST.tools frame_request →
        TOOL.display_name t ≠ "ARC6" ∧ TOOL.display_name t ≠ "ECO") →
  convert_to_xml ext frame_request w = (inl StopIteration, w).
Proof.
  intros Hmodf Hmwd Hsp Hno. unfold convert_to_xml.
  unfold bind at 1, next_of at 1. rewrite Hmwd. unfold ret at 1. simpl id.
  destruct (String.eqb_spec (TOOL.tool_id mwd_tool) "SPTOOL") as [|_]; [done|].
  unfold bind at 1. simpl negb. cbv iota.
  destruct (FRAME_REQUEST.modf_frame frame_request) as [|m ms] eqn:Em; [done|].
  simpl nonempty. cbv iota.
  unfold bind at 1, next_of at 1. by rewrite find_ARC6_or_ECO_none.
Qed.

Lemma convert_to_xml_modf_without_ARC6_or_ECO_witness :
  let imp := TOOL.mk "IMPTOOL" "IMP" 137 true "" (Some "160") None None None in
  let mxwp := TOOL.mk "MXWPTOOL" "MXWP" 19 false "_mx" (Some "10.0") None None None in
  let fr := sample_frame_request (sample_request "u4" []) [mxwp; imp] in
  let fr := FRAME_REQUEST.mk (FRAME_REQUEST.uid fr) (FRAME_REQUEST.job_number fr)
              (FRAME_REQUEST.well_name fr) (FRAME_REQUEST.section_size fr)
              FSL.default FSL.default FSL.default FSL.default FSL.default
              FSL.default (FRAME_REQUEST.utility fr) 1 false true false false
              None [mxwp; imp] [] [[]] [] in
  convert_to_xml sample_ext fr (sample_world ∅ [])
  = (inl StopIteration, sample_world ∅ []).
Proof.
  intros imp mxwp fr0 fr.
  apply (convert_to_xml_modf_without_ARC6_or_ECO sample_ext fr imp).
  - discriminate.
  - reflexivity.
  - discriminate.
  - intros t Ht. apply list_elem_of_In in Ht.
    destruct Ht as [<-|[<-|[]]]; split; discriminate.
Defined.

Example convert_to_xml_with_ECO :
  let imp := TOOL.mk "IMPTOOL" "IMP" 137 true "" (Some "160") None None None in
  let eco := TOOL.mk "ECOTOOL" "ECO" 21 false "_v" (Some "8.2") (Some "6.75") None None in
  let fr := FRAME_REQUEST.mk "u4" "job" "well" "12.25in"
              FSL.default FSL.default FSL.default FSL.default FSL.default
              FSL.default (UTILITY.mk "" None None []) 1 false true false false
              None [imp; eco] [] [[]] [] in
  fst (convert_to_xml sample_ext fr (sample_world ∅ [])) = inr "<Run/>".
Proof. vm_compute. reflexivity. Qed.

(** ** The rule engine *)

Section Edits.
Context (l : nat).

Lemma set_heap_same w xs :
  heap w !! l = Some xs → set_heap (<[l := xs]> (heap w)) w = w.
Proof. intros H. destruct w; unfold set_heap; simpl in *. by rewrite insert_id. Qed.

Lemma set_heap_twice w xs ys :
  set_heap (<[l := ys]> (heap (set_heap (<[l := xs]> (heap w)) w)))
    (set_heap (<[l := xs]> (heap w)) w)
  = set_heap (<[l := ys]> (heap w)) w.
Proof. unfold set_heap; simpl. by rewrite insert_insert_eq. Qed.

Lemma edits_ret {A} (a : A) xs : edits l xs (ret a) (inr a) xs.
Proof. intros w Hw. unfold ret. by rewrite set_heap_same. Qed.

Lemma edits_raise {A} e xs : edits l xs (@raise A e) (inl e) xs.
Proof. intros w Hw. unfold raise. by rewrite set_heap_same. Qed.

Lemma edits_bind {A B} (c : M A) (k : A → M B) xs a ys r zs :
  edits l xs c (inr a) ys → edits l ys (k a) r zs →
  edits l xs (bind c k) r zs.
Proof.
  intros Hc Hk w Hw. unfold bind. rewrite (Hc w Hw).
  rewrite Hk by (simpl; apply lookup_insert_eq).
  by rewrite set_heap_twice.
Qed.

Lemma edits_bind_raise {A B} (c : M A) (k : A → M B) xs e ys :
  edits l xs c (inl e) ys → edits l xs (bind c k) (inl e) ys.
Proof. intros Hc w Hw. unfold bind. by rewrite (Hc w Hw). Qed.

Lemma edits_read xs : edits l xs (read_list l) (inr xs) xs.
Proof. intros w Hw. unfold read_list. by rewrite Hw, set_heap_same. Qed.

Lemma edits_write xs ys : edits l xs (write_list l ys) (inr tt) ys.
Proof. intros w Hw. done. Qed.

Lemma edits_append xs x : edits l xs (append l x) (inr tt) (xs ++ [x]).
Proof. eapply edits_bind; [apply edits_read|apply edits_write]. Qed.

Lemma edits_pop_index xs x i :
  Py.index x xs = Some i → edits l xs (pop_index l x) (inr tt) (delete i xs).
Proof.
  intros Hi. eapply edits_bind; [apply edits_read|]. rewrite Hi.
  apply edits_write.
Qed.

Lemma edits_rule_skip cond act xs :
  cond xs = false → edits l xs (rule l cond act) (inr tt) xs.
Proof.
  intros Hc. eapply edits_bind; [apply edits_read|]. rewrite Hc. apply edits_ret.
Qed.

Lemma edits_rule_fire cond act xs r ys :
  cond xs = true → edits l xs act r ys → edits l xs (rule l cond act) r ys.
Proof. intros Hc Ha. eapply edits_bind; [apply edits_read|]. by rewrite Hc. Qed.
End Edits.

Lemma index_elem_of x xs : x ∈ xs → ∃ i, Py.index x xs = Some i.
Proof.
  induction xs as [|y xs IH]; [set_solver|]. intros Hin. simpl.
  destruct (decide (x = y)); [by eexists|].
  destruct IH as [i ->]; [by apply elem_of_cons in Hin as [?|?]|]. by eexists.
Qed.

Lemma elem_of_pop x xs i k :
  Py.index x xs = Some i → k ≠ x → k ∈ delete i xs ↔ k ∈ xs.
Proof.
  revert i. induction xs as [|y xs IH]; intros i; simpl; [done|].
  destruct (decide (x = y)) as [<-|Hne].
  - intros [= <-] Hk. simpl. rewrite elem_of_cons.
    split; [by right|by intros [?|?]].
  - destruct (Py.index x xs) as [j|] eqn:E; [|done].
    intros [= <-] Hk. simpl. rewrite !elem_of_cons, (IH j) by done. done.
Qed.

Section Alike.
Context (l1 l2 : nat).

Lemma alike_ret {A} (a : A) : alike l1 l2 (ret a) (ret a).
Proof. intros xs. exists (inr a), xs. split; apply edits_ret. Qed.

Lemma alike_raise {A} e : alike l1 l2 (@raise A e) (raise e).
Proof. intros xs. exists (inl e), xs. split; apply edits_raise. Qed.

Lemma alike_bind {A B} (c1 c2 : M A) (k1 k2 : A → M B) :
  alike l1 l2 c1 c2 → (∀ a, alike l1 l2 (k1 a) (k2 a)) →
  alike l1 l2 (bind c1 k1) (bind c2 k2).
Proof.
  intros Hc Hk xs. destruct (Hc xs) as ([e|a] & ys & H1 & H2).
  - exists (inl e), ys. split; by apply edits_bind_raise.
  - destruct (Hk a ys) as (r & zs & H3 & H4).
    exists r, zs. split; by eapply edits_bind.
Qed.

Lemma alike_read : alike l1 l2 (read_list l1) (read_list l2).
Proof. intros xs. exists (inr xs), xs. split; apply edits_read. Qed.

Lemma alike_write ys : alike l1 l2 (write_list l1 ys) (write_list l2 ys).
Proof. intros xs. exists (inr tt), ys. split; apply edits_write. Qed.

Lemma alike_append x : alike l1 l2 (append l1 x) (append l2 x).
Proof. apply alike_bind; [apply alike_read|intros; apply alike_write]. Qed.

Lemma alike_pop_index x : alike l1 l2 (pop_index l1 x) (pop_index l2 x).
Proof.
  apply alike_bind; [apply alike_read|]. intros xs.
  destruct (Py.index x xs); [apply alike_write|apply alike_raise].
Qed.

Lemma alike_rule cond (a1 a2 : M unit) :
  alike l1 l2 a1 a2 → alike l1 l2 (rule l1 cond a1) (rule l2 cond a2).
Proof.
  intros Ha. apply alike_bind; [apply alike_read|]. intros xs.
  destruct (cond xs); [done|apply alike_ret].
Qed.

Lemma alike_next_of {A B} (f : A → B) p (tools : list A) :
  alike l1 l2 (next_of f p tools) (next_of f p tools).
Proof.
  unfold next_of. destruct (List.find p tools); [apply alike_ret|apply alike_raise].
Qed.

Lemma alike_apply_rules tools :
  alike l1 l2 (apply_rules l1 tools) (apply_rules l2 tools).
Proof.
  unfold apply_rules.
  repeat first
    [ apply alike_rule
    | apply alike_pop_index
    | apply alike_append
    | apply alike_ret
    | apply alike_next_of
    | apply alike_bind; [|intros ?]
    | match goal with
      | |- alike _ _ (if ?b then _ else _) (if ?b then _ else _) => destruct b
      end ].
Qed.
End Alike.

(** C5, as the code has it.  The corrections edit the caller's list
    object in place: started on an object that holds [tokens], they end
    with the outcome and the names that [corrected_tokens tokens tools]
    gives, which depend on the names and the tools only, and they change
    nothing else in the world. *)
Theorem apply_rules_edits_in_place dpoint_list tools tokens w :
  heap w !! dpoint_list = Some tokens →
  apply_rules dpoint_list tools w
  = (fst (corrected_tokens tokens tools),
     set_heap (<[dpoint_list := snd (corrected_tokens tokens tools)]> (heap w)) w).
Proof.
  intros Hw.
  destruct (alike_apply_rules dpoint_list 0 tools tokens) as (r & ys & H1 & H2).
  rewrite (H1 w Hw). unfold corrected_tokens.
  rewrite H2 by (simpl; apply lookup_insert_eq). simpl.
  by rewrite lookup_insert_eq.
Qed.

Lemma apply_rules_edits_in_place_witness :
  let tools := [TOOL.mk "RTATOOL" "RTA" 40 false "_b" (Some "1.0") None None None] in
  let w := mk_world ∅ [] {[ 7%nat := ["TF_b"; "O_RBIT_gvr"; "rgx"] ]} "default_db" [] in
  apply_rules 7 tools w
  = (inr tt, set_heap {[ 7%nat := ["rgx"; "TFHI_b"; "RESBIT_gvr"] ]} w).
Proof.
  intros tools w.
  assert (H := apply_rules_edits_in_place 7 tools ["TF_b"; "O_RBIT_gvr"; "rgx"] w
                 eq_refl).
  rewrite H. vm_compute. reflexivity.
Defined.

(** C5 as stated fails on the code: after a call of [get_dpoint_list]
    (and of its correction step alone) the caller's list object no
    longer holds the names it was given. *)
Lemma caller_list_is_modified :
  let w := mk_world {[ "default_db" := sample_db ]} []
             {[ 7%nat := ["O_RBIT_gvr"; "rgx"] ]} "default_db" [] in
  let after_rules := snd (apply_rules 7 [] w) in
  let after_call := snd (get_dpoint_list sample_ext 7 [] None None w) in
  heap w !! 7%nat = Some ["O_RBIT_gvr"; "rgx"]
  ∧ heap after_rules !! 7%nat = Some ["rgx"; "RESBIT_gvr"]
  ∧ heap after_call !! 7%nat = Some ["rgx"; "RESBIT_gvr"]
  ∧ heap after_call !! 7%nat ≠ heap w !! 7%nat.
Proof.
  intros w after_rules after_call.
  assert (H1 : heap w !! 7%nat = Some ["O_RBIT_gvr"; "rgx"]) by reflexivity.
  assert (H2 : heap after_rules !! 7%nat = Some ["rgx"; "RESBIT_gvr"])
    by (vm_compute; reflexivity).
  assert (H3 : heap after_call !! 7%nat = Some ["rgx"; "RESBIT_gvr"])
    by (vm_compute; reflexivity).
  split; [done|]. split; [done|]. split; [done|]. rewrite H1, H3. discriminate.
Qed.

(** A rule that only pops [x] keeps every other name. *)
Lemma edits_rule_pop l cond x xs :
  (cond xs = true → x ∈ xs) →
  ∃ ys, edits l xs (rule l cond (pop_index l x)) (inr tt) ys
        ∧ ∀ k, k ≠ x → k ∈ ys ↔ k ∈ xs.
Proof.
  intros Hc. destruct (cond xs) eqn:E.
  - destruct (index_elem_of x xs (Hc eq_refl)) as [i Hi].
    exists (delete i xs). split.
    + apply edits_rule_fire; [done|]. by apply edits_pop_index.
    + intros k Hk. by apply (elem_of_pop x).
  - exists xs. split; [by apply edits_rule_skip|done].
Qed.

(** A rule that pops [x] and appends [y] keeps every name but these. *)
Lemma edits_rule_replace l cond x y xs :
  (cond xs = true → x ∈ xs) →
  ∃ ys, edits l xs
          (rule l cond (let* _ := pop_index l x in append l y)) (inr tt) ys
        ∧ ∀ k, k ≠ x → k ≠ y → k ∈ ys ↔ k ∈ xs.
Proof.
  intros Hc. destruct (cond xs) eqn:E.
  - destruct (index_elem_of x xs (Hc eq_refl)) as [i Hi].
    exists (delete i xs ++ [y])%list. split.
    + apply edits_rule_fire; [done|].
      eapply edits_bind; [by apply edits_pop_index|apply edits_append].
    + intros k Hk1 Hk2. rewrite elem_of_app, (elem_of_pop x) by done.
      rewrite list_elem_of_singleton. split; [by intros [?|?]|by left].
  - exists xs. split; [by apply edits_rule_skip|done].
Qed.

Lemma edits_then {A} l xs (c : M unit) (k : M A) ys e :
  edits l xs c (inr tt) ys →
  (∃ zs, edits l ys k (inl e) zs) →
  ∃ zs, edits l xs (let* _ := c in k) (inl e) zs.
Proof. intros Hc (zs & Hk). exists zs. by eapply edits_bind. Qed.

Lemma find_is_MP3_none (tools : list TOOL.t) :
  (∀ t, t ∈ tools → TOOL.display_name t ≠ "MP3") → List.find is_MP3 tools = None.
Proof.
  induction tools as [|t l IH]; intros H; [done|].
  simpl. destruct (is_MP3 t) eqn:E.
  - exfalso. unfold is_MP3 in E. apply String.eqb_eq in E. apply (H t); set_solver.
  - apply IH. intros; apply H; set_solver.
Qed.

Local Ltac popped_name_is_there :=
  let H := fresh in
  let E := fresh in
  intros H;
  match goal with
  | |- ?x ∈ ?xs =>
      destruct (bool_decide (x ∈ xs)) eqn:E;
      [by apply bool_decide_eq_true in E
      |exfalso; revert H; unfold Py.mem; rewrite E; simpl;
       rewrite ?andb_false_r; simpl; done]
  end.

(** With "CS3PK_H_mp" or "CSSTAT_mp" among the names and no tool
    displayed as "MP3", the corrections stop with [StopIteration]. *)
Lemma apply_rules_stops l tools xs :
  "CS3PK_H_mp" ∈ xs ∨ "CSSTAT_mp" ∈ xs →
  (∀ t, t ∈ tools → TOOL.display_name t ≠ "MP3") →
  ∃ ys, edits l xs (apply_rules l tools) (inl StopIteration) ys.
Proof.
  intros Hin Hno. unfold apply_rules. cbv zeta.
  edestruct (edits_rule_replace l) as (y1 & E1 & K1);
    [|eapply edits_then; [exact E1|]]; [popped_name_is_there|].
  edestruct (edits_rule_pop l) as (y2 & E2 & K2);
    [|eapply edits_then; [exact E2|]]; [popped_name_is_there|].
  edestruct (edits_rule_pop l) as (y3 & E3 & K3);
    [|eapply edits_then; [exact E3|]]; [popped_name_is_there|].
  edestruct (edits_rule_pop l) as (y4 & E4 & K4);
    [|eapply edits_then; [exact E4|]]; [popped_name_is_there|].
  edestruct (edits_rule_pop l) as (y5 & E5 & K5);
    [|eapply edits_then; [exact E5|]]; [popped_name_is_there|].
  edestruct (edits_rule_pop l) as (y6 & E6 & K6);
    [|eapply edits_then; [exact E6|]]; [popped_name_is_there|].
  edestruct (edits_rule_pop l) as (y7 & E7 & K7);
    [|eapply edits_then; [exact E7|]]; [popped_name_is_there|].
  edestruct (edits_rule_pop l) as (y8 & E8 & K8);
    [|eapply edits_then; [exact E8|]]; [popped_name_is_there|].
  assert (Hin8 : "CS3PK_H_mp" ∈ y8 ∨ "CSSTAT_mp" ∈ y8).
  { destruct Hin as [H|H]; [left|right];
      apply K8, K7, K6, K5, K4, K3, K2, K1; done. }
  pose proof (find_is_MP3_none tools Hno) as Hfind.
  destruct (bool_decide ("CS3PK_H_mp" ∈ y8)) eqn:Ecs.
  - exists y8. apply edits_bind_raise. apply edits_rule_fire; [exact Ecs|].
    apply edits_bind_raise. unfold next_of. rewrite Hfind. apply edits_raise.
  - exists y8. eapply edits_bind; [apply edits_rule_skip; exact Ecs|].
    apply edits_bind_raise. apply edits_rule_fire.
    + apply bool_decide_eq_true. destruct Hin8 as [H|H]; [|done].
      apply bool_decide_eq_false in Ecs. done.
    + apply edits_bind_raise. unfold next_of. rewrite Hfind. apply edits_raise.
Qed.

(** C9.  When the caller's list holds "CS3PK_H_mp" or "CSSTAT_mp" and
    no tool is displayed as "MP3", [get_dpoint_list] raises
    [StopIteration], from the [next(...)] over the MP3 tools; this
    happens before the catalog is asked: the trace, the files and the
    engine are as before the call. *)
Theorem get_dpoint_list_without_MP3 ext dpoint_list tools time_update
    depth_update tokens w :
  heap w !! dpoint_list = Some tokens →
  "CS3PK_H_mp" ∈ tokens ∨ "CSSTAT_mp" ∈ tokens →
  (∀ t, t ∈ tools → TOOL.display_name t ≠ "MP3") →
  ∃ w', get_dpoint_list ext dpoint_list tools time_update depth_update w
        = (inl StopIteration, w')
        ∧ trace w' = trace w ∧ files w' = files w ∧ engine w' = engine w.
Proof.
  intros Hw Hin Hno.
  destruct (apply_rules_stops dpoint_list tools tokens Hin Hno) as (ys & Hys).
  exists (set_heap (<[dpoint_list := ys]> (heap w)) w). split; [|done].
  unfold get_dpoint_list, bind at 1. by rewrite (Hys w Hw).
Qed.

Lemma get_dpoint_list_without_MP3_witness :
  let tools := [TOOL.mk "IMPTOOL" "IMP" 137 true "" (Some "160") None None None] in
  let w := mk_world {[ "default_db" := sample_db ]} []
             {[ 3%nat := ["rgx"; "CSSTAT_mp"] ]} "default_db" [] in
  ∃ w', get_dpoint_list sample_ext 3 tools None None w = (inl StopIteration, w')
        ∧ trace w' = [] ∧ files w' = files w ∧ engine w' = [].
Proof.
  intros tools w.
  apply (get_dpoint_list_without_MP3 sample_ext 3 tools None None
           ["rgx"; "CSSTAT_mp"] w).
  - reflexivity.
  - right. apply list_elem_of_In. simpl. tauto.
  - intros t Ht. apply list_elem_of_In in Ht. destruct Ht as [<-|[]]. discriminate.
Defined.

Example test_get_dpoint_list :
  let tools := [TOOL.mk "IMPTOOL" "IMP" 137 true "" (Some "160") None None None;
                TOOL.mk "MXWPTOOL" "MXWP" 19 false "_mx" (Some "10.0") None None None] in
  let w := mk_world {[ "default_db" := sample_db ]} []
             {[ 3%nat := ["rgx"; "sticknslip"; "SHKLV_mx"; "O_rp28h_mx"] ]}
             "default_db" [] in
  match fst (get_dpoint_list sample_ext 3 tools None None w) with
  | inr dpoints =>
      DPOINT.name <$> dpoints = ["O_rp28h_mx"; "SHKLV_mx"; "rgx"; "sticknslip"]
  | inl _ => False
  end.
Proof. vm_compute. reflexivity. Qed.

(* ===================================================================== *)
(** * Further properties *)
(* ===================================================================== *)

(** ** The status table *)

Lemma guarded_statement_nil file (f : database → gmap string (pydoc * Z)) w :
  engine w = [] →
  retry_on_lock_
    (try_except (let* t := execute file f in commit file t)
       (except_sqlite_Error tt)) w
  = (inr tt,
     match files w !! file with
     | Some db => set_files (<[file := set_XmlStorage (f db) db]> (files w)) w
     | None => w
     end).
Proof.
  intros He. destruct (files w !! file) as [db|] eqn:Hf.
  - by apply guarded_statement_ok.
  - unfold retry_on_lock_, bind at 1.
    erewrite retry_on_lock_returns; [done|].
    unfold try_except, bind at 1, execute, bind at 1.
    rewrite engine_step_ok by (by apply no_fault_nil).
    rewrite after_step_nil by done.
    unfold bind, get_world; simpl. by rewrite Hf.
Qed.

Lemma run_mutation_nil file m w :
  engine w = [] →
  run_mutation file m w
  = (inr tt,
     match files w !! file with
     | Some db =>
         set_files (<[file := set_XmlStorage (mutate m (XmlStorage db)) db]> (files w)) w
     | None => w
     end).
Proof.
  intros He. destruct m; simpl; exact (guarded_statement_nil file _ w He).
Qed.

Lemma load_xml_from_sqlite_nil file uid w :
  engine w = [] →
  load_xml_from_sqlite file uid w = (inr (stored_row w file uid), w).
Proof.
  intros He. unfold stored_row. destruct (files w !! file) as [db|] eqn:Hf.
  - rewrite (load_xml_from_sqlite_ok _ _ _ db) by (by apply no_fault_nil || done).
    by rewrite after_step_nil.
  - unfold load_xml_from_sqlite, bind at 1.
    erewrite retry_on_lock_returns; [done|].
    unfold try_except, execute, bind at 1.
    rewrite engine_step_ok by (by apply no_fault_nil).
    rewrite after_step_nil by done.
    unfold bind, get_world; simpl. by rewrite Hf.
Qed.

Lemma stored_row_set_files w file db t uid :
  stored_row (set_files (<[file := set_XmlStorage t db]> (files w)) w) file uid
  = t !! uid.
Proof. unfold stored_row; simpl. by rewrite lookup_insert_eq. Qed.

Lemma stored_row_other_file w file file' db' uid :
  file' ≠ file →
  stored_row (set_files (<[file := db']> (files w)) w) file' uid
  = stored_row w file' uid.
Proof. intros Hne. unfold stored_row; simpl. by rewrite lookup_insert_ne. Qed.

(** X1.  [insert_uid_with_none] is insert-or-ignore: a UID without a row
    gets the PENDING row, a UID that has a row keeps it as it is, and no
    other row, file or catalog table changes. *)
Theorem insert_uid_with_none_ignores_existing file uid w db :
  engine w = [] → files w !! file = Some db →
  ∃ w', insert_uid_with_none file uid w = (inr tt, w')
        ∧ stored_row w' file uid = Some (default PENDING (XmlStorage db !! uid))
        ∧ (∀ uid', uid' ≠ uid → stored_row w' file uid' = stored_row w file uid')
        ∧ (∀ file', file' ≠ file → files w' !! file' = files w !! file')
        ∧ (∃ db', files w' !! file = Some db'
                  ∧ DPoint db' = DPoint db ∧ Tool db' = Tool db
                  ∧ ToolVersion db' = ToolVersion db).
Proof.
  intros He Hf. eexists. split.
  { apply (run_mutation_nil file (Insert uid) w He). }
  rewrite Hf. split; [|split; [|split]].
  - rewrite stored_row_set_files. simpl. unfold insert_or_ignore.
    destruct (XmlStorage db !! uid) as [row|] eqn:E; simpl; [done|].
    apply lookup_insert_eq.
  - intros uid' Hne. rewrite stored_row_set_files. unfold stored_row.
    rewrite Hf. simpl. unfold insert_or_ignore.
    destruct (XmlStorage db !! uid); [done|]. by rewrite lookup_insert_ne.
  - intros file' Hne. simpl. by rewrite lookup_insert_ne.
  - eexists. simpl. rewrite lookup_insert_eq. done.
Qed.

Lemma insert_uid_with_none_ignores_existing_witness :
  let w := sample_world {[ "u1" := (PBytes "<Run/>", 209) ]} [] in
  (∃ w', insert_uid_with_none "default_db" "u1" w = (inr tt, w')
         ∧ stored_row w' "default_db" "u1" = Some (PBytes "<Run/>", 209))
  ∧ (∃ w', insert_uid_with_none "default_db" "u2" w = (inr tt, w')
           ∧ stored_row w' "default_db" "u2" = Some PENDING
           ∧ stored_row w' "default_db" "u1" = Some (PBytes "<Run/>", 209)).
Proof.
  intros w. split.
  - destruct (insert_uid_with_none_ignores_existing "default_db" "u1" w
                (set_XmlStorage {[ "u1" := (PBytes "<Run/>", 209) ]} sample_db))
      as (w' & Hr & Hrow & _); [reflexivity|reflexivity|].
    exists w'. split; [exact Hr|]. rewrite Hrow. reflexivity.
  - destruct (insert_uid_with_none_ignores_existing "default_db" "u2" w
                (set_XmlStorage {[ "u1" := (PBytes "<Run/>", 209) ]} sample_db))
      as (w' & Hr & Hrow & Hother & _); [reflexivity|reflexivity|].
    exists w'. split; [exact Hr|]. split.
    + rewrite Hrow. reflexivity.
    + rewrite (Hother "u1") by discriminate. reflexivity.
Defined.

(** X2.  With the engine answering, [update_xml_in_sqlite] writes only
    where a row exists: the row of a stored UID becomes the given
    document and status; for a UID without a row, and for a file
    without tables, the call returns all the same and the world is as
    before. *)
Theorem update_xml_in_sqlite_needs_a_row file uid xml_content status w :
  engine w = [] →
  ∃ w', update_xml_in_sqlite file uid xml_content status w = (inr tt, w')
        ∧ stored_row w' file uid
          = (λ _, (xml_content, status)) <$> stored_row w file uid
        ∧ (∀ uid', uid' ≠ uid → stored_row w' file uid' = stored_row w file uid')
        ∧ (stored_row w file uid = None → w' = w).
Proof.
  intros He. eexists. split.
  { apply (run_mutation_nil file (Update uid xml_content status) w He). }
  destruct (files w !! file) as [db|] eqn:Hf.
  - split; [|split].
    + rewrite stored_row_set_files. unfold stored_row. rewrite Hf. simpl.
      unfold update_row. destruct (XmlStorage db !! uid) eqn:E; simpl; [|done].
      apply lookup_insert_eq.
    + intros uid' Hne. rewrite stored_row_set_files. unfold stored_row.
      rewrite Hf. simpl. unfold update_row.
      destruct (XmlStorage db !! uid); [|done]. by rewrite lookup_insert_ne.
    + unfold stored_row. rewrite Hf. simpl. intros Hnone.
      unfold update_row. rewrite Hnone.
      destruct w as [fs e h v t]; unfold set_files; simpl in *. f_equal.
      rewrite insert_id; [done|]. rewrite Hf. by destruct db.
  - unfold stored_row. rewrite Hf. simpl. done.
Qed.

Lemma update_xml_in_sqlite_needs_a_row_witness :
  let w := sample_world {[ "u1" := PENDING ]} [] in
  (∃ w', update_xml_in_sqlite "default_db" "u1" (PBytes "<Run/>") 209 w = (inr tt, w')
         ∧ stored_row w' "default_db" "u1" = Some (PBytes "<Run/>", 209))
  ∧ update_xml_in_sqlite "default_db" "u9" (PBytes "<Run/>") 209 w = (inr tt, w).
Proof.
  intros w. split.
  - destruct (update_xml_in_sqlite_needs_a_row "default_db" "u1" (PBytes "<Run/>")
                209 w eq_refl) as (w' & Hr & Hrow & _).
    exists w'. split; [exact Hr|]. rewrite Hrow. reflexivity.
  - destruct (update_xml_in_sqlite_needs_a_row "default_db" "u9" (PBytes "<Run/>")
                209 w eq_refl) as (w' & Hr & _ & _ & Hsame).
    rewrite Hr. f_equal. apply Hsame. reflexivity.
Defined.

Lemma set_XmlStorage_same db : set_XmlStorage (XmlStorage db) db = db.
Proof. by destruct db. Qed.

Lemma set_XmlStorage_twice t t' db :
  set_XmlStorage t (set_XmlStorage t' db) = set_XmlStorage t db.
Proof. done. Qed.

Lemma set_files_twice w file db1 db2 :
  set_files (<[file := db2]> (files (set_files (<[file := db1]> (files w)) w)))
    (set_files (<[file := db1]> (files w)) w)
  = set_files (<[file := db2]> (files w)) w.
Proof. unfold set_files; simpl. by rewrite insert_insert_eq. Qed.

Lemma set_files_same w file db :
  files w !! file = Some db → set_files (<[file := db]> (files w)) w = w.
Proof.
  intros Hf. destruct w as [fs e h v t]; unfold set_files; simpl in *.
  by rewrite insert_id.
Qed.

(** X3.  With the engine answering every call, the life of a request
    record is a round trip: for a UID without a row in a file that has
    the status table, inserting it shows the PENDING row, finalizing it
    shows the finalized row, clearing it shows no row, and the world is
    then exactly as it was before. *)
Theorem record_life_round_trip file uid xml_content status w db :
  engine w = [] → files w !! file = Some db →
  XmlStorage db !! uid = None →
  record_life file uid xml_content status w
  = (inr (Some PENDING, Some (xml_content, status), None), w).
Proof.
  intros He Hf Hrow. unfold record_life.
  change (insert_uid_with_none file uid) with (run_mutation file (Insert uid)).
  change (update_xml_in_sqlite file uid xml_content status)
    with (run_mutation file (Update uid xml_content status)).
  change (remove_uid_from_db file uid) with (run_mutation file (Remove uid)).
  unfold bind at 1. rewrite run_mutation_nil, Hf by done.
  simpl mutate. unfold insert_or_ignore. rewrite Hrow. fold PENDING.
  set (w1 := set_files _ w).
  unfold bind at 1. rewrite (load_xml_from_sqlite_nil _ _ w1) by done.
  unfold w1 at 1. rewrite stored_row_set_files, lookup_insert_eq.
  unfold bind at 1. rewrite (run_mutation_nil _ _ w1) by done.
  unfold w1 at 1 2 3. simpl files at 1. rewrite lookup_insert_eq.
  rewrite set_files_twice. simpl mutate. unfold update_row.
  simpl XmlStorage. rewrite lookup_insert_eq, insert_insert_eq.
  rewrite set_XmlStorage_twice. clear w1.
  set (w2 := set_files _ w).
  unfold bind at 1. rewrite (load_xml_from_sqlite_nil _ _ w2) by done.
  unfold w2 at 1. rewrite stored_row_set_files, lookup_insert_eq.
  unfold bind at 1. rewrite (run_mutation_nil _ _ w2) by done.
  unfold w2 at 1 2 3. simpl files at 1. rewrite lookup_insert_eq.
  rewrite set_files_twice. simpl mutate. simpl XmlStorage.
  rewrite delete_insert_eq, set_XmlStorage_twice.
  rewrite delete_id by done.
  rewrite set_XmlStorage_same, (set_files_same _ _ _ Hf). clear w2.
  unfold bind at 1. rewrite load_xml_from_sqlite_nil by done.
  unfold stored_row. rewrite Hf. simpl. by rewrite Hrow.
Qed.

Lemma record_life_round_trip_witness :
  let w := sample_world {[ "u1" := PENDING ]} [] in
  record_life "default_db" "u7" (PBytes "<Run/>") 209 w
  = (inr (Some PENDING, Some (PBytes "<Run/>", 209), None), w).
Proof.
  intros w.
  apply (record_life_round_trip "default_db" "u7" (PBytes "<Run/>") 209 w
           (set_XmlStorage {[ "u1" := PENDING ]} sample_db));
    reflexivity.
Defined.

Lemma run_mutation_commit_fault file m w db err rest :
  engine w = None :: Some err :: rest → files w !! file = Some db →
  run_mutation file m w = (inr tt, set_engine rest w).
Proof.
  intros He Hf. destruct m; simpl;
    exact (guarded_commit_fault file _ w db err rest He Hf).
Qed.

Lemma load_xml_from_sqlite_fault file uid w err rest :
  engine w = Some err :: rest →
  load_xml_from_sqlite file uid w = (inr None, set_engine rest w).
Proof.
  intros He. unfold load_xml_from_sqlite, bind at 1.
  erewrite retry_on_lock_returns; [done|].
  unfold try_except. by rewrite (execute_fault _ _ _ _ _ He).
Qed.

(** X4.  No method of [SQLHandler] lets a storage error out, and none
    is ever retried: whatever the engine answers, a mutating method
    returns and the trace has no sleep.  An error raised by the
    statement, or by the commit after it, leaves every table as it was;
    an error raised while a row is read makes the row look absent. *)
Theorem sqlhandler_swallows_storage_errors file :
  (∀ m w, ∃ w', run_mutation file m w = (inr tt, w') ∧ trace w' = trace w)
  ∧ (∀ m w err rest,
       engine w = Some err :: rest →
       run_mutation file m w = (inr tt, set_engine rest w))
  ∧ (∀ m w db err rest,
       engine w = None :: Some err :: rest → files w !! file = Some db →
       run_mutation file m w = (inr tt, set_engine rest w))
  ∧ (∀ uid w err rest,
       engine w = Some err :: rest →
       load_xml_from_sqlite file uid w = (inr None, set_engine rest w)).
Proof.
  split; [|split; [|split]].
  - intros m w. apply run_mutation_never_raises.
  - intros m w err rest. apply run_mutation_fault.
  - intros m w db err rest. apply run_mutation_commit_fault.
  - intros uid w err rest. apply load_xml_from_sqlite_fault.
Qed.

Lemma sqlhandler_swallows_storage_errors_witness :
  let busy := OperationalError "database is locked" in
  let rows : gmap string (pydoc * Z) := {[ "u1" := (PBytes "<Run/>", 200) ]} in
  run_mutation "default_db" (Remove "u1") (sample_world rows [Some busy])
  = (inr tt, sample_world rows [])
  ∧ run_mutation "default_db" (Save "u2" (PStr "x") 200)
      (sample_world rows [None; Some busy])
    = (inr tt, sample_world rows [])
  ∧ load_xml_from_sqlite "default_db" "u1" (sample_world rows [Some busy])
    = (inr None, sample_world rows []).
Proof.
  intros busy rows.
  destruct (sqlhandler_swallows_storage_errors "default_db") as (_ & H1 & H2 & H3).
  split; [|split].
  - exact (H1 (Remove "u1") (sample_world rows [Some busy]) busy [] eq_refl).
  - exact (H2 (Save "u2" (PStr "x") 200) (sample_world rows [None; Some busy])
             (set_XmlStorage rows sample_db) busy [] eq_refl eq_refl).
  - exact (H3 "u1" (sample_world rows [Some busy]) busy [] eq_refl).
Defined.

(** ** What the resolvers leave alone *)

Lemma still_answering_refl w : engine w = [] → still_answering w w.
Proof. by repeat split. Qed.

Lemma quiet_ret {A} (a : A) : quiet (ret a).
Proof. intros w r w' He [= _ <-]. by apply still_answering_refl. Qed.

Lemma quiet_raise {A} e : quiet (@raise A e).
Proof. intros w r w' He [= _ <-]. by apply still_answering_refl. Qed.

Lemma quiet_bind {A B} (c : M A) (k : A → M B) :
  quiet c → (∀ a, quiet (k a)) → quiet (bind c k).
Proof.
  intros Hc Hk w r w' He. unfold bind.
  destruct (c w) as [[e|a] w1] eqn:E.
  - intros [= <- <-]. by eapply Hc.
  - intros Hka. pose proof (Hc _ _ _ He E) as H1.
    eapply still_answering_trans; [exact H1|].
    eapply Hk; [|exact Hka]. by destruct H1.
Qed.

Lemma quiet_mapM {A B} (f : A → M B) l : (∀ x, quiet (f x)) → quiet (mapM f l).
Proof.
  intros Hf. induction l as [|x l IH]; simpl; [apply quiet_ret|].
  apply quiet_bind; [done|]. intros y.
  apply quiet_bind; [done|]. intros ys. apply quiet_ret.
Qed.

Lemma quiet_next_of {A B} (f : A → B) p l : quiet (next_of f p l).
Proof. unfold next_of. destruct (List.find p l); [apply quiet_ret|apply quiet_raise]. Qed.

Lemma quiet_get_hspm_version : quiet get_hspm_version.
Proof. intros w r w' He [= _ <-]. by apply still_answering_refl. Qed.

Lemma quiet_emit ev : quiet (emit ev).
Proof. intros w r w' He [= _ <-]. by repeat split. Qed.

Lemma quiet_select_dpoints file names addrs :
  quiet (select_dpoints_from_db_with_tools file names addrs).
Proof.
  intros w r w' He. rewrite select_dpoints_nil by done.
  intros [= _ <-]. by repeat split.
Qed.

Lemma quiet_select_tools file names : quiet (select_tools_from_db file names).
Proof.
  intros w r w' He. rewrite select_tools_from_db_nil by done.
  intros [= _ <-]. by repeat split.
Qed.

Lemma select_tool_latest_version_nil file tool_id w :
  engine w = [] →
  select_tool_latest_version_from_db file tool_id w
  = (inr (db ← files w !! file; max_string (versions_of tool_id db)),
     set_trace (trace w ++ [EvCatalog file]) w).
Proof.
  intros He. unfold select_tool_latest_version_from_db, bind at 1.
  erewrite retry_on_lock_returns; [done|].
  unfold bind at 1, emit. unfold try_except.
  unfold execute, bind at 1. rewrite engine_step_ok by (by apply no_fault_nil).
  rewrite after_step_nil by done.
  unfold bind, get_world; simpl. by destruct (files w !! file).
Qed.

Lemma quiet_select_tool_latest_version file tool_id :
  quiet (select_tool_latest_version_from_db file tool_id).
Proof.
  intros w r w' He. rewrite select_tool_latest_version_nil by done.
  intros [= _ <-]. by repeat split.
Qed.

Lemma quiet_get_ordered_dpoint_list dl tools :
  quiet (get_ordered_dpoint_list dl tools).
Proof.
  unfold get_ordered_dpoint_list.
  apply quiet_bind; [apply quiet_get_hspm_version|]. intros file.
  apply quiet_bind; [apply quiet_select_dpoints|]. intros q.
  apply quiet_mapM. intros s. apply quiet_next_of.
Qed.

Lemma quiet_get_tools_list td size : quiet (get_tools_list td size).
Proof.
  unfold get_tools_list.
  apply quiet_bind; [apply quiet_get_hspm_version|]. intros file.
  apply quiet_bind; [apply quiet_select_tools|]. intros q.
  apply quiet_mapM. intros tool.
  destruct (TOOL.is_mwd tool); [|apply quiet_ret].
  destruct (get_mwd_version _ td).
  - match goal with |- context [if ?b then _ else _] => destruct b end;
      apply quiet_ret.
  - apply quiet_bind; [apply quiet_get_hspm_version|]. intros f.
    apply quiet_bind; [apply quiet_select_tool_latest_version|]. intros v.
    apply quiet_ret.
Qed.

Lemma quiet_update_fsl fs out tools : quiet (update_fsl fs out tools).
Proof.
  unfold update_fsl.
  repeat (apply quiet_bind; [apply quiet_get_ordered_dpoint_list|intros ?]).
  apply quiet_ret.
Qed.

Lemma quiet_check_fsl out fs st tools : quiet (check_fsl out fs st tools).
Proof.
  unfold check_fsl. destruct out; [|apply quiet_ret].
  apply quiet_bind; [apply quiet_update_fsl|]. intros ?. apply quiet_ret.
Qed.

Lemma quiet_reconcile fr out tools : quiet (reconcile fr out tools).
Proof.
  unfold reconcile.
  repeat (apply quiet_bind; [apply quiet_check_fsl|intros [? ?]]).
  apply quiet_bind.
  - destruct (Output.utility out); [|apply quiet_ret].
    unfold update_utility.
    apply quiet_bind; [apply quiet_get_ordered_dpoint_list|]. intros ?.
    apply quiet_ret.
  - intros ?. apply quiet_ret.
Qed.

Lemma unchanged_bind {A B} (c : M A) (k : A → M B) :
  (∀ w r w', c w = (r, w') → w' = w) →
  (∀ a w r w', k a w = (r, w') → w' = w) →
  ∀ w r w', bind c k w = (r, w') → w' = w.
Proof.
  intros Hc Hk w r w'. unfold bind.
  destruct (c w) as [[e|a] w1] eqn:E; apply Hc in E as ->.
  - by intros [= _ <-].
  - apply Hk.
Qed.

Lemma convert_to_xml_world ext fr w r w' :
  convert_to_xml ext fr w = (r, w') → w' = w.
Proof.
  revert w r w'. unfold convert_to_xml. lazy zeta.
  apply unchanged_bind; [intros w r w'; apply next_of_pure|]. intros mwd.
  apply unchanged_bind; [|by intros a w r w' [= _ <-]].
  destruct (negb _); [|by intros w r w' [= _ <-]].
  destruct (nonempty _); [|by intros w r w' [= _ <-]].
  apply unchanged_bind; [intros w r w'; apply next_of_pure|].
  by intros a w r w' [= _ <-].
Qed.

Lemma quiet_convert_to_xml ext fr : quiet (convert_to_xml ext fr).
Proof.
  intros w r w' He H. apply convert_to_xml_world in H as ->.
  by apply still_answering_refl.
Qed.

Lemma keeps_rows_trans w1 w2 w3 :
  keeps_rows w1 w2 → keeps_rows w2 w3 → keeps_rows w1 w3.
Proof.
  intros [He1 H1] [He2 H2]. split; [done|]. intros file uid.
  by rewrite H2, H1.
Qed.

Lemma quiet_steady {A} (c : M A) : quiet c → steady c.
Proof.
  intros Hc w r w' He H. destruct (Hc _ _ _ He H) as (He' & Hf & _).
  split; [done|]. intros file uid. unfold stored_row. by rewrite Hf.
Qed.

Lemma steady_bind {A B} (c : M A) (k : A → M B) :
  steady c → (∀ a, steady (k a)) → steady (bind c k).
Proof.
  intros Hc Hk w r w' He. unfold bind.
  destruct (c w) as [[e|a] w1] eqn:E.
  - intros [= <- <-]. by eapply Hc.
  - intros Hka. pose proof (Hc _ _ _ He E) as H1.
    eapply keeps_rows_trans; [exact H1|].
    eapply Hk; [|exact Hka]. by destruct H1.
Qed.

Lemma steady_ret {A} (a : A) : steady (ret a).
Proof. apply quiet_steady, quiet_ret. Qed.

Lemma steady_raise {A} e : steady (@raise A e).
Proof. apply quiet_steady, quiet_raise. Qed.

(** The world after an [UPDATE], without engine faults. *)
Lemma update_xml_in_sqlite_nil file uid xml_content status w :
  engine w = [] →
  ∃ w', update_xml_in_sqlite file uid xml_content status w = (inr tt, w')
        ∧ engine w' = [] ∧ trace w' = trace w
        ∧ hspm_version w' = hspm_version w
        ∧ stored_row w' file uid
          = (λ _, (xml_content, status)) <$> stored_row w file uid
        ∧ (∀ file' uid', (file', uid') ≠ (file, uid) →
             stored_row w' file' uid' = stored_row w file' uid').
Proof.
  intros He. eexists. split.
  { apply (run_mutation_nil file (Update uid xml_content status) w He). }
  destruct (files w !! file) as [db|] eqn:Hf.
  - split; [done|]. split; [done|]. split; [done|]. split.
    + rewrite stored_row_set_files. unfold stored_row. rewrite Hf. simpl.
      unfold update_row. destruct (XmlStorage db !! uid) eqn:E; simpl; [|done].
      apply lookup_insert_eq.
    + intros file' uid' Hne. destruct (decide (file' = file)) as [->|Hfile].
      * rewrite stored_row_set_files. unfold stored_row. rewrite Hf. simpl.
        unfold update_row. destruct (XmlStorage db !! uid); [|done].
        rewrite lookup_insert_ne; [done|]. congruence.
      * by rewrite stored_row_other_file.
  - repeat split; try done. unfold stored_row. by rewrite Hf.
Qed.

Lemma steady_update_xml_in_sqlite file uid xml_content status :
  steady (update_xml_in_sqlite file uid xml_content status).
Proof.
  intros w r w' He H.
  destruct (update_xml_in_sqlite_nil file uid xml_content status w He)
    as (w1 & Hr & He1 & _ & _ & Hrow & Hother).
  rewrite Hr in H. injection H as _ <-. split; [done|].
  intros file' uid'. destruct (decide ((file', uid') = (file, uid))) as [[= -> ->]|Hne].
  - rewrite Hrow. by rewrite fmap_is_Some.
  - by rewrite Hother.
Qed.

Lemma steady_main ext data : assembly_keeps_rows ext → steady (main ext data).
Proof.
  intros Hasm. unfold main. lazy zeta.
  apply steady_bind.
  { destruct (Request.section_size data); [|apply steady_raise].
    destruct (float_of_str ext _); [apply steady_ret|apply steady_raise]. }
  intros size. apply steady_bind; [apply quiet_steady, quiet_get_tools_list|].
  intros tools. destruct (List.find TOOL.is_mwd tools); [|apply steady_raise].
  apply steady_bind.
  { destruct (dict_get HSPM_VERSION_MAP _); [|apply steady_ret].
    destruct (String.eqb _ ""); [apply steady_ret|].
    intros w r w' He [= _ <-]. by split. }
  intros _. apply steady_bind; [apply Hasm|]. intros fr.
  apply steady_bind; [apply quiet_steady, quiet_emit|]. intros _.
  destruct (build_frames_from_json ext fr) as [out errors].
  apply steady_bind.
  { destruct (flatten_errors errors); [|apply steady_raise].
    apply quiet_steady, quiet_reconcile. }
  intros [fr' status].
  apply steady_bind; [apply quiet_steady, quiet_convert_to_xml|]. intros xml_string.
  apply steady_bind; [apply quiet_steady, quiet_get_hspm_version|]. intros file.
  apply steady_bind; [apply steady_update_xml_in_sqlite|]. intros _.
  apply steady_ret.
Qed.

(** ** The request handler *)

Lemma on_exception_returns hspm_version uid e w :
  ∃ resp w', on_exception hspm_version uid e w = (inr resp, w')
             ∧ statusCode resp = 406 ∧ xml resp = "".
Proof.
  unfold on_exception. lazy zeta. unfold bind.
  match goal with |- context [update_xml_in_sqlite ?f ?u ?x ?s w] =>
    destruct (run_mutation_never_raises f (Update u x s) w) as (w1 & H1 & _);
    simpl in H1; rewrite H1 end.
  by eexists _, _.
Qed.

(** X5.  For a request that names its catalog version by a string, or
    not at all, and a store whose calls fail with [sqlite3] errors only
    (the database opens), nothing leaves [request_frames] as an
    exception once a UID is given: whatever the stored rows, the
    engine's answers and the behaviour of the outside, the handler
    returns a response.  Without a UID it raises the 400 error before
    it touches anything. *)
Theorem request_frames_contains_failures ext data w :
  (Request.uid data = "" →
   request_frames ext data w
   = (inl (HTTPException 400 "UID is missing in the request."), w))
  ∧ (Request.uid data ≠ "" →
     ∃ resp w', request_frames ext data w = (inr resp, w')).
Proof.
  unfold request_frames. split.
  - by intros ->.
  - intros Hu. destruct (String.eqb_spec (Request.uid data) ""); [done|].
    unfold try_except.
    match goal with |- context [match ?c w with _ => _ end] =>
      destruct (c w) as [[e|resp] w1] end.
    + destruct (on_exception_returns (selected_db data) (Request.uid data) e w1)
        as (resp & w' & -> & _). by eexists _, _.
    + by eexists _, _.
Qed.

Lemma request_frames_contains_failures_witness :
  let data := sample_request "u5" [ToolDecl.mk "IMP" "v16.0"] in
  let w := sample_world ∅ [Some (OperationalError "database is locked");
                          Some (DatabaseError "disk I/O error")] in
  (∃ resp w', request_frames sample_ext data w = (inr resp, w'))
  ∧ request_frames sample_ext (sample_request "" []) w
    = (inl (HTTPException 400 "UID is missing in the request."), w).
Proof.
  intros data w. split.
  - apply (proj2 (request_frames_contains_failures sample_ext data w)).
    discriminate.
  - apply (proj1 (request_frames_contains_failures sample_ext
                    (sample_request "" []) w)).
    reflexivity.
Defined.

Lemma main_status_values ext data w xml status w' :
  main ext data w = (inr (xml, status), w') → status = 200 ∨ status = 209.
Proof.
  intros H. apply main_status in H as (tools & fr & w1 & w2 & _ & _ & ->).
  destruct (any_rop_differs _ _); auto.
Qed.

(** The build path for a UID that has no row yet, without engine
    faults: the outcome of [main] decides the response and the row. *)
Lemma request_frames_fresh ext data w db :
  Request.uid data ≠ "" → engine w = [] →
  files w !! selected_db data = Some db →
  XmlStorage db !! Request.uid data = None →
  assembly_keeps_rows ext →
  ∃ resp w',
    request_frames ext data w = (inr resp, w') ∧ engine w' = []
    ∧ ((∃ doc, doc ≠ "" ∧ (statusCode resp = 200 ∨ statusCode resp = 209)
               ∧ xml resp = sign_doc ext (PBytes doc)
               ∧ message resp = "Frame generated successfully!"
               ∧ stored_row w' (selected_db data) (Request.uid data)
                 = Some (PBytes doc, statusCode resp))
       ∨ (statusCode resp = 406 ∧ xml resp = ""
          ∧ stored_row w' (selected_db data) (Request.uid data)
            = Some (FAILED (message resp)))).
Proof.
  intros Hu He Hf Hrow Hasm.
  set (uid := Request.uid data) in *. set (sel := selected_db data) in *.
  unfold request_frames. fold uid. fold sel.
  destruct (String.eqb_spec uid ""); [done|].
  unfold try_except at 1, bind at 1.
  rewrite load_xml_from_sqlite_nil by done.
  unfold stored_row at 1. rewrite Hf. simpl. rewrite Hrow.
  unfold build. fold uid. unfold bind at 1.
  change (insert_uid_with_none sel uid) with (run_mutation sel (Insert uid)).
  rewrite run_mutation_nil, Hf by done. simpl mutate.
  unfold insert_or_ignore. rewrite Hrow.
  set (w1 := set_files _ w).
  assert (He1 : engine w1 = []) by done.
  assert (Hrow1 : is_Some (stored_row w1 sel uid)).
  { unfold w1. rewrite stored_row_set_files, lookup_insert_eq. by eexists. }
  unfold bind at 1.
  destruct (main ext data w1) as [[e|[xml_string status]] w2] eqn:Em.
  - destruct (steady_main ext data Hasm _ _ _ He1 Em) as [He2 Hrows].
    apply Hrows in Hrow1 as [row2 Hrow2].
    unfold on_exception. lazy zeta. unfold bind at 1.
    destruct (update_xml_in_sqlite_nil sel uid
                (PStr ("FAILED | " +:+
                       (if Py.contains "the JSON object must be str, bytes or bytearray, not NoneType" (str_exn e)
                        then "RTOF.json file didn't load correctly. Please check your input."
                        else str_exn e))) 406 w2 He2)
      as (w3 & -> & He3 & _ & _ & Hrow3 & _).
    eexists _, w3. split; [done|]. split; [done|]. right.
    split; [done|]. split; [done|]. rewrite Hrow3, Hrow2. done.
  - destruct (steady_main ext data Hasm _ _ _ He1 Em) as [He2 Hrows].
    apply Hrows in Hrow1 as [row2 Hrow2].
    destruct (String.eqb_spec xml_string "") as [->|Hne];
      [change (negb true) with false|change (negb false) with true]; cbv iota.
    + lazy zeta. unfold bind at 1.
      match goal with |- context [update_xml_in_sqlite ?f ?u ?x ?s w2] =>
        destruct (update_xml_in_sqlite_nil f u x s w2 He2)
          as (w3 & -> & He3 & _ & _ & Hrow3 & _) end.
      eexists _, w3. split; [done|]. split; [done|]. right.
      split; [done|]. split; [done|]. rewrite Hrow3, Hrow2. done.
    + unfold bind at 1.
      destruct (update_xml_in_sqlite_nil sel uid (PBytes xml_string) status w2 He2)
        as (w3 & -> & He3 & _ & _ & Hrow3 & _).
      eexists _, w3. split; [done|]. split; [done|]. left.
      exists xml_string. split; [done|]. split.
      { simpl. by eapply main_status_values. }
      split; [done|]. split; [done|]. rewrite Hrow3, Hrow2. done.
Qed.

(** X6.  A fresh UID never stays PENDING once [request_frames] has
    returned: with the engine answering and an assembly that leaves the
    status rows alone, the response is either a document with status
    200 or 209, stored under the UID as it is returned to the signer, or
    a 406 whose message is stored behind the ["FAILED | "] marker. *)
Theorem accepted_request_ends_in_a_terminal_row ext data w db :
  Request.uid data ≠ "" → engine w = [] →
  files w !! selected_db data = Some db →
  XmlStorage db !! Request.uid data = None →
  assembly_keeps_rows ext →
  ∃ resp w',
    request_frames ext data w = (inr resp, w')
    ∧ ((∃ doc, doc ≠ "" ∧ (statusCode resp = 200 ∨ statusCode resp = 209)
               ∧ xml resp = sign_doc ext (PBytes doc)
               ∧ stored_row w' (selected_db data) (Request.uid data)
                 = Some (PBytes doc, statusCode resp))
       ∨ (statusCode resp = 406 ∧ xml resp = ""
          ∧ stored_row w' (selected_db data) (Request.uid data)
            = Some (FAILED (message resp)))).
Proof.
  intros Hu He Hf Hrow Hasm.
  destruct (request_frames_fresh ext data w db Hu He Hf Hrow Hasm)
    as (resp & w' & Hr & _ & [(doc & Hd & Hs & Hx & _ & Hrow')|H]).
  - exists resp, w'. split; [done|]. left. by exists doc.
  - exists resp, w'. split; [done|]. by right.
Qed.

Lemma sample_assembly_keeps_rows : assembly_keeps_rows sample_ext.
Proof. intros data tools. apply steady_ret. Qed.

Lemma accepted_request_ends_in_a_terminal_row_witness :
  let data := sample_request "u6" [ToolDecl.mk "IMP" "v16.0"] in
  let w := sample_world {[ "u1" := PENDING ]} [] in
  ∃ resp w',
    request_frames sample_ext data w = (inr resp, w')
    ∧ ((∃ doc, doc ≠ "" ∧ (statusCode resp = 200 ∨ statusCode resp = 209)
               ∧ xml resp = sign_doc sample_ext (PBytes doc)
               ∧ stored_row w' "default_db" "u6" = Some (PBytes doc, statusCode resp))
       ∨ (statusCode resp = 406 ∧ xml resp = ""
          ∧ stored_row w' "default_db" "u6" = Some (FAILED (message resp)))).
Proof.
  intros data w.
  apply (accepted_request_ends_in_a_terminal_row sample_ext data w
           (set_XmlStorage {[ "u1" := PENDING ]} sample_db)).
  - discriminate.
  - reflexivity.
  - reflexivity.
  - reflexivity.
  - exact sample_assembly_keeps_rows.
Defined.

Lemma stored_row_inv w file uid row :
  stored_row w file uid = Some row →
  ∃ db, files w !! file = Some db ∧ XmlStorage db !! uid = Some row.
Proof.
  unfold stored_row. destruct (files w !! file) as [db|]; [|done].
  simpl. intros H. by exists db.
Qed.

(** X7.  Idempotence, end to end, with the engine answering every call
    and an assembly that leaves the status rows alone: when the request
    of a fresh UID, in a file that has the status table, is answered
    with a document (status 200 or 209), the same request issued again
    gets the same document and status from the stored row; it adds
    nothing to the trace (no catalog query, no packing call) and
    changes no file. *)
Theorem second_request_replays_the_first ext data w db resp w1 :
  Request.uid data ≠ "" → engine w = [] →
  files w !! selected_db data = Some db →
  XmlStorage db !! Request.uid data = None →
  assembly_keeps_rows ext →
  request_frames ext data w = (inr resp, w1) →
  statusCode resp ≠ 406 →
  ∃ w2, request_frames ext data w1
        = (inr (mk_response (statusCode resp) (xml resp)
                  "Frames generated successfully!"), w2)
        ∧ trace w2 = trace w1 ∧ files w2 = files w1.
Proof.
  intros Hu He Hf Hrow Hasm Hfirst Hok.
  destruct (request_frames_fresh ext data w db Hu He Hf Hrow Hasm)
    as (resp' & w' & Hr & He' & Hcases).
  rewrite Hfirst in Hr. injection Hr as <- <-.
  destruct Hcases as [(doc & Hd & Hs & Hx & _ & Hrow')|[H406 _]]; [|done].
  apply stored_row_inv in Hrow' as (db1 & Hf1 & Hrow1).
  exists (after_step w1).
  rewrite (request_frames_row ext data w1 db1 (PBytes doc) (statusCode resp));
    [|done|by apply no_fault_nil|done|done].
  split; [|done]. unfold try_except, answer_from_row, ret. by rewrite Hx.
Qed.

Lemma second_request_replays_the_first_witness :
  let data := sample_request "u6" [ToolDecl.mk "IMP" "v16.0"] in
  let w := sample_world {[ "u1" := PENDING ]} [] in
  let first := request_frames (correcting_ext 70) data w in
  fst first = inr (mk_response 209 "<Run/>" "Frame generated successfully!")
  ∧ ∃ w2, request_frames (correcting_ext 70) data (snd first)
          = (inr (mk_response 209 "<Run/>" "Frames generated successfully!"), w2)
          ∧ trace w2 = trace (snd first) ∧ files w2 = files (snd first).
Proof.
  intros data w first.
  assert (H1 : first = (inr (mk_response 209 "<Run/>" "Frame generated successfully!"),
                        snd first))
    by (vm_compute; reflexivity).
  split; [by rewrite H1|].
  apply (second_request_replays_the_first (correcting_ext 70) data w
           (set_XmlStorage {[ "u1" := PENDING ]} sample_db)
           (mk_response 209 "<Run/>" "Frame generated successfully!") (snd first)).
  - discriminate.
  - reflexivity.
  - reflexivity.
  - reflexivity.
  - intros d t. apply steady_ret.
  - exact H1.
  - discriminate.
Defined.

Lemma split_aux_nonempty sep skip cur s : Py.split_aux sep skip cur s ≠ [].
Proof.
  revert skip cur. induction s as [|c s IH]; intros skip cur;
    cbn [Py.split_aux]; [discriminate|].
  destruct skip; [|apply IH].
  destruct (String.prefix sep (String c s)); [discriminate|apply IH].
Qed.

Lemma split_aux_without sep cur s :
  Py.contains sep s = false →
  Py.split_aux sep 0 cur s = [String.rev_app cur s].
Proof.
  revert cur. induction s as [|c s IH]; intros cur H; [done|].
  cbn [Py.contains] in H. apply orb_false_iff in H as [Hp Hc].
  cbn [Py.split_aux]. rewrite Hp. by rewrite IH.
Qed.

Lemma split_failed_marker m :
  Py.split ("FAILED | " +:+ m) " | " = "FAILED" :: Py.split m " | ".
Proof. unfold Py.split. cbv [String.append]. by destruct m. Qed.

(** The answer from a FAILED row. *)
Lemma request_frames_failed_row ext data w db m status :
  Request.uid data ≠ "" → engine w = [] →
  files w !! selected_db data = Some db →
  XmlStorage db !! Request.uid data = Some (PStr ("FAILED | " +:+ m), status) →
  ∃ first rest w',
    Py.split m " | " = first :: rest
    ∧ request_frames ext data w = (inr (mk_response 406 "" first), w')
    ∧ stored_row w' (selected_db data) (Request.uid data) = None
    ∧ (∀ uid', uid' ≠ Request.uid data →
         stored_row w' (selected_db data) uid'
         = stored_row w (selected_db data) uid')
    ∧ trace w' = trace w
    ∧ (Py.contains " | " m = false → first = m).
Proof.
  intros Hu He Hf Hrow.
  destruct (Py.split m " | ") as [|first rest] eqn:Es.
  { by apply split_aux_nonempty in Es. }
  set (uid := Request.uid data) in *. set (sel := selected_db data) in *.
  eexists first, rest, _. split; [done|].
  rewrite (request_frames_row ext data w db _ status Hu (no_fault_nil _ He) Hf Hrow).
  rewrite after_step_nil by done. fold uid sel.
  unfold try_except, answer_from_row.
  change ("FAILED | " +:+ m) with (String "F" ("AILED | " +:+ m)). cbv iota.
  change (String "F" ("AILED | " +:+ m)) with ("FAILED | " +:+ m).
  assert (Hsw : Py.startswith ("FAILED | " +:+ m) "FAILED | " = true)
    by (unfold Py.startswith; cbv [String.append]; by destruct m).
  rewrite Hsw, split_failed_marker, Es.
  unfold bind, clear_db_on_failure.
  change (remove_uid_from_db sel uid) with (run_mutation sel (Remove uid)).
  rewrite run_mutation_nil, Hf by done.
  split; [reflexivity|]. split; [|split; [|split]].
  - rewrite stored_row_set_files. simpl. apply lookup_delete_eq.
  - intros uid' Hne. rewrite stored_row_set_files. simpl.
    rewrite lookup_delete_ne by done. unfold stored_row. by rewrite Hf.
  - reflexivity.
  - intros Hc. unfold Py.split in Es. rewrite split_aux_without in Es by done.
    by injection Es as <- _.
Qed.

(** X8.  With the engine answering, a FAILED row is reported once and
    cleared: the request is answered 406 with the text stored behind
    the marker, up to its first [" | "] (all of it when it holds none),
    the row of the UID is deleted, which opens the UID for a new build,
    and no other row of the file changes; nothing is built. *)
Theorem failed_row_is_reported_and_cleared ext data w db m status :
  Request.uid data ≠ "" → engine w = [] →
  files w !! selected_db data = Some db →
  XmlStorage db !! Request.uid data = Some (PStr ("FAILED | " +:+ m), status) →
  ∃ first rest w',
    Py.split m " | " = first :: rest
    ∧ request_frames ext data w = (inr (mk_response 406 "" first), w')
    ∧ stored_row w' (selected_db data) (Request.uid data) = None
    ∧ (∀ uid', uid' ≠ Request.uid data →
         stored_row w' (selected_db data) uid'
         = stored_row w (selected_db data) uid')
    ∧ trace w' = trace w
    ∧ (Py.contains " | " m = false → first = m).
Proof. apply request_frames_failed_row. Qed.

Lemma failed_row_is_reported_and_cleared_witness :
  let data := sample_request "u1" [] in
  let w := sample_world {[ "u1" := FAILED "FSL1: no room | retry";
                           "u2" := PENDING ]} [] in
  ∃ w', request_frames sample_ext data w
        = (inr (mk_response 406 "" "FSL1: no room"), w')
        ∧ stored_row w' "default_db" "u1" = None
        ∧ stored_row w' "default_db" "u2" = Some PENDING.
Proof.
  intros data w.
  destruct (failed_row_is_reported_and_cleared sample_ext data w
              (set_XmlStorage {[ "u1" := FAILED "FSL1: no room | retry";
                                 "u2" := PENDING ]} sample_db)
              "FSL1: no room | retry" 406)
    as (first & rest & w' & Hs & Hr & Hrow & Hother & _);
    [discriminate|reflexivity|reflexivity|reflexivity|].
  exists w'. injection Hs as <- _. split; [exact Hr|]. split; [exact Hrow|].
  exact (eq_trans (Hother "u2" ltac:(discriminate)) eq_refl).
Defined.

(** X9.  A failed build and its report, with the engine answering every
    call and an assembly that leaves the status rows alone: when the
    request of a fresh UID, in a file that has the status table, is
    answered 406, the same request issued again is answered 406 with
    the same message (its part before the first [" | "], when it holds
    one), and the row of the UID is gone afterwards, so that a third
    request builds again. *)
Theorem failure_is_reported_again_then_cleared ext data w db resp w1 :
  Request.uid data ≠ "" → engine w = [] →
  files w !! selected_db data = Some db →
  XmlStorage db !! Request.uid data = None →
  assembly_keeps_rows ext →
  request_frames ext data w = (inr resp, w1) →
  statusCode resp = 406 →
  ∃ first rest w2,
    Py.split (message resp) " | " = first :: rest
    ∧ request_frames ext data w1 = (inr (mk_response 406 "" first), w2)
    ∧ stored_row w2 (selected_db data) (Request.uid data) = None
    ∧ (Py.contains " | " (message resp) = false → first = message resp).
Proof.
  intros Hu He Hf Hrow Hasm Hfirst H406.
  destruct (request_frames_fresh ext data w db Hu He Hf Hrow Hasm)
    as (resp' & w' & Hr & He' & Hcases).
  rewrite Hfirst in Hr. injection Hr as <- <-.
  destruct Hcases as [(doc & _ & [Hs|Hs] & _)|(_ & _ & Hrow')];
    [rewrite Hs in H406; discriminate|rewrite Hs in H406; discriminate|].
  apply stored_row_inv in Hrow' as (db1 & Hf1 & Hrow1).
  destruct (request_frames_failed_row ext data w1 db1 (message resp) 406
              Hu He' Hf1 Hrow1)
    as (first & rest & w2 & Hs & Hr2 & Hgone & _ & _ & Hsame).
  by exists first, rest, w2.
Qed.

Lemma failure_is_reported_again_then_cleared_witness :
  let data := sample_request "u2" [ToolDecl.mk "MXWP" "v10.0"] in
  let w := sample_world ∅ [] in
  let first := request_frames sample_ext data w in
  fst first = inr (mk_response 406 "" "MWD tool is missing in frame request!")
  ∧ ∃ w2, request_frames sample_ext data (snd first)
          = (inr (mk_response 406 "" "MWD tool is missing in frame request!"), w2)
          ∧ stored_row w2 "default_db" "u2" = None.
Proof.
  intros data w first.
  assert (H1 : first
               = (inr (mk_response 406 "" "MWD tool is missing in frame request!"),
                  snd first))
    by (vm_compute; reflexivity).
  split; [by rewrite H1|].
  destruct (failure_is_reported_again_then_cleared sample_ext data w
              (set_XmlStorage ∅ sample_db)
              (mk_response 406 "" "MWD tool is missing in frame request!")
              (snd first))
    as (m & rest & w2 & Hs & Hr & Hgone & _);
    [discriminate|reflexivity|reflexivity|reflexivity
    |exact sample_assembly_keeps_rows|exact H1|reflexivity|].
  exists w2. injection Hs as <- _. by split.
Defined.

(* ===================================================================== *)
(** ** The tools of a request *)
(* ===================================================================== *)

Lemma mapM_Forall2 {A B} (f : A → M B) (R : A → B → Prop) l :
  (∀ x w r w', engine w = [] → f x w = (inr r, w') → R x r ∧ engine w' = []) →
  ∀ w ys w', engine w = [] → mapM f l w = (inr ys, w') →
             Forall2 R l ys ∧ engine w' = [].
Proof.
  intros Hf. induction l as [|x l IH]; intros w ys w' He; simpl.
  - intros [= <- <-]. by split.
  - unfold bind at 1. destruct (f x w) as [[e|y] w1] eqn:E1; [done|].
    destruct (Hf _ _ _ _ He E1) as [HR He1].
    unfold bind at 1. destruct (mapM f l w1) as [[e|ys'] w2] eqn:E2; [done|].
    intros [= <- <-]. destruct (IH _ _ _ He1 E2) as [HF He2].
    split; [by constructor|done].
Qed.

(** The step of [get_tools_list] on one catalog row. *)
Lemma get_tools_list_step tools_data section_size row w r w' :
  engine w = [] →
  (if TOOL.is_mwd row
   then match get_mwd_version (TOOL.display_name row) tools_data with
        | Some rtof_version =>
            if String.eqb (TOOL.tool_id row) "DVDXTTOOL"
               && String.eqb rtof_version "80"
            then ret (TOOL.set_version (Some "100") row)
            else ret (TOOL.set_version (Some rtof_version) row)
        | None =>
            let* file := get_hspm_version in
            let* latest :=
              select_tool_latest_version_from_db file (TOOL.tool_id row) in
            ret (TOOL.set_version (Some (str_opt latest)) row)
        end
   else ret (TOOL.set_size (Some (get_size section_size))
               (TOOL.set_version
                  (get_lwd_version (TOOL.display_name row) tools_data) row))) w
  = (inr r, w') →
  completes tools_data section_size row r ∧ engine w' = [].
Proof.
  intros He. unfold completes, TOOL_eq.
  destruct (TOOL.is_mwd row) eqn:Em.
  - destruct (get_mwd_version _ _) as [v|] eqn:Ev.
    + destruct (_ && _) eqn:Ed; intros [= <- <-]; simpl; rewrite Em;
        (split; [|done]).
      * split; [by apply bool_decide_eq_true|]. split; [done|]. split; [done|].
        split; [done|]. split; [by eexists|]. intros v' [= <-]. by rewrite Ed.
      * split; [by apply bool_decide_eq_true|]. split; [done|]. split; [done|].
        split; [done|]. split; [by eexists|]. intros v' [= <-]. by rewrite Ed.
    + unfold bind at 1, get_hspm_version. unfold bind at 1.
      rewrite select_tool_latest_version_nil by done.
      intros [= <- <-]. simpl. rewrite Em. split; [|done].
      split; [by apply bool_decide_eq_true|]. split; [done|]. split; [done|].
      split; [done|]. split; [by eexists|]. done.
  - intros [= <- <-]. simpl. rewrite Em. split; [|done].
    split; [by apply bool_decide_eq_true|]. split; [done|]. by split.
Qed.

(** X10.  What [get_tools_list] returns when the engine answers: one
    record per row that the catalog in use (the file named by the
    module global at the time of the call) has for the declared names,
    in the order of the query.  Each record is the same tool as its row
    for [TOOL.__eq__].  A tool that is not an MWD tool gets the size
    label of the section and the version parsed from its declaration,
    [None] when there is none.  An MWD tool keeps its size and always
    gets a version: the one of its declaration, "100" in place of "80"
    for DVDXTTOOL, or else the text of the catalog's latest version.
    The files and the catalog version in use are as before. *)
Theorem get_tools_list_completes_the_catalog_rows
    tools_data section_size w tools w' :
  engine w = [] →
  get_tools_list tools_data section_size w = (inr tools, w') →
  Forall2 (completes tools_data section_size)
    (default [] (query_tools (ToolDecl.NAME <$> tools_data)
                   <$> files w !! hspm_version w))
    tools
  ∧ still_answering w w'.
Proof.
  intros He H. split; [|by eapply quiet_get_tools_list].
  revert H. unfold get_tools_list.
  unfold bind at 1, get_hspm_version. unfold bind at 1.
  rewrite select_tools_from_db_nil by done.
  intros H.
  eapply (mapM_Forall2 _ (completes tools_data section_size)) in H as [HF _];
    [exact HF| |done].
  intros row w1 r w2 He1. apply get_tools_list_step. exact He1.
Qed.

Lemma get_tools_list_completes_the_catalog_rows_witness :
  let tools_data := [ToolDecl.mk "IMP" "v8.0"; ToolDecl.mk "MXWP" "v10.2SP1"] in
  ∃ w', get_tools_list tools_data 12.25 (sample_world ∅ [])
        = (inr [TOOL.mk "IMPTOOL" "IMP" 137 true "" (Some "80") None None None;
                TOOL.mk "MXWPTOOL" "MXWP" 19 false "_mx" (Some "10.2")
                  (Some "8.25") None None], w')
        ∧ Forall2 (completes tools_data 12.25)
            [TOOL.mk "IMPTOOL" "IMP" 137 true "" (Some "160") None None None;
             TOOL.mk "MXWPTOOL" "MXWP" 19 false "_mx" (Some "10.0") None None None]
            [TOOL.mk "IMPTOOL" "IMP" 137 true "" (Some "80") None None None;
             TOOL.mk "MXWPTOOL" "MXWP" 19 false "_mx" (Some "10.2")
               (Some "8.25") None None].
Proof.
  intros tools_data.
  destruct (get_tools_list tools_data 12.25 (sample_world ∅ [])) as [r w'] eqn:E.
  assert (Hr : r = inr [TOOL.mk "IMPTOOL" "IMP" 137 true "" (Some "80") None None None;
                        TOOL.mk "MXWPTOOL" "MXWP" 19 false "_mx" (Some "10.2")
                          (Some "8.25") None None])
    by (apply (f_equal fst) in E; vm_compute in E; by rewrite <- E).
  subst r. exists w'. split; [done|].
  exact (proj1 (get_tools_list_completes_the_catalog_rows tools_data 12.25
                  (sample_world ∅ []) _ w' eq_refl E)).
Defined.

Lemma returns_ret {A} (a : A) : returns (ret a).
Proof. intros w. by exists a, w. Qed.

Lemma returns_bind {A B} (c : M A) (k : A → M B) :
  returns c → (∀ a, returns (k a)) → returns (bind c k).
Proof.
  intros Hc Hk w. destruct (Hc w) as (a & w1 & E1 & Hf1 & Hv1).
  destruct (Hk a w1) as (b & w2 & E2 & Hf2 & Hv2).
  exists b, w2. unfold bind. rewrite E1, E2. split; [done|]. split; congruence.
Qed.

Lemma returns_mapM {A B} (f : A → M B) l : (∀ x, returns (f x)) → returns (mapM f l).
Proof.
  intros Hf. induction l as [|x l IH]; simpl; [apply returns_ret|].
  apply returns_bind; [done|]. intros y.
  apply returns_bind; [done|]. intros ys. apply returns_ret.
Qed.

Lemma returns_get_hspm_version : returns get_hspm_version.
Proof. intros w. by exists (hspm_version w), w. Qed.

(** A guarded catalog query returns whatever the engine answers. *)
Lemma guarded_query_returns {B} (c : M (option B)) ev :
  (∀ w, ∃ r w', try_except c (except_sqlite_Error None) w = (inr r, w')
                ∧ files w' = files w ∧ hspm_version w' = hspm_version w) →
  returns (let* r := retry_on_lock
                       (do* emit ev in
                        try_except c (except_sqlite_Error None)) in
           ret (mjoin r)).
Proof.
  intros Hc w. unfold bind at 1.
  destruct (Hc (set_trace (trace w ++ [ev]) w)) as (r & w' & Hb & Hf & Hv).
  erewrite retry_on_lock_returns; [|unfold bind, emit; exact Hb].
  by eexists _, _.
Qed.

Lemma returns_select_tools file names : returns (select_tools_from_db file names).
Proof.
  apply guarded_query_returns. intros w.
  unfold try_except, bind, execute, engine_step, get_world, ret, raise,
    except_sqlite_Error, bind.
  destruct (engine w) as [|[err|] rest]; simpl;
    destruct (files w !! file); simpl; by eexists _, _.
Qed.

Lemma returns_select_tool_latest_version file tool_id :
  returns (select_tool_latest_version_from_db file tool_id).
Proof.
  apply guarded_query_returns. intros w.
  unfold try_except, bind, execute, engine_step, get_world, ret, raise,
    except_sqlite_Error, bind.
  destruct (engine w) as [|[err|] rest]; simpl;
    destruct (files w !! file); simpl; by eexists _, _.
Qed.

Lemma returns_get_tools_list tools_data section_size :
  returns (get_tools_list tools_data section_size).
Proof.
  unfold get_tools_list.
  apply returns_bind; [apply returns_get_hspm_version|]. intros file.
  apply returns_bind; [apply returns_select_tools|]. intros q.
  apply returns_mapM. intros tool.
  destruct (TOOL.is_mwd tool); [|apply returns_ret].
  destruct (get_mwd_version _ _); [destruct (_ && _); apply returns_ret|].
  apply returns_bind; [apply returns_get_hspm_version|]. intros file'.
  apply returns_bind; [apply returns_select_tool_latest_version|]. intros v.
  apply returns_ret.
Qed.

(** With the engine failing its next call, no tool is resolved. *)
Lemma get_tools_list_fault tools_data section_size w err rest :
  engine w = Some err :: rest →
  get_tools_list tools_data section_size w
  = (inr [], set_engine rest (set_trace (trace w ++ [EvCatalog (hspm_version w)]) w)).
Proof.
  intros He. unfold get_tools_list.
  unfold bind at 1, get_hspm_version. unfold bind at 1.
  unfold select_tools_from_db, bind at 1.
  rewrite (retry_on_lock_returns _ _ None
             (set_engine rest
                (set_trace (trace w ++ [EvCatalog (hspm_version w)]) w)));
    [done|].
  unfold bind at 1, emit. unfold try_except, bind at 1.
  by rewrite (execute_fault _ _ _ err rest).
Qed.

(** X11.  No storage error leaves [get_tools_list]: its queries swallow
    every [sqlite3] error and then count as having found nothing.  For
    tool declarations that carry their name and version as strings,
    whatever errors the engine answers with, the call returns a list,
    leaving the files and the catalog version in use as they were; when
    the engine fails the query of the tools, with whatever error,
    locked database included, the list is empty and nothing is
    retried. *)
Theorem get_tools_list_swallows_storage_errors tools_data section_size w :
  (∃ tools w',
     get_tools_list tools_data section_size w = (inr tools, w')
     ∧ files w' = files w ∧ hspm_version w' = hspm_version w)
  ∧ (∀ err rest,
       engine w = Some err :: rest →
       ∃ w', get_tools_list tools_data section_size w = (inr [], w')
             ∧ engine w' = rest
             ∧ trace w' = (trace w ++ [EvCatalog (hspm_version w)])%list).
Proof.
  split; [apply returns_get_tools_list|].
  intros err rest He.
  rewrite (get_tools_list_fault _ _ _ _ _ He). by eexists.
Qed.

Lemma get_tools_list_swallows_storage_errors_witness :
  let tools_data := [ToolDecl.mk "IMP" "v16.0"] in
  let w := sample_world ∅ [Some (DatabaseError "database disk image is malformed")] in
  ∃ w', get_tools_list tools_data 12.25 w = (inr [], w')
        ∧ engine w' = [] ∧ trace w' = [EvCatalog "default_db"].
Proof.
  intros tools_data w.
  exact (proj2 (get_tools_list_swallows_storage_errors tools_data 12.25 w)
           (DatabaseError "database disk image is malformed") [] eq_refl).
Defined.

(** X12.  A storage error during the tool query reaches the client as
    a missing MWD tool: when the engine fails the first call of [main],
    with whatever error, [main] raises the [ValueError] "MWD tool is
    missing in frame request!", whatever the request declares and the
    catalog holds, after one catalog query and without a packing
    call. *)
Theorem catalog_fault_is_reported_as_missing_mwd ext data s size w err rest :
  Request.section_size data = Some s →
  float_of_str ext (rstrip s "in") = Some size →
  engine w = Some err :: rest →
  ∃ w', main ext data w
        = (inl (ValueError "MWD tool is missing in frame request!"), w')
        ∧ engine w' = rest
        ∧ trace w' = (trace w ++ [EvCatalog (hspm_version w)])%list
        ∧ files w' = files w.
Proof.
  intros Hs Hsize He. unfold main. rewrite Hs, Hsize.
  unfold bind at 1, ret at 1. unfold bind at 1.
  rewrite (get_tools_list_fault _ _ _ _ _ He). by eexists.
Qed.

Lemma catalog_fault_is_reported_as_missing_mwd_witness :
  let data := sample_request "u3" [ToolDecl.mk "IMP" "v16.0"] in
  let busy := OperationalError "database is locked" in
  (∃ r w', main sample_ext data (sample_world ∅ []) = (inr r, w'))
  ∧ ∃ w', main sample_ext data (sample_world ∅ [Some busy])
          = (inl (ValueError "MWD tool is missing in frame request!"), w')
          ∧ engine w' = []
          ∧ trace w' = [EvCatalog "default_db"].
Proof.
  intros data busy. split; [vm_compute; by eexists _, _|].
  destruct (catalog_fault_is_reported_as_missing_mwd sample_ext data
              "12.25in" 12.25 (sample_world ∅ [Some busy]) busy [])
    as (w' & H & He & Ht & _); [reflexivity|reflexivity|reflexivity|].
  by exists w'.
Defined.

(* ===================================================================== *)
(** ** Versions *)
(* ===================================================================== *)

Lemma string_app_assoc (a b c : string) : (a +:+ b) +:+ c = a +:+ b +:+ c.
Proof. induction a as [|x a IH]; [done|]. exact (f_equal (String x) IH). Qed.

Lemma string_app_cons c (a b : string) : String c a +:+ b = String c (a +:+ b).
Proof. reflexivity. Qed.

Lemma take_digits_spec s d r :
  take_digits s = (d, r) → s = d +:+ r ∧ all_digits d = true.
Proof.
  revert d r. induction s as [|c s IH]; intros d r; cbn [take_digits].
  - by intros [= <- <-].
  - destruct (is_digit c) eqn:Ec; [|by intros [= <- <-]].
    destruct (take_digits s) as [d' r'] eqn:E. intros [= <- <-].
    destruct (IH _ _ eq_refl) as [-> Hd]. split; [done|].
    cbn [all_digits]. by rewrite Ec, Hd.
Qed.

Lemma drop_spaces_suffix s : ∃ spaces, s = spaces +:+ drop_spaces s.
Proof.
  induction s as [|c s [sp IH]]; [by exists ""|]. cbn [drop_spaces].
  destruct (is_space c); [|by exists ""].
  exists (String c sp). rewrite string_app_cons. by rewrite <- IH.
Qed.

Lemma re_search_some {A} (match_here : string → option A) s m :
  re_search match_here s = Some m →
  ∃ before s', s = before +:+ s' ∧ match_here s' = Some m.
Proof.
  induction s as [|c s IH]; cbn [re_search].
  - destruct (match_here "") eqn:E; [|done]. intros [= <-]. by exists "", "".
  - destruct (match_here (String c s)) eqn:E.
    + intros [= <-]. by exists "", (String c s).
    + intros (before & s' & -> & H)%IH. by exists (String c before), s'.
Qed.

Lemma match_mwd_some s major :
  match_mwd s = Some major →
  major ≠ "" ∧ all_digits major = true ∧ occurs_in major s.
Proof.
  unfold match_mwd. destruct s as [|c r]; [done|].
  destruct (_ || _); [|done].
  destruct (take_digits (drop_spaces r)) as [[|a d] rest] eqn:E; [done|].
  intros [= <-]. apply take_digits_spec in E as [E Hd].
  split; [done|]. split; [done|].
  destruct (drop_spaces_suffix r) as [sp Hsp].
  exists (String c sp), rest. rewrite string_app_cons. f_equal.
  by rewrite <- E.
Qed.

Lemma match_lwd_some s v :
  match_lwd s = Some v →
  ∃ major minor,
    v = major +:+ "." +:+ minor
    ∧ major ≠ "" ∧ all_digits major = true
    ∧ minor ≠ "" ∧ all_digits minor = true
    ∧ occurs_in ("v" +:+ v) s.
Proof.
  unfold match_lwd. destruct s as [|c r]; [done|].
  destruct (decide (c = "v"%char)) as [->|Hc];
    [|by destruct c as [[] [] [] [] [] [] [] []]].
  destruct (take_digits r) as [major r1] eqn:E1.
  destruct major as [|a major]; [by destruct r1 as [|[[] [] [] [] [] [] [] []]]|].
  destruct r1 as [|c1 r2]; [done|].
  destruct (decide (c1 = "."%char)) as [->|Hc1];
    [|by destruct c1 as [[] [] [] [] [] [] [] []]].
  destruct (take_digits r2) as [minor r3] eqn:E2.
  destruct minor as [|b minor]; [done|]. intros [= <-].
  apply take_digits_spec in E1 as [-> H1]. apply take_digits_spec in E2 as [-> H2].
  exists (String a major), (String b minor).
  split; [done|]. split; [done|]. split; [done|]. split; [done|]. split; [done|].
  exists "", r3. change ("" +:+ ?x) with x.
  rewrite !string_app_assoc, !string_app_cons. reflexivity.
Qed.

(** X13.  The shape of a parsed version.  A version that
    [get_mwd_version] returns for a name comes from a declaration of
    that name: it is a non-empty run of decimal digits that occurs in
    the declared version text, followed by "0"; in particular it is
    never empty, so that [get_tools_list] always takes it.  A version
    that [get_lwd_version] returns is "major.minor", two non-empty runs
    of digits, and occurs after a "v" in the declared text.  Without a
    declaration of the name both return [None]. *)
Theorem parsed_versions_have_a_shape tool_name tools_data :
  (∀ v, get_mwd_version tool_name tools_data = Some v →
        ∃ tool major,
          tool ∈ tools_data ∧ ToolDecl.NAME tool = tool_name
          ∧ v = major +:+ "0" ∧ major ≠ "" ∧ all_digits major = true
          ∧ occurs_in major (ToolDecl.VERSION tool))
  ∧ (∀ v, get_lwd_version tool_name tools_data = Some v →
          ∃ tool major minor,
            tool ∈ tools_data ∧ ToolDecl.NAME tool = tool_name
            ∧ v = major +:+ "." +:+ minor
            ∧ major ≠ "" ∧ all_digits major = true
            ∧ minor ≠ "" ∧ all_digits minor = true
            ∧ occurs_in ("v" +:+ v) (ToolDecl.VERSION tool))
  ∧ (tool_name ∉ ToolDecl.NAME <$> tools_data →
     get_mwd_version tool_name tools_data = None
     ∧ get_lwd_version tool_name tools_data = None).
Proof.
  split; [|split].
  - induction tools_data as [|tool rest IH]; intros v; cbn [get_mwd_version]; [done|].
    destruct (String.eqb_spec (ToolDecl.NAME tool) tool_name) as [Hn|Hn].
    + destruct (re_search match_mwd (ToolDecl.VERSION tool)) as [major|] eqn:E.
      * intros [= <-].
        apply re_search_some in E as (before & s' & Hv & Hm).
        apply match_mwd_some in Hm as (Hne & Hd & (b & a & ->)).
        exists tool, major. split; [apply elem_of_cons; by left|].
        split; [done|]. split; [done|]. split; [done|]. split; [done|].
        exists (before +:+ b), a. rewrite Hv. symmetry. apply string_app_assoc.
      * intros (t & major & Hin & H)%IH. exists t, major.
        split; [apply elem_of_cons; by right|done].
    + intros (t & major & Hin & H)%IH. exists t, major.
      split; [apply elem_of_cons; by right|done].
  - induction tools_data as [|tool rest IH]; intros v; cbn [get_lwd_version]; [done|].
    destruct (String.eqb_spec (ToolDecl.NAME tool) tool_name) as [Hn|Hn].
    + destruct (re_search match_lwd (ToolDecl.VERSION tool)) as [v'|] eqn:E.
      * intros [= <-].
        apply re_search_some in E as (before & s' & Hv & Hm).
        apply match_lwd_some in Hm
          as (major & minor & Hs & H1 & H2 & H3 & H4 & (b & a & ->)).
        exists tool, major, minor. split; [apply elem_of_cons; by left|].
        split; [done|]. split; [done|]. split; [done|]. split; [done|].
        split; [done|]. split; [done|].
        exists (before +:+ b), a. rewrite Hv. symmetry. apply string_app_assoc.
      * intros (t & major & minor & Hin & H)%IH. exists t, major, minor.
        split; [apply elem_of_cons; by right|done].
    + intros (t & major & minor & Hin & H)%IH. exists t, major, minor.
      split; [apply elem_of_cons; by right|done].
  - induction tools_data as [|tool rest IH]; [done|].
    rewrite fmap_cons, not_elem_of_cons. intros [Hne Hrest].
    cbn [get_mwd_version get_lwd_version].
    destruct (String.eqb_spec (ToolDecl.NAME tool) tool_name) as [Hn|Hn]; [done|].
    by apply IH.
Qed.

Lemma parsed_versions_have_a_shape_witness :
  let tools_data := [ToolDecl.mk "IMP" "IMP V 16.5 rc"; ToolDecl.mk "MXWP" "MXWPv10.2SP1"] in
  get_mwd_version "IMP" tools_data = Some "160"
  ∧ get_lwd_version "MXWP" tools_data = Some "10.2"
  ∧ get_lwd_version "ARC6" tools_data = None
  ∧ ∃ tool major,
      tool ∈ tools_data ∧ ToolDecl.NAME tool = "IMP"
      ∧ "160" = major +:+ "0" ∧ major ≠ "" ∧ all_digits major = true
      ∧ occurs_in major (ToolDecl.VERSION tool).
Proof.
  intros tools_data.
  split; [reflexivity|]. split; [reflexivity|].
  split.
  - apply (proj2 (proj2 (parsed_versions_have_a_shape "ARC6" tools_data))).
    intros H. apply list_elem_of_In in H. simpl in H.
    by destruct H as [H|[H|[]]].
  - exact (proj1 (parsed_versions_have_a_shape "IMP" tools_data) "160" eq_refl).
Defined.

(* ===================================================================== *)
(** ** The corrections of [get_dpoint_list] *)
(* ===================================================================== *)

Local Ltac rule_name :=
  unfold rule_names;
  solve [repeat first [apply list_elem_of_here | apply list_elem_of_further]].

Lemma others_app_rule xs y : y ∈ rule_names → others (xs ++ [y]) = others xs.
Proof.
  intros Hy. unfold others. rewrite filter_app, filter_cons_False by tauto.
  by rewrite filter_nil, app_nil_r.
Qed.

Lemma others_pop x xs i :
  Py.index x xs = Some i → x ∈ rule_names → others (delete i xs) = others xs.
Proof.
  unfold others. revert i. induction xs as [|y xs IH]; intros i; simpl; [done|].
  destruct (decide (x = y)) as [<-|Hne].
  - intros [= <-] Hx. simpl. by rewrite filter_cons_False by tauto.
  - destruct (Py.index x xs) as [j|] eqn:E; [|done].
    intros [= <-] Hx. simpl. rewrite !filter_cons, (IH j) by done. done.
Qed.

Lemma elem_of_others x xs : x ∉ rule_names → x ∈ others xs ↔ x ∈ xs.
Proof. intros Hx. unfold others. rewrite list_elem_of_filter. tauto. Qed.

Section Gentle.
Context (tools : list TOOL.t) (l : nat).

Lemma gentle_bind (c k : M unit) :
  gentle tools l c → gentle tools l k → gentle tools l (do* c in k).
Proof.
  intros Hc Hk xs. destruct (Hc xs) as (r1 & ys1 & E1 & O1 & [->|(-> & Hf & Ht)]).
  - destruct (Hk ys1) as (r2 & ys2 & E2 & O2 & H2).
    exists r2, ys2. split; [by eapply edits_bind|]. split; [congruence|].
    destruct H2 as [->|(-> & Hf & Ht)]; [by left|right].
    split; [done|]. split; [done|].
    assert (Hback : ∀ x, x ∉ rule_names → x ∈ ys1 → x ∈ xs).
    { intros x Hx Hin. apply (proj2 (elem_of_others x ys1 Hx)) in Hin.
      rewrite O1 in Hin. exact (proj1 (elem_of_others x xs Hx) Hin). }
    destruct Ht as [H|H]; [left|right]; (apply Hback; [|done]);
      unfold rule_names; intros Hin; apply list_elem_of_In in Hin; simpl in Hin;
      repeat (destruct Hin as [Hin|Hin]; [discriminate Hin|]); done.
  - exists (inl StopIteration), ys1. split; [by apply edits_bind_raise|].
    split; [done|]. by right.
Qed.

Lemma gentle_rule_pop cond x :
  x ∈ rule_names → (∀ xs, cond xs = true → x ∈ xs) →
  gentle tools l (rule l cond (pop_index l x)).
Proof.
  intros Hx Hc xs. destruct (cond xs) eqn:E.
  - destruct (index_elem_of x xs (Hc xs E)) as [i Hi].
    exists (inr tt), (delete i xs). split.
    + apply edits_rule_fire; [done|]. by apply edits_pop_index.
    + split; [by apply (others_pop x)|by left].
  - exists (inr tt), xs. split; [by apply edits_rule_skip|]. by split; [|left].
Qed.

Lemma gentle_rule_replace cond x y :
  x ∈ rule_names → y ∈ rule_names → (∀ xs, cond xs = true → x ∈ xs) →
  gentle tools l (rule l cond (do* pop_index l x in append l y)).
Proof.
  intros Hx Hy Hc xs. destruct (cond xs) eqn:E.
  - destruct (index_elem_of x xs (Hc xs E)) as [i Hi].
    exists (inr tt), (delete i xs ++ [y])%list. split.
    + apply edits_rule_fire; [done|].
      eapply edits_bind; [by apply edits_pop_index|apply edits_append].
    + split; [|by left]. rewrite others_app_rule by done. by apply (others_pop x).
  - exists (inr tt), xs. split; [by apply edits_rule_skip|]. by split; [|left].
Qed.

Lemma gentle_rule_add cond y :
  y ∈ rule_names → gentle tools l (rule l cond (append l y)).
Proof.
  intros Hy xs. destruct (cond xs) eqn:E.
  - exists (inr tt), (xs ++ [y])%list. split.
    + apply edits_rule_fire; [done|]. apply edits_append.
    + split; [by apply others_app_rule|by left].
  - exists (inr tt), xs. split; [by apply edits_rule_skip|]. by split; [|left].
Qed.

Lemma gentle_ret : gentle tools l (ret tt).
Proof. intros xs. exists (inr tt), xs. split; [apply edits_ret|]. by split; [|left]. Qed.

(** A rule that looks at the tool "MP3" first. *)
Lemma gentle_rule_MP3 {A} trigger (f : TOOL.t → A) (k : A → M unit) :
  trigger = "CS3PK_H_mp" ∨ trigger = "CSSTAT_mp" →
  (∀ t, List.find is_MP3 tools = Some t → gentle tools l (k (f t))) →
  gentle tools l (rule l (Py.mem trigger) (let* a := next_of f is_MP3 tools in k a)).
Proof.
  intros Ht Hk xs. destruct (Py.mem trigger xs) eqn:E.
  - destruct (List.find is_MP3 tools) as [t|] eqn:Ef.
    + destruct (Hk t eq_refl xs) as (r & ys & Ee & Ho & Hr).
      rewrite Ef in Hr. exists r, ys. split; [|done].
      apply edits_rule_fire; [done|].
      eapply edits_bind; [|exact Ee]. unfold next_of. rewrite Ef. apply edits_ret.
    + exists (inl StopIteration), xs. split.
      * apply edits_rule_fire; [done|]. apply edits_bind_raise.
        unfold next_of. rewrite Ef. apply edits_raise.
      * split; [done|]. right. split; [done|]. split; [done|].
        apply bool_decide_eq_true in E. destruct Ht as [->| ->]; auto.
  - exists (inr tt), xs. split; [by apply edits_rule_skip|]. by split; [|left].
Qed.

Lemma apply_rules_gentle : gentle tools l (apply_rules l tools).
Proof.
  unfold apply_rules. cbv zeta.
  apply gentle_bind;
    [apply gentle_rule_replace; [rule_name|rule_name|intros xs; popped_name_is_there]|].
  do 7 (apply gentle_bind;
    [apply gentle_rule_pop; [rule_name|intros xs; popped_name_is_there]|]).
  apply gentle_bind.
  { apply (gentle_rule_MP3 "CS3PK_H_mp"); [by left|]. intros t Ef.
    destruct (opt_mem _ _); [|apply gentle_ret].
    apply gentle_rule_add. rule_name. }
  apply gentle_bind.
  { apply (gentle_rule_MP3 "CSSTAT_mp"); [by right|]. intros t Ef.
    destruct (opt_mem _ _); [|apply gentle_ret].
    assert (Hk : gentle tools l
              (if opt_mem (TOOL.size t) ["8.25"; "6.75"; "9.0"]
               then rule l (λ xs, negb (Py.mem "AET_mp" xs)) (append l "AET_mp")
               else ret tt)).
    { destruct (opt_mem _ _); [|apply gentle_ret].
      apply gentle_rule_add. rule_name. }
    intros xs. destruct (Hk xs) as (r & ys & Ee & Ho & Hr).
    exists r, ys. split; [|done].
    eapply edits_bind; [|exact Ee]. unfold next_of. rewrite Ef. apply edits_ret. }
  apply gentle_rule_replace; [rule_name|rule_name|intros xs; popped_name_is_there].
Qed.
End Gentle.


(** X14.  The corrections of [get_dpoint_list] touch thirteen names
    only.  Whatever the outcome, the list object of the caller holds
    afterwards the names it held that are not among [rule_names], in
    the same order and with the same repetitions, and nothing else in
    the world changes. *)
Theorem corrections_keep_the_other_names dpoint_list tools tokens w r w' :
  heap w !! dpoint_list = Some tokens →
  apply_rules dpoint_list tools w = (r, w') →
  ∃ names,
    w' = set_heap (<[dpoint_list := names]> (heap w)) w
    ∧ filter (λ x, x ∉ rule_names) names = filter (λ x, x ∉ rule_names) tokens.
Proof.
  intros Hw H.
  destruct (apply_rules_gentle tools dpoint_list tokens) as (r0 & ys & E & O & _).
  rewrite (E w Hw) in H. injection H as _ <-. by exists ys.
Qed.

Lemma corrections_keep_the_other_names_witness :
  let tools := [TOOL.mk "RTATOOL" "RTA" 40 false "_b" (Some "1.0") None None None] in
  let w := mk_world ∅ [] {[ 7%nat := ["rgx"; "TF_b"; "rgx"; "O_RBIT_gvr"; "SHKLV_mx"] ]}
             "default_db" [] in
  ∃ names,
    snd (apply_rules 7 tools w) = set_heap (<[7%nat := names]> (heap w)) w
    ∧ filter (λ x, x ∉ rule_names) names = ["rgx"; "rgx"; "SHKLV_mx"].
Proof.
  intros tools w.
  destruct (apply_rules 7 tools w) as [r w'] eqn:E.
  destruct (corrections_keep_the_other_names 7 tools
              ["rgx"; "TF_b"; "rgx"; "O_RBIT_gvr"; "SHKLV_mx"] w r w' eq_refl E)
    as (names & Hw' & Hn).
  exists names. split; [exact Hw'|]. rewrite Hn. vm_compute. reflexivity.
Defined.



#[local] Instance name_le_total : Total name_le.
Proof. intros a b. unfold name_le. apply (total String.le). Qed.

#[local] Instance name_le_trans : Transitive name_le.
Proof. intros a b c. unfold name_le. apply (transitivity (R := String.le)). Qed.

(** The conversions at the end of [get_dpoint_list] change the time and
    the depth only. *)
Lemma custom_update_fields ext time_update depth_update dpoint :
  let d := custom_update ext time_update depth_update dpoint in
  DPOINT.name d = DPOINT.name dpoint
  ∧ DPOINT.datpid d = DPOINT.datpid dpoint
  ∧ DPOINT.length d = DPOINT.length dpoint
  ∧ DPOINT.is_mwd d = DPOINT.is_mwd dpoint
  ∧ DPOINT.ltb_addr d = DPOINT.ltb_addr dpoint
  ∧ DPOINT.description d = DPOINT.description dpoint.
Proof.
  unfold custom_update. destruct time_update as [tu|]; [|done].
  destruct (tu !! DPOINT.name dpoint) as [v|]; simpl.
  - destruct (py_float ext v) as [q|]; simpl; [|done].
    destruct depth_update as [du|]; [|done]. simpl.
    destruct (du !! DPOINT.name dpoint) as [v'|]; [|done].
    destruct (truthy v'); [|done]. by destruct (py_float ext v').
  - destruct depth_update as [du|]; [|done].
    destruct (du !! DPOINT.name dpoint) as [v'|]; [|done].
    destruct (truthy v'); [|done]. by destruct (py_float ext v').
Qed.

Lemma query_dpoints_sorted names addrs db :
  StronglySorted String.le (DPOINT.name <$> query_dpoints names addrs db).
Proof.
  apply (StronglySorted_fmap _ name_le); [done|].
  unfold query_dpoints. apply StronglySorted_merge_sort; apply _.
Qed.

(** What [get_dpoint_list] returns on the corrected names [names]. *)
Lemma get_dpoint_list_rows ext l tools tu du xs w db dpoints w' :
  engine w = [] → heap w !! l = Some xs → files w !! hspm_version w = Some db →
  get_dpoint_list ext l tools tu du w = (inr dpoints, w') →
  ∃ names rows,
    heap w' !! l = Some names ∧ others names = others xs
    ∧ rows = query_dpoints names (TOOL.ltb_addr <$> tools) db
    ∧ Forall2 (λ row d, d = row ∨ d = custom_update ext tu du row) rows dpoints
    ∧ trace w' = (trace w ++ [EvCatalog (hspm_version w)])%list
    ∧ files w' = files w ∧ engine w' = [].
Proof.
  intros He Hw Hf.
  destruct (apply_rules_gentle tools l xs) as (r & ys & E & O & Hr).
  unfold get_dpoint_list, bind at 1. rewrite (E w Hw).
  destruct Hr as [->|(-> & _)]; [|done].
  set (w0 := set_heap (<[l := ys]> (heap w)) w).
  assert (Hf0 : files w0 !! hspm_version w0 = Some db) by exact Hf.
  assert (He0 : engine w0 = []) by exact He.
  assert (Hh0 : heap w0 !! l = Some ys) by apply lookup_insert_eq.
  assert (Ht0 : trace w0 = trace w) by reflexivity.
  assert (Hfs0 : files w0 = files w) by reflexivity.
  assert (Hv0 : hspm_version w0 = hspm_version w) by reflexivity.
  clearbody w0.
  unfold bind at 1, read_list. rewrite Hh0.
  unfold bind at 1, get_hspm_version. unfold bind at 1.
  rewrite select_dpoints_nil by done. rewrite Hf0.
  cbn [fmap option_fmap option_map default from_option id].
  intros H. exists ys, (query_dpoints ys (TOOL.ltb_addr <$> tools) db).
  split; [|split; [done|split; [done|]]].
  - destruct (_ || _); injection H as _ <-; exact Hh0.
  - destruct (_ || _); injection H as <- <-; simpl; rewrite Ht0, Hv0, Hfs0.
    + split; [|done]. apply Forall2_fmap_r, Forall_Forall2_diag, Forall_forall.
      intros; by right.
    + split; [|done]. apply Forall_Forall2_diag, Forall_forall. intros; by left.
Qed.

(** X16.  What [get_dpoint_list] resolves when the engine answers and
    the corrections pass.  The names of the returned points are the
    corrected names (those left in the caller's list object) that have
    a catalog record for one of the tools' bus addresses; a name
    without a record is left out without an error.  The points come in
    ascending order of their names, whatever the order of the caller's
    list; each is, for [DPOINT.__eq__], a joined catalog record: the
    custom updates change time and depth only.  The catalog is asked
    once, in the file named by the module global. *)
Theorem get_dpoint_list_resolves_the_corrected_names ext dpoint_list tools
    time_update depth_update tokens w db dpoints w' :
  engine w = [] → heap w !! dpoint_list = Some tokens →
  files w !! hspm_version w = Some db →
  get_dpoint_list ext dpoint_list tools time_update depth_update w
  = (inr dpoints, w') →
  ∃ names,
    heap w' !! dpoint_list = Some names
    ∧ (∀ token, token ∈ DPOINT.name <$> dpoints
                ↔ token ∈ names
                  ∧ catalog_match db (TOOL.ltb_addr <$> tools) token)
    ∧ StronglySorted String.le (DPOINT.name <$> dpoints)
    ∧ (∀ x, x ∈ dpoints →
            ∃ d t, d ∈ DPoint db ∧ t ∈ Tool db
                   ∧ ToolRow.LTBAddress t = DPointRow.TOOL_LTB_ADDR d
                   ∧ DPOINT_eq x (dpoint_of_row d t) = true)
    ∧ trace w' = (trace w ++ [EvCatalog (hspm_version w)])%list.
Proof.
  intros He Hw Hf H.
  destruct (get_dpoint_list_rows _ _ _ _ _ _ _ _ _ _ He Hw Hf H)
    as (names & rows & Hh & _ & Hrows & HF & Ht & _).
  exists names. split; [done|].
  assert (Hnames : DPOINT.name <$> dpoints = DPOINT.name <$> rows).
  { clear -HF. induction HF as [|row d rows dps [->| ->] _ IH]; [done|..];
      rewrite !fmap_cons, IH; [done|].
    f_equal. apply custom_update_fields. }
  split; [|split; [|split; [|done]]].
  - intros token. rewrite Hnames, Hrows, list_elem_of_fmap. split.
    + intros (x & -> & (d & t & Hd & Ht' & Ha & Hn & Hl & ->)%elem_of_query_dpoints).
      split; [done|]. by exists d, t.
    + intros (Hin & d & t & Hd & Ht' & Hn & Ha & Hl).
      exists (dpoint_of_row d t). split; [by rewrite <- Hn|].
      apply elem_of_query_dpoints. exists d, t. by rewrite Hn.
  - rewrite Hnames, Hrows. apply query_dpoints_sorted.
  - intros x Hx.
    assert (Hrow : ∃ row, row ∈ rows ∧ DPOINT_eq x row = true).
    { clear -HF Hx. induction HF as [|row d rows dps Hd _ IH]; [by apply elem_of_nil in Hx|].
      apply elem_of_cons in Hx as [->|Hx].
      - exists row. split; [apply list_elem_of_here|].
        unfold DPOINT_eq. apply bool_decide_eq_true.
        destruct Hd as [->| ->]; [done|].
        destruct (custom_update_fields ext time_update depth_update row)
          as (-> & -> & -> & -> & -> & _). done.
      - destruct (IH Hx) as (row' & Hin & Heq). exists row'.
        split; [by apply list_elem_of_further|done]. }
    destruct Hrow as (row & Hin & Heq). rewrite Hrows in Hin.
    apply elem_of_query_dpoints in Hin as (d & t & Hd & Ht' & _ & _ & Hl & ->).
    by exists d, t.
Qed.

Lemma get_dpoint_list_resolves_the_corrected_names_witness :
  let tools := [TOOL.mk "IMPTOOL" "IMP" 137 true "" (Some "160") None None None] in
  let w := mk_world {[ "default_db" := sample_db ]} []
             {[ 7%nat := ["sticknslip"; "O_RBIT_gvr"; "rgx"; "SHKLV_mx"] ]}
             "default_db" [] in
  ∃ dpoints w',
    get_dpoint_list sample_ext 7 tools None None w = (inr dpoints, w')
    ∧ DPOINT.name <$> dpoints = ["rgx"; "sticknslip"]
    ∧ ∃ names,
        heap w' !! 7%nat = Some names
        ∧ (∀ token, token ∈ DPOINT.name <$> dpoints
                    ↔ token ∈ names ∧ catalog_match sample_db [137] token).
Proof.
  intros tools w.
  destruct (get_dpoint_list sample_ext 7 tools None None w) as [r w'] eqn:E.
  assert (Hr : ∃ dpoints, r = inr dpoints
                          ∧ DPOINT.name <$> dpoints = ["rgx"; "sticknslip"]).
  { apply (f_equal fst) in E. vm_compute in E. subst r. by eexists. }
  destruct Hr as (dpoints & -> & Hn). exists dpoints, w'.
  split; [done|]. split; [done|].
  destruct (get_dpoint_list_resolves_the_corrected_names sample_ext 7 tools
              None None ["sticknslip"; "O_RBIT_gvr"; "rgx"; "SHKLV_mx"] w
              sample_db dpoints w' eq_refl eq_refl eq_refl E)
    as (names & Hh & Hiff & _).
  by exists names.
Defined.

(* ===================================================================== *)
(** ** Reconciliation with the packing result *)
(* ===================================================================== *)





(* ===================================================================== *)
(** ** The document *)
(* ===================================================================== *)

Lemma tool_element_name ext tool :
  attribute "Name" (tool_element ext tool) = Some (TOOL.tool_id tool).
Proof. reflexivity. Qed.


(** X18.  The layout of the document.  A document that [convert_to_xml]
    returns is the serialization of a "Run" element, named after the
    first MWD tool of the request, whose children are, in this order:
    the assembly, with one "Tool" per tool of the request in the
    request's order; one "FrameSetList" for SPTOOL, three for
    DVDXTTOOL, six for any other telemetry tool; a "DDSFrame" when the
    request has DDS points; the "UtilityFrame"; except for SPTOOL, the
    "OnDemandFrame", followed by a "MODFSet" when the request has
    multi-on-demand frames; "CustomRuleFile"; "QCElement".  The call
    changes nothing in the world. *)
Theorem convert_to_xml_layout ext frame_request w doc w' :
  convert_to_xml ext frame_request w = (inr doc, w') →
  ∃ run bha rest mwd_tool,
    doc = tostring ext run ∧ w' = w
    ∧ List.find TOOL.is_mwd (FRAME_REQUEST.tools frame_request) = Some mwd_tool
    ∧ tag run = "Run"
    ∧ attribute "TelemetryTool" run = Some (TOOL.tool_id mwd_tool)
    ∧ children run = bha :: rest
    ∧ attribute "Name" <$> children bha
      = Some ∘ TOOL.tool_id <$> FRAME_REQUEST.tools frame_request
    ∧ tag <$> children run
      = (["BottomHoleAssembly"]
         ++ replicate (framesets_written (TOOL.tool_id mwd_tool)) "FrameSetList"
         ++ (if nonempty (FRAME_REQUEST.dds_frame frame_request)
             then ["DDSFrame"] else [])
         ++ ["UtilityFrame"]
         ++ (if String.eqb (TOOL.tool_id mwd_tool) "SPTOOL" then []
             else "OnDemandFrame"
                  :: (if nonempty (FRAME_REQUEST.modf_frame frame_request)
                      then ["MODFSet"] else []))
         ++ ["CustomRuleFile"; "QCElement"])%list.
Proof.
  intros H. pose proof (convert_to_xml_world _ _ _ _ _ H) as ->.
  revert H. unfold convert_to_xml. lazy zeta.
  unfold bind at 1, next_of at 1.
  destruct (List.find TOOL.is_mwd _) as [mwd|] eqn:Ef; [|done].
  unfold ret at 1. simpl id. unfold framesets_written.
  assert (Hbha : attribute "Name" <$> (tool_element ext <$> FRAME_REQUEST.tools frame_request)
                 = Some ∘ TOOL.tool_id <$> FRAME_REQUEST.tools frame_request).
  { rewrite <- list_fmap_compose. by apply list_fmap_ext. }
  destruct (String.eqb (TOOL.tool_id mwd) "SPTOOL") eqn:Esp.
  - unfold bind at 1. simpl negb. cbv iota. unfold ret at 1.
    intros [= <-]. eexists _, _, _, mwd.
    split; [reflexivity|]. split; [done|]. split; [done|]. split; [done|].
    split; [done|]. split; [reflexivity|]. split; [exact Hbha|].
    rewrite Esp.
    destruct (FRAME_REQUEST.dds_frame frame_request);
      destruct (UTILITY.utility (FRAME_REQUEST.utility frame_request));
      reflexivity.
  - unfold bind at 1. simpl negb. cbv iota.
    destruct (nonempty (FRAME_REQUEST.modf_frame frame_request)) eqn:Em.
    + unfold bind at 1, next_of at 1.
      destruct (List.find is_ARC6_or_ECO _) as [lwd|] eqn:El; [|done].
      unfold ret at 1 2. intros [= <-]. eexists _, _, _, mwd.
      split; [reflexivity|]. split; [done|]. split; [done|]. split; [done|].
      split; [done|]. split; [reflexivity|]. split; [exact Hbha|].
      rewrite Esp.
      destruct (String.eqb (TOOL.tool_id mwd) "DVDXTTOOL");
        destruct (FRAME_REQUEST.dds_frame frame_request);
        destruct (UTILITY.utility (FRAME_REQUEST.utility frame_request));
        destruct (FRAME_REQUEST.odf_frame frame_request);
        reflexivity.
    + unfold ret at 1 2. intros [= <-]. eexists _, _, _, mwd.
      split; [reflexivity|]. split; [done|]. split; [done|]. split; [done|].
      split; [done|]. split; [reflexivity|]. split; [exact Hbha|].
      rewrite Esp.
      destruct (String.eqb (TOOL.tool_id mwd) "DVDXTTOOL");
        destruct (FRAME_REQUEST.dds_frame frame_request);
        destruct (UTILITY.utility (FRAME_REQUEST.utility frame_request));
        destruct (FRAME_REQUEST.odf_frame frame_request);
        reflexivity.
Qed.

Lemma convert_to_xml_layout_witness :
  let dvd := TOOL.mk "DVDXTTOOL" "DVDXT" 140 true "" (Some "100") None None None in
  let eco := TOOL.mk "ECOTOOL" "ECO" 21 false "_v" (Some "8.2") (Some "6.75") None None in
  let fr := FRAME_REQUEST.mk "u4" "job" "well" "12.25in"
              FSL.default FSL.default FSL.default FSL.default FSL.default
              FSL.default (UTILITY.mk "" None None []) 3 false true false false
              None [eco; dvd] [] [[]] [] in
  ∃ run,
    convert_to_xml sample_ext fr (sample_world ∅ [])
    = (inr (tostring sample_ext run), sample_world ∅ [])
    ∧ attribute "TelemetryTool" run = Some "DVDXTTOOL"
    ∧ tag <$> children run
      = ["BottomHoleAssembly"; "FrameSetList"; "FrameSetList"; "FrameSetList";
         "UtilityFrame"; "OnDemandFrame"; "MODFSet"; "CustomRuleFile"; "QCElement"].
Proof.
  intros dvd eco fr.
  destruct (convert_to_xml sample_ext fr (sample_world ∅ [])) as [r w'] eqn:E.
  assert (Hr : ∃ doc, r = inr doc)
    by (apply (f_equal fst) in E; vm_compute in E; subst r; by eexists).
  destruct Hr as (doc & ->).
  destruct (convert_to_xml_layout sample_ext fr _ doc w' E)
    as (run & bha & rest & mwd & -> & -> & Hf & _ & Ha & _ & _ & Hl).
  injection Hf as <-. exists run. split; [done|]. split; [exact Ha|exact Hl].
Defined.




(* ===================================================================== *)
(** ** The upsert of the status table *)
(* ===================================================================== *)

(** X20.  [save_xml_to_sqlite] is an upsert: with the engine answering,
    the row of the UID holds the given document and status afterwards,
    whether or not the UID had a row, unlike [update_xml_in_sqlite]; no
    other row changes, and saving the same again changes nothing. *)
Theorem save_xml_to_sqlite_upserts file uid xml_content status w db :
  engine w = [] → files w !! file = Some db →
  ∃ w', save_xml_to_sqlite file uid xml_content status w = (inr tt, w')
        ∧ load_xml_from_sqlite file uid w' = (inr (Some (xml_content, status)), w')
        ∧ (∀ uid', uid' ≠ uid → stored_row w' file uid' = stored_row w file uid')
        ∧ save_xml_to_sqlite file uid xml_content status w' = (inr tt, w').
Proof.
  intros He Hf.
  change (save_xml_to_sqlite file uid xml_content status)
    with (run_mutation file (Save uid xml_content status)).
  rewrite run_mutation_nil, Hf by done. simpl mutate.
  eexists. split; [reflexivity|].
  split; [|split].
  - rewrite load_xml_from_sqlite_nil by done.
    by rewrite stored_row_set_files, lookup_insert_eq.
  - intros uid' Hne. rewrite stored_row_set_files, lookup_insert_ne by done.
    unfold stored_row. by rewrite Hf.
  - rewrite run_mutation_nil by done. simpl files. rewrite lookup_insert_eq.
    simpl mutate. simpl XmlStorage. rewrite insert_insert_eq.
    rewrite set_XmlStorage_twice. unfold set_files; simpl.
    by rewrite insert_insert_eq.
Qed.

Lemma save_xml_to_sqlite_upserts_witness :
  let w := sample_world {[ "u1" := PENDING ]} [] in
  ∃ w', save_xml_to_sqlite "default_db" "u9" (PBytes "<Run/>") 200 w = (inr tt, w')
        ∧ load_xml_from_sqlite "default_db" "u9" w'
          = (inr (Some (PBytes "<Run/>", 200)), w')
        ∧ stored_row w' "default_db" "u1" = Some PENDING.
Proof.
  intros w.
  destruct (save_xml_to_sqlite_upserts "default_db" "u9" (PBytes "<Run/>") 200 w
              (set_XmlStorage {[ "u1" := PENDING ]} sample_db) eq_refl eq_refl)
    as (w' & Hs & Hl & Ho & _).
  exists w'. split; [exact Hs|]. split; [exact Hl|].
  exact (eq_trans (Ho "u1" ltac:(discriminate)) eq_refl).
Defined.

(* ===================================================================== *)
(** ** The failures of [main] *)
(* ===================================================================== *)












(* ===================================================================== *)
(** ** The packing errors *)
(* ===================================================================== *)

Lemma truthy_message_elem (sub : list (string * option string)) msg :
  msg ∈ omap (λ '(_, m), match m with
                         | Some msg => if String.eqb msg "" then None else Some msg
                         | None => None
                         end) sub
  ↔ msg ≠ "" ∧ ∃ key, (key, Some msg) ∈ sub.
Proof.
  rewrite list_elem_of_omap. split.
  - intros ([key [m|]] & Hin & H); [|done].
    destruct (String.eqb_spec m "") as [|Hne]; [done|]. injection H as <-.
    split; [done|]. by exists key.
  - intros (Hne & key & Hin). exists (key, Some msg). split; [done|].
    by destruct (String.eqb_spec msg "").
Qed.

Lemma elem_of_flatten_errors errors fsl msg :
  (fsl, msg) ∈ flatten_errors errors →
  msg ≠ "" ∧ ∃ sub key, (fsl, sub) ∈ errors ∧ (key, Some msg) ∈ sub.
Proof.
  unfold flatten_errors. rewrite list_elem_of_omap.
  intros ([fsl' sub] & Hin & H).
  destruct (last _) as [m|] eqn:El; [|done]. injection H as <- <-.
  apply last_Some_elem_of, truthy_message_elem in El as (Hne & key & Hk).
  split; [done|]. by exists sub, key.
Qed.

Lemma flatten_errors_reports errors fsl sub key msg :
  (fsl, sub) ∈ errors → (key, Some msg) ∈ sub → msg ≠ "" →
  ∃ msg', (fsl, msg') ∈ flatten_errors errors.
Proof.
  intros Hin Hk Hne. unfold flatten_errors.
  destruct (last (omap (λ '(_, m), match m with
                                   | Some msg => if String.eqb msg "" then None else Some msg
                                   | None => None
                                   end) sub)) as [m|] eqn:El.
  - exists m. apply list_elem_of_omap. exists (fsl, sub). split; [done|].
    by rewrite El.
  - apply last_None in El.
    assert (H : msg ∈ omap (λ '(_, m), match m with
                                       | Some msg => if String.eqb msg "" then None else Some msg
                                       | None => None
                                       end) sub)
      by (apply truthy_message_elem; split; [done|by exists key]).
    rewrite El in H. by apply elem_of_nil in H.
Qed.

Lemma omap_length_le {A B} (f : A → option B) l :
  (length (omap f l) ≤ length l)%nat.
Proof.
  induction l as [|x l IH]; [done|]. csimpl. destruct (f x); simpl; lia.
Qed.

(** X22.  Which packing errors [main] acts on.  The error dictionary is
    flattened to at most one message per frameset; a message that
    survives is not empty and is one the packing service gave for that
    frameset; a frameset with a non-empty message always has an entry.
    Hence the flattened dictionary is empty, and [main] goes on to
    reconcile and serialize, exactly when every message of every
    frameset is [None] or empty. *)
Theorem flatten_errors_keeps_one_message_per_frameset errors :
  (∀ fsl msg, (fsl, msg) ∈ flatten_errors errors →
              msg ≠ "" ∧ ∃ sub key, (fsl, sub) ∈ errors ∧ (key, Some msg) ∈ sub)
  ∧ (∀ fsl sub key msg,
       (fsl, sub) ∈ errors → (key, Some msg) ∈ sub → msg ≠ "" →
       ∃ msg', (fsl, msg') ∈ flatten_errors errors)
  ∧ (length (flatten_errors errors) ≤ length errors)%nat
  ∧ (flatten_errors errors = []
     ↔ ∀ fsl sub key msg,
         (fsl, sub) ∈ errors → (key, Some msg) ∈ sub → msg = "").
Proof.
  split; [apply elem_of_flatten_errors|].
  split; [apply flatten_errors_reports|].
  split; [apply omap_length_le|].
  split.
  - intros Hnil fsl sub key msg Hin Hk.
    destruct (String.eqb_spec msg "") as [|Hne]; [done|].
    destruct (flatten_errors_reports _ _ _ _ _ Hin Hk Hne) as (m & Hm).
    rewrite Hnil in Hm. by apply elem_of_nil in Hm.
  - intros Hall. apply elem_of_nil_inv. intros [fsl msg] Hin.
    apply elem_of_flatten_errors in Hin as (Hne & sub & key & Hs & Hk).
    by apply Hne, (Hall fsl sub key).
Qed.

Lemma flatten_errors_keeps_one_message_per_frameset_witness :
  let errors := [("fsl1", [("rotary", Some "no room"); ("mtf", Some "too slow");
                           ("gtf", None)]);
                 ("fsl2", [("gtf", Some "")])] in
  flatten_errors errors = [("fsl1", "too slow")]
  ∧ ∃ sub key, ("fsl1", sub) ∈ errors ∧ (key, Some "too slow") ∈ sub.
Proof.
  intros errors. split; [reflexivity|].
  destruct (proj1 (flatten_errors_keeps_one_message_per_frameset errors)
              "fsl1" "too slow") as (_ & H); [|exact H].
  apply list_elem_of_here.
Defined.

(* ===================================================================== *)
(** ** The DDR tools *)
(* ===================================================================== *)

Lemma update_ddr_tools_from_each v tools data :
  Forall2 (λ tool tool',
             TOOL_eq tool' tool = true ∧ TOOL.size tool' = TOOL.size tool
             ∧ (no_DDR tool = true → tool' = tool)
             ∧ (is_DDRT tool = false → TOOL.version tool' = TOOL.version tool))
    tools (update_ddr_tools_from v tools data).
Proof.
  revert v. induction tools as [|t rest IH]; intros v; [constructor|].
  cbn [update_ddr_tools_from].
  destruct (Py.contains "DDR1" (TOOL.tool_id t)) eqn:E1;
    [|destruct (Py.contains "DDR2" (TOOL.tool_id t)) eqn:E2;
      [|destruct (Py.contains "DDR3" (TOOL.tool_id t)) eqn:E3;
        [|destruct (Py.contains "DDRT" (TOOL.tool_id t)) eqn:E4]]];
    (constructor; [|apply IH]); unfold no_DDR, is_DDRT, TOOL_eq; simpl;
    rewrite ?E1, ?E2, ?E3, ?E4; simpl;
    (split; [by apply bool_decide_eq_true|]); by repeat split.
Qed.

Lemma update_ddr_tools_from_DDRT v tools data i tool :
  tools !! i = Some tool → is_DDRT tool = true →
  update_ddr_tools_from v tools data !! i
  = Some (TOOL.set_version
            (default v (TOOL.version
                          <$> last (filter (λ t, Py.contains "DDR1" (TOOL.tool_id t) = true)
                                      (take i tools))))
            tool).
Proof.
  revert v i. induction tools as [|t rest IH]; intros v i; [done|].
  destruct i as [|j]; cbn [update_ddr_tools_from].
  - intros [= ->]. unfold is_DDRT.
    destruct (Py.contains "DDR1" _); [done|].
    destruct (Py.contains "DDR2" _); [done|].
    destruct (Py.contains "DDR3" _); [done|].
    destruct (Py.contains "DDRT" _); [|done]. done.
  - intros Hj Hd. simpl in Hj. cbn [take].
    destruct (Py.contains "DDR1" (TOOL.tool_id t)) eqn:E1.
    + simpl. rewrite (IH _ _ Hj Hd). rewrite filter_cons_True by done.
      rewrite last_cons. by destruct (last _).
    + rewrite filter_cons_False by (by rewrite E1).
      destruct (Py.contains "DDR2" _); [exact (IH _ _ Hj Hd)|].
      destruct (Py.contains "DDR3" _); [exact (IH _ _ Hj Hd)|].
      destruct (Py.contains "DDRT" _); exact (IH _ _ Hj Hd).
Qed.

(** X23.  What [update_ddr_tools] does to the tools.  Every tool stays
    the same tool for [TOOL.__eq__] and keeps its size; a tool whose
    identifier holds none of "DDR1", "DDR2", "DDR3", "DDRT" is not
    touched; only the DDR transmitter changes its version.  The
    transmitter gets the version of the last "DDR1" tool listed before
    it, and the empty version when none is listed before it, whatever
    comes later in the list: the serializer then writes its "Tool"
    element without a "Version" attribute. *)
Theorem update_ddr_tools_follows_the_list_order tools data :
  Forall2 (λ tool tool',
             TOOL_eq tool' tool = true ∧ TOOL.size tool' = TOOL.size tool
             ∧ (no_DDR tool = true → tool' = tool)
             ∧ (is_DDRT tool = false → TOOL.version tool' = TOOL.version tool))
    tools (update_ddr_tools tools data)
  ∧ (∀ i tool,
       tools !! i = Some tool → is_DDRT tool = true →
       ∃ tool',
         update_ddr_tools tools data !! i = Some tool'
         ∧ TOOL.version tool'
           = default (Some "")
               (TOOL.version
                  <$> last (filter (λ t, Py.contains "DDR1" (TOOL.tool_id t) = true)
                              (take i tools)))
         ∧ ((∀ t, t ∈ take i tools → Py.contains "DDR1" (TOOL.tool_id t) = false) →
            ∀ ext, attribute "Version" (tool_element ext tool') = None)).
Proof.
  split; [apply update_ddr_tools_from_each|].
  intros i tool Hi Hd. eexists. split; [by apply update_ddr_tools_from_DDRT|].
  split; [done|]. intros Hno ext.
  assert (Hf : filter (λ t, Py.contains "DDR1" (TOOL.tool_id t) = true) (take i tools) = []).
  { apply elem_of_nil_inv. intros t [Ht Hin]%list_elem_of_filter.
    by rewrite (Hno t Hin) in Ht. }
  rewrite Hf. simpl. unfold tool_element, attribute. simpl.
  by destruct (truthy_str (TOOL.size tool)), (truthy_num (TOOL.tr_spacing tool)),
       (truthy_num (TOOL.rt_blocksize tool)).
Qed.

Lemma update_ddr_tools_follows_the_list_order_witness :
  let ddrt := TOOL.mk "DDRTTOOL" "DDRT" 100 false "_rt" (Some "9.0") None None None in
  let ddr1 := TOOL.mk "DDR1TOOL" "DDR1" 101 false "_r1" (Some "9.4") None None None in
  let data := DdrData.mk (Some (PInt 100)) (Some (PInt 32)) None None None None in
  (TOOL.version <$> update_ddr_tools [ddr1; ddrt] data) = [Some "9.4"; Some "9.4"]
  ∧ ∃ tool',
      update_ddr_tools [ddrt; ddr1] data !! 0%nat = Some tool'
      ∧ TOOL.version tool' = Some ""
      ∧ attribute "Version" (tool_element sample_ext tool') = None.
Proof.
  intros ddrt ddr1 data. split; [reflexivity|].
  destruct (proj2 (update_ddr_tools_follows_the_list_order [ddrt; ddr1] data)
              0%nat ddrt eq_refl eq_refl) as (tool' & H & Hv & Ha).
  exists tool'. split; [exact H|]. split; [exact Hv|].
  apply Ha. intros t Ht. by apply elem_of_nil in Ht.
Defined.

(* ===================================================================== *)
(** ** The catalog in use *)
(* ===================================================================== *)
















Lemma returns_raises_nothing {A} (c : M A) w e w' :
  returns c → c w = (inl e, w') → False.
Proof. intros Hc H. destruct (Hc w) as (a & w1 & Ha & _). by rewrite Ha in H. Qed.



